(** * kops: the apply/nodeup run drivers around the task engine

    A shallow embedding of [ApplyClusterCmd.Run] (package cloudup) and of
    [NodeUpCommand.Run] (package nodeup): the two functions that build a
    task map, pick a [fi.Target], create the execution context, call
    [RunTasks] and finish the target.

    Both functions are straight-line Go with early returns.  They are
    embedded in a small monad that records every call to a collaborator
    (stores, builders, cloud, target, context) in a trace and that
    distinguishes the four ways a Go function body can end here:
    normal return, [return err], [klog.Exitf] (the process exits,
    deferred calls do not run) and a run-time panic (deferred calls
    run).

    The engine the drivers call (package fi: the dependency resolver and
    the executor behind [RunTasks]) is not among the files of the
    development; module [Engine] models its resolver from the
    specification.

    The functions around the two drivers are embedded as well: the node
    configuration ([ApiNodeup], [CloudupConfig]), the key sets of package
    fi ([Fi], [FiStore]), the helpers of nodeup's command ([NodeupHost])
    and two list checks of package validation ([Validation]).  Their
    bodies run in [Go.Eff], which records the calls to collaborators and
    ends in a result, an error or a run-time panic. *)

From Stdlib Require Import String List Bool Arith ZArith Lia.
From Stdlib Require Import Relations Permutation DecimalString.
From Stdlib Require DecimalNat.
Import ListNotations.
Local Open Scope string_scope.
Local Open Scope list_scope.

Set Implicit Arguments.

(* ===================================================================== *)
(** ** Durations ([time.Duration] is an int64 count of nanoseconds)        *)
(* ===================================================================== *)

Module GoTime.

Definition Duration := Z.




End GoTime.

(* ===================================================================== *)
(** ** Lifecycles, phases, targets, cloud providers                        *)
(* ===================================================================== *)

(** [fi.Lifecycle]: the five lifecycle tags. *)
Inductive Lifecycle : Type :=
| LifecycleSync
| LifecycleIgnore
| LifecycleWarnIfInsufficientAccess
| LifecycleExistsAndValidates
| LifecycleExistsAndWarnIfChanges.

Definition Lifecycle_eqb (a b : Lifecycle) : bool :=
  match a, b with
  | LifecycleSync, LifecycleSync
  | LifecycleIgnore, LifecycleIgnore
  | LifecycleWarnIfInsufficientAccess, LifecycleWarnIfInsufficientAccess
  | LifecycleExistsAndValidates, LifecycleExistsAndValidates
  | LifecycleExistsAndWarnIfChanges, LifecycleExistsAndWarnIfChanges => true
  | _, _ => false
  end.

(** [cloudup.Phase] is a Go string type.  [Run] only ever compares it, in
    one [switch], against [Phase("")] and the three constants
    [PhaseNetwork], [PhaseSecurity], [PhaseCluster]; the cases of a Go
    switch over constants are pairwise different, so a phase is one of
    these four or some other string. *)
Inductive Phase : Type :=
| PhaseEmpty                      (* Phase("") *)
| PhaseNetwork
| PhaseSecurity
| PhaseCluster
| PhaseOther (s : string).        (* any other string *)

(** [ApplyClusterCmd.TargetName], a string compared in [Run] against the
    constants [TargetDirect], [TargetTerraform], [TargetCloudformation]
    and [TargetDryRun] only. *)
Inductive TargetName : Type :=
| TargetDirect
| TargetTerraform
| TargetCloudformation
| TargetDryRun
| TargetOther (s : string).       (* any other string *)

Definition TargetName_is_dryrun (t : TargetName) : bool :=
  match t with TargetDryRun => true | _ => false end.

(** [kops.CloudProviderID(cluster.Spec.CloudProvider)]. *)
Inductive CloudProviderID : Type :=
| CloudProviderGCE
| CloudProviderDO
| CloudProviderAWS
| CloudProviderALI
| CloudProviderAzure
| CloudProviderOpenstack
| CloudProviderOther (s : string).

(** The back-end families of the glossary. *)
Inductive Backend : Type :=
| BackendDirect
| BackendTerraform
| BackendCloudformation
| BackendDryRun
| BackendCloudInit.

(* ===================================================================== *)
(** ** Collaborators, events and the run monad                             *)
(* ===================================================================== *)

(** Go [error] values are formatted messages. *)
Definition error := string.

(** [fi.Task] is an interface; the drivers only move tasks around, keyed
    by name, in a [map[string]fi.Task]. *)
Definition Task := string.
Definition TaskMap := list (string * Task).

(** The [fi.Target] values the two drivers construct. *)
Inductive Target : Type :=
| GCEAPITarget
| AWSAPITarget
| DOAPITarget
| OpenstackAPITarget
| ALIAPITarget
| AzureAPITarget
| TerraformTarget (project outDir : string)
| CloudformationTarget (project outDir : string)
| DryRunTarget (discardOutput : bool)
| LocalTarget (cacheDir : string)
| CloudInitTarget.

Definition backend (t : Target) : Backend :=
  match t with
  | GCEAPITarget | AWSAPITarget | DOAPITarget
  | OpenstackAPITarget | ALIAPITarget | AzureAPITarget
  | LocalTarget _ => BackendDirect
  | TerraformTarget _ _ => BackendTerraform
  | CloudformationTarget _ _ => BackendCloudformation
  | DryRunTarget _ => BackendDryRun
  | CloudInitTarget => BackendCloudInit
  end.

(** What [fi.NewContext] is given by the drivers (the stores and the cloud
    handle are passed through unchanged and are left out). *)
Record Context : Type := mkContext {
  ctxTarget : Target;
  ctxCheckExisting : bool;
  ctxTasks : TaskMap
}.

(** [fi.RunTasksOptions] as handed to [RunTasks]: either the caller's
    value or a zero value on which [InitDefaults()] was called. *)
Inductive RunTasksOptions : Type :=
| OptionsInitDefaults
| OptionsGiven (maxTaskDuration waitAfterAllTasksFailed : GoTime.Duration).

(** Writes to the cluster state store made by [ApplyClusterCmd.Run]. *)
Inductive StoreWrite : Type :=
| WriteKopsVersionUpdated            (* registry.PathKopsVersionUpdated *)
| WriteClusterCompleted              (* registry.WriteConfigDeprecated *)
| UpdateInstanceGroup (g : string)   (* Clientset.InstanceGroupsFor.Update *)
| WriteMirror (g : string).          (* vfsMirror.WriteMirror *)

(** One entry per call that leaves the function body. *)
Inductive Event : Type :=
| EvCall (name : string)
| EvWarning (msg : string)
| EvBuildTasks (builders : list (string * Lifecycle))
               (overrides : list (string * Lifecycle))
| EvNewTarget (t : Target)
| EvFindDeletions (overrides : list (string * Lifecycle))
| EvNewContext (ctx : Context)
| EvStoreWrite (wr : StoreWrite)
| EvRunTasks (ctx : Context) (options : RunTasksOptions)
| EvPrecreateDNS
| EvFinish (t : Target) (tasks : TaskMap)
| EvContextClose (ctx : Context).

(** How a function body ends. *)
Inductive Outcome (A : Type) : Type :=
| Returned (a : A)          (* falls through / [return nil] *)
| Failed (e : error)        (* [return err] *)
| Exited (msg : string)     (* [klog.Exitf]: the process exits *)
| Panicked (msg : string).  (* a run-time panic unwinds the body *)

Arguments Returned {A} a.
Arguments Failed {A} e.
Arguments Exited {A} msg.
Arguments Panicked {A} msg.

Definition M (A : Type) : Type := (list Event * Outcome A)%type.

Definition ret {A} (a : A) : M A := ([], Returned a).

Definition bind {A B} (m : M A) (f : A -> M B) : M B :=
  match m with
  | (t, Returned a) => let (t', r) := f a in (t ++ t', r)
  | (t, Failed e) => (t, Failed e)
  | (t, Exited msg) => (t, Exited msg)
  | (t, Panicked msg) => (t, Panicked msg)
  end.

Definition fail {A} (e : error) : M A := ([], Failed e).
Definition exitf {A} (msg : string) : M A := ([], Exited msg).
Definition panic {A} (msg : string) : M A := ([], Panicked msg).

(** The messages of the two run-time panics the drivers can run into. *)
Definition nilDereference : string :=
  "invalid memory address or nil pointer dereference".
Definition indexOutOfRange : string := "index out of range".
Definition emit (ev : Event) : M unit := ([ev], Returned tt).

Notation "x <- m ;; k" := (bind m (fun x => k))
  (at level 61, m at next level, right associativity).
Notation "m ;; k" := (bind m (fun _ => k))
  (at level 61, right associativity).

Definition trace {A} (m : M A) : list Event := fst m.
Definition outcome {A} (m : M A) : Outcome A := snd m.

(** The result of every collaborator call is decided by the world the
    run happens in. *)
Definition Oracle := Event -> option error.

(** [fmt.Errorf(prefix + "%v", err)].  Where a message of the source
    formats a value the model does not carry (a path, a key name), the
    message is kept without that value. *)
Definition errorf (prefix : string) (e : error) : error :=
  String.append prefix e.

(** The [%q] verb on a string that needs no escaping. *)
Definition quoted (s : string) : string :=
  String (Ascii.ascii_of_nat 34)
         (String.append s (String (Ascii.ascii_of_nat 34) EmptyString)).

Arguments errorf : simpl never.
Arguments quoted : simpl never.

(** A call that returns an [error]. *)
Definition call (fails : Oracle) (ev : Event) : M unit :=
  ([ev], match fails ev with Some e => Failed e | None => Returned tt end).

(** [if err := f(); err != nil { return fmt.Errorf(prefix + "%v", err) }] *)
Definition callWrap (fails : Oracle) (ev : Event) (prefix : string) : M unit :=
  ([ev], match fails ev with
         | Some e => Failed (errorf prefix e)
         | None => Returned tt
         end).

(** [if err := f(); err != nil { klog.Warningf(prefix + "%v", err) }] *)
Definition callWarn (fails : Oracle) (ev : Event) (prefix : string) : M unit :=
  match fails ev with
  | Some e => ([ev; EvWarning (errorf prefix e)], Returned tt)
  | None => ([ev], Returned tt)
  end.

(** [if err := f(); err != nil { klog.Exitf(prefix + "%v", err) }] *)
Definition callExit (fails : Oracle) (ev : Event) (prefix : string) : M unit :=
  ([ev], match fails ev with
         | Some e => Exited (errorf prefix e)
         | None => Returned tt
         end).

Definition when (b : bool) (m : M unit) : M unit := if b then m else ret tt.

(** [for _, x := range xs { body }] with early return. *)
Fixpoint forEach {A} (xs : list A) (body : A -> M unit) : M unit :=
  match xs with
  | [] => ret tt
  | x :: xs' => body x ;; forEach xs' body
  end.

(** [defer f()] placed at this point of the body: [f] runs when the rest
    of the body returns, with or without an error, or panics, and does
    not run when the process exits. *)
Definition defer {A} (ev : Event) (rest : M A) : M A :=
  match rest with
  | (t, Exited msg) => (t, Exited msg)
  | (t, r) => (t ++ [ev], r)
  end.

(* ===================================================================== *)
(** ** package cloudup: [ApplyClusterCmd.Run]                              *)
(* ===================================================================== *)

Module Cloudup.

(** The fields of the populated [kops.Cluster] that [Run] branches on. *)
Record Cluster : Type := mkCluster {
  Name : string;                          (* ObjectMeta.Name *)
  KubernetesVersion : string;
  DNSZone : string;
  EncryptionConfig : option bool;         (* *bool *)
  CiliumEnableEncryption : option bool;   (* None: Networking.Cilium == nil *)
  CloudProvider : CloudProviderID;
  SSHKeyName : option string;             (* *string *)
  NodeTerminationHandlerSQS : bool        (* nth != nil && Enabled && EnableSQSTerminationDraining *)
}.

(** [fi.BoolValue]: a nil pointer reads as false. *)
Definition BoolValue (b : option bool) : bool :=
  match b with Some v => v | None => false end.

(** The fields of [ApplyClusterCmd] that [Run] reads. *)
Record ApplyClusterCmd : Type := mkCmd {
  InstanceGroups : option (list string);  (* None: nil; groups by name *)
  TargetName_ : TargetName;
  OutDir : string;
  AllowKopsDowngrade : bool;
  RunTasksOptions_ : option RunTasksOptions;
  Phase_ : Phase;
  LifecycleOverrides : list (string * Lifecycle);
  GetAssets : bool
}.

(** What reading [configBase.Join(registry.PathKopsVersionUpdated)] gives. *)
Inductive KopsVersionFile : Type :=
| VersionFileNotExist                      (* err == os.ErrNotExist *)
| VersionFileError (e : error)             (* any other read error *)
| VersionFileContent (parses newer : bool). (* semver.Parse ok?, GT this kops? *)

(** Everything outside the function body: the answers of the
    collaborators. *)
Record World : Type := mkWorld {
  fails : Oracle;
  listedInstanceGroups : list string;    (* Clientset...List() *)
  fullCluster : Cluster;                 (* PopulateClusterSpec *)
  IsGossipHostname : string -> bool;     (* dns.IsGossipHostname *)
  kopsVersionUpdated : KopsVersionFile;
  encryptionconfigSecret : bool;         (* FindSecret returned non-nil *)
  ciliumpasswordSecret : bool;
  sshPublicKeys : nat;                   (* len(sshPublicKeys) *)
  gceProject : string;                   (* gceCloud.Project() *)
  AlphaAllowGCE : bool;
  AlphaAllowALI : bool;
  featureAzure : bool;
  featureSpotinst : bool;
  featureSpotinstHybrid : bool;
  builtTasks : TaskMap;                  (* l.BuildTasks *)
  deletionTasks : TaskMap                (* l.FindDeletions *)
}.

Record Lifecycles : Type := mkLifecycles {
  securityLifecycle : Lifecycle;
  networkLifecycle : Lifecycle;
  clusterLifecycle : Lifecycle
}.

(** The [switch c.Phase] of [Run], starting from three [LifecycleSync]. *)
Definition phaseLifecycles (p : Phase) (t : TargetName) : error + Lifecycles :=
  let securityLifecycle := LifecycleSync in
  let networkLifecycle := LifecycleSync in
  let clusterLifecycle := LifecycleSync in
  match p with
  | PhaseEmpty =>
      inr (mkLifecycles securityLifecycle networkLifecycle clusterLifecycle)
  | PhaseNetwork =>
      inr (mkLifecycles LifecycleIgnore networkLifecycle LifecycleIgnore)
  | PhaseSecurity =>
      inr (mkLifecycles securityLifecycle LifecycleExistsAndWarnIfChanges
                        LifecycleIgnore)
  | PhaseCluster =>
      if TargetName_is_dryrun t
      then inr (mkLifecycles LifecycleExistsAndWarnIfChanges
                             LifecycleExistsAndWarnIfChanges clusterLifecycle)
      else inr (mkLifecycles LifecycleExistsAndValidates
                             LifecycleExistsAndValidates clusterLifecycle)
  | PhaseOther s => inl (errorf "unknown phase " (quoted s))
  end.

(** The switch followed by [if c.GetAssets { ... }]. *)
Definition builderLifecycles (p : Phase) (t : TargetName) (getAssets : bool)
  : error + Lifecycles :=
  match phaseLifecycles p t with
  | inl e => inl e
  | inr l =>
      if getAssets
      then inr (mkLifecycles LifecycleIgnore LifecycleIgnore LifecycleIgnore)
      else inr l
  end.

Definition liftE {A} (r : error + A) : M A :=
  match r with inl e => fail e | inr a => ret a end.

(** [upgradeSpecs]. *)
Definition upgradeSpecs (w : World) (igs : list string) : M unit :=
  call (fails w) (EvCall "PopulateClusterSpec") ;;
  forEach igs (fun g =>
    call (fails w) (EvCall (String.append "PopulateInstanceGroupSpec " g))).

(** The [if !c.AllowKopsDowngrade { ... }] block. *)
Definition checkKopsDowngrade (c : ApplyClusterCmd) (w : World) : M unit :=
  when (negb (AllowKopsDowngrade c))
    (emit (EvCall "ReadFile PathKopsVersionUpdated") ;;
     match kopsVersionUpdated w with
     | VersionFileContent parses newer =>
         if negb parses
         then fail "error parsing last kops version updated"
         else if newer
         then fail "kops version older than last used to update the cluster"
         else ret tt
     | VersionFileNotExist => ret tt
     | VersionFileError e =>
         fail (errorf "error reading last kops version used to update: " e)
     end).

(** The two secret checks. *)
Definition checkSecrets (w : World) (cluster : Cluster) : M unit :=
  when (BoolValue (EncryptionConfig cluster))
    (callWrap (fails w) (EvCall "FindSecret encryptionconfig")
              "could not load encryptionconfig secret: " ;;
     if encryptionconfigSecret w then ret tt
     else fail "could not find encryptionconfig secret") ;;
  when (match CiliumEnableEncryption cluster with
        | Some b => b | None => false end)
    (callWrap (fails w) (EvCall "FindSecret ciliumpassword")
              "could not load the ciliumpassword secret: " ;;
     if ciliumpasswordSecret w then ret tt
     else fail "could not find ciliumpassword secret").

(** The first [switch kops.CloudProviderID(...)]: per-provider checks;
    returns [project]. *)
Definition checkCloudProvider (w : World) (cluster : Cluster) : M string :=
  let n := sshPublicKeys w in
  match CloudProvider cluster with
  | CloudProviderGCE =>
      if negb (AlphaAllowGCE w)
      then fail "GCE support is currently alpha, and is feature-gated.  export KOPS_FEATURE_FLAGS=AlphaAllowGCE"
      else ret (gceProject w)
  | CloudProviderDO =>
      if (n =? 0)%nat &&
         match SSHKeyName cluster with
         | None => true
         | Some k => String.eqb k ""
         end
      then fail "SSH public key must be specified when running with DigitalOcean"
      else ret ""
  | CloudProviderAWS =>
      call (fails w) (EvCall "awsCloud.AccountInfo") ;;
      if (n =? 0)%nat &&
         match SSHKeyName cluster with None => true | Some _ => false end
      then fail "SSH public key must be specified when running with AWS"
      else if (1 <? n)%nat
      then fail "exactly one 'admin' SSH public key can be specified when running with AWS; please delete a key using `kops delete secret`"
      else ret ""
  | CloudProviderALI =>
      if negb (AlphaAllowALI w)
      then fail "aliyun support is currently alpha, and is feature-gated.  export KOPS_FEATURE_FLAGS=AlphaAllowALI"
      else if (n =? 0)%nat
      then fail "SSH public key must be specified when running with ALICloud"
      else if negb (n =? 1)%nat
      then fail "exactly one 'admin' SSH public key can be specified when running with ALICloud; please delete a key using `kops delete secret`"
      else ret ""
  | CloudProviderAzure =>
      if negb (featureAzure w)
      then fail "azure support is currently alpha, and is feature-gated. Please export KOPS_FEATURE_FLAGS=Azure"
      else if (n =? 0)%nat
      then fail "SSH public key must be specified when running with AzureCloud"
      else if negb (n =? 1)%nat
      then fail "exactly one 'admin' SSH public key can be specified when running with AzureCloud; please delete a key using `kops delete secret`"
      else ret ""
  | CloudProviderOpenstack =>
      if (n =? 0)%nat
      then fail "SSH public key must be specified when running with Openstack"
      else if negb (n =? 1)%nat
      then fail "exactly one 'admin' SSH public key can be specified when running with Openstack; please delete a key using `kops delete secret`"
      else ret ""
  | CloudProviderOther s => fail (errorf "unknown CloudProvider " (quoted s))
  end.

(** The model builders appended to [l.Builders], by type name, each
    with the lifecycle it is given. *)
Definition builder (name : string) (l : Lifecycle) : string * Lifecycle :=
  (name, l).

Definition commonBuilders (lc : Lifecycles) : list (string * Lifecycle) :=
  let clusterLifecycle := clusterLifecycle lc in
  [ builder "BootstrapChannelBuilder" clusterLifecycle;
    builder "model.PKIModelBuilder" clusterLifecycle;
    builder "model.IssuerDiscoveryModelBuilder" clusterLifecycle;
    builder "kubeapiserver.KubeApiserverBuilder" clusterLifecycle;
    builder "etcdmanager.EtcdManagerBuilder" clusterLifecycle;
    builder "model.MasterVolumeBuilder" clusterLifecycle ].

(** The second [switch kops.CloudProviderID(...)].  A builder that has
    both a [Lifecycle] and a [SecurityLifecycle] field is listed once
    per field. *)
Definition providerBuilders (w : World) (cluster : Cluster) (lc : Lifecycles)
  : error + list (string * Lifecycle) :=
  let securityLifecycle := securityLifecycle lc in
  let networkLifecycle := networkLifecycle lc in
  let clusterLifecycle := clusterLifecycle lc in
  match CloudProvider cluster with
  | CloudProviderAWS =>
      let awsModelBuilder :=
        [ builder "awsmodel.AutoscalingGroupModelBuilder" clusterLifecycle;
          builder "awsmodel.AutoscalingGroupModelBuilder.SecurityLifecycle" securityLifecycle ] in
      inr ([ builder "awsmodel.APILoadBalancerBuilder" clusterLifecycle;
             builder "awsmodel.APILoadBalancerBuilder.SecurityLifecycle" securityLifecycle;
             builder "awsmodel.BastionModelBuilder" clusterLifecycle;
             builder "awsmodel.BastionModelBuilder.SecurityLifecycle" securityLifecycle;
             builder "awsmodel.DNSModelBuilder" clusterLifecycle;
             builder "awsmodel.ExternalAccessModelBuilder" securityLifecycle;
             builder "awsmodel.FirewallModelBuilder" securityLifecycle;
             builder "awsmodel.SSHKeyModelBuilder" securityLifecycle;
             builder "awsmodel.NetworkModelBuilder" networkLifecycle;
             builder "awsmodel.IAMModelBuilder" securityLifecycle;
             builder "awsmodel.OIDCProviderBuilder" securityLifecycle ]
           ++ (if featureSpotinst w
               then [ builder "awsmodel.SpotInstanceGroupModelBuilder" clusterLifecycle;
                      builder "awsmodel.SpotInstanceGroupModelBuilder.SecurityLifecycle" securityLifecycle ]
                    ++ (if featureSpotinstHybrid w then awsModelBuilder else [])
               else awsModelBuilder)
           ++ (if NodeTerminationHandlerSQS cluster
               then [ builder "awsmodel.NodeTerminationHandlerBuilder" clusterLifecycle ]
               else []))
  | CloudProviderDO =>
      inr [ builder "domodel.APILoadBalancerModelBuilder" securityLifecycle;
            builder "domodel.DropletBuilder" clusterLifecycle ]
  | CloudProviderGCE =>
      let storageACLLifecycle :=
        if negb (Lifecycle_eqb securityLifecycle LifecycleIgnore)
        then LifecycleWarnIfInsufficientAccess
        else securityLifecycle in
      inr [ builder "gcemodel.APILoadBalancerBuilder" securityLifecycle;
            builder "gcemodel.ExternalAccessModelBuilder" securityLifecycle;
            builder "gcemodel.FirewallModelBuilder" securityLifecycle;
            builder "gcemodel.NetworkModelBuilder" networkLifecycle;
            builder "gcemodel.StorageAclBuilder" storageACLLifecycle;
            builder "gcemodel.AutoscalingGroupModelBuilder" clusterLifecycle ]
  | CloudProviderALI =>
      inr [ builder "alimodel.APILoadBalancerModelBuilder" clusterLifecycle;
            builder "alimodel.NetworkModelBuilder" clusterLifecycle;
            builder "alimodel.RAMModelBuilder" clusterLifecycle;
            builder "alimodel.SSHKeyModelBuilder" clusterLifecycle;
            builder "alimodel.FirewallModelBuilder" clusterLifecycle;
            builder "alimodel.ExternalAccessModelBuilder" clusterLifecycle;
            builder "alimodel.ScalingGroupModelBuilder" clusterLifecycle ]
  | CloudProviderAzure =>
      inr [ builder "azuremodel.APILoadBalancerModelBuilder" clusterLifecycle;
            builder "azuremodel.NetworkModelBuilder" clusterLifecycle;
            builder "azuremodel.ResourceGroupModelBuilder" clusterLifecycle;
            builder "azuremodel.VMScaleSetModelBuilder" clusterLifecycle ]
  | CloudProviderOpenstack =>
      inr [ builder "openstackmodel.NetworkModelBuilder" networkLifecycle;
            builder "openstackmodel.SSHKeyModelBuilder" securityLifecycle;
            builder "openstackmodel.FirewallModelBuilder" securityLifecycle;
            builder "openstackmodel.ServerGroupModelBuilder" clusterLifecycle ]
  | CloudProviderOther s => inl (errorf "unknown cloudprovider " (quoted s))
  end.

(** The local variables the [switch c.TargetName] leaves behind. *)
Record Selection : Type := mkSelection {
  target : Target;
  checkExisting : bool;
  dryRun : bool;
  shouldPrecreateDNS : bool
}.

(** [switch c.TargetName], entered with [checkExisting := true],
    [dryRun := false], [shouldPrecreateDNS := true]. *)
Definition selectTarget (c : ApplyClusterCmd) (w : World) (cluster : Cluster)
           (project : string) : M Selection :=
  let checkExisting := true in
  let dryRun := false in
  let shouldPrecreateDNS := true in
  match TargetName_ c with
  | TargetDirect =>
      t <- liftE (match CloudProvider cluster with
                  | CloudProviderGCE => inr GCEAPITarget
                  | CloudProviderAWS => inr AWSAPITarget
                  | CloudProviderDO => inr DOAPITarget
                  | CloudProviderOpenstack => inr OpenstackAPITarget
                  | CloudProviderALI => inr ALIAPITarget
                  | CloudProviderAzure => inr AzureAPITarget
                  | CloudProviderOther s =>
                      inl (errorf "direct configuration not supported with CloudProvider:"
                                   (quoted s))
                  end) ;;
      emit (EvNewTarget t) ;;
      ret (mkSelection t checkExisting dryRun shouldPrecreateDNS)
  | TargetTerraform =>
      let tf := TerraformTarget project (OutDir c) in
      emit (EvNewTarget tf) ;;
      call (fails w) (EvCall "tf.AddOutputVariable region") ;;
      when (negb (String.eqb project ""))
        (call (fails w) (EvCall "tf.AddOutputVariable project")) ;;
      call (fails w) (EvCall "tf.AddOutputVariable cluster_name") ;;
      ret (mkSelection tf false dryRun false)
  | TargetCloudformation =>
      let t := CloudformationTarget project (OutDir c) in
      emit (EvNewTarget t) ;;
      ret (mkSelection t false dryRun false)
  | TargetDryRun =>
      let t := DryRunTarget (GetAssets c) in
      emit (EvNewTarget t) ;;
      ret (mkSelection t checkExisting true false)
  | TargetOther s => fail (errorf "unsupported target type " (quoted s))
  end.

(** The [if !dryRun && clusterLifecycle != fi.LifecycleIgnore { ... }]
    block: the writes to the state store. *)
Definition writeState (w : World) (igs : list string) : M unit :=
  call (fails w) (EvCall "acls.GetACL") ;;
  callWrap (fails w) (EvStoreWrite WriteKopsVersionUpdated)
           "error writing kops version: " ;;
  callWrap (fails w) (EvStoreWrite WriteClusterCompleted)
           "error writing completed cluster spec: " ;;
  forEach igs (fun g =>
    callWrap (fails w) (EvStoreWrite (UpdateInstanceGroup g))
             "error writing InstanceGroup to registry: " ;;
    callWrap (fails w) (EvStoreWrite (WriteMirror g))
             "error writing instance group spec to mirror: ").

(** [var options fi.RunTasksOptions; if c.RunTasksOptions != nil ...]. *)
Definition runTasksOptions (c : ApplyClusterCmd) : RunTasksOptions :=
  match RunTasksOptions_ c with
  | Some o => o
  | None => OptionsInitDefaults
  end.

(** What [Run] leaves in the output fields of the command. *)
Record Outputs : Type := mkOutputs {
  outTaskMap : TaskMap;     (* c.TaskMap *)
  outTarget : Target        (* c.Target *)
}.

(** Everything up to and including [l.BuildTasks]: the lifecycles, the
    project, the instance groups and [c.TaskMap]. *)
Definition prepare (c : ApplyClusterCmd) (w : World)
  : M (Lifecycles * string * list string * TaskMap) :=
  igs <- match InstanceGroups c with
         | None =>
             call (fails w) (EvCall "Clientset.InstanceGroupsFor.List") ;;
             ret (listedInstanceGroups w)
         | Some l => ret l
         end ;;
  callWarn (fails w) (EvCall "ChannelForCluster") "" ;;
  lc <- liftE (builderLifecycles (Phase_ c) (TargetName_ c) (GetAssets c)) ;;
  upgradeSpecs w igs ;;
  call (fails w) (EvCall "validateKopsVersion") ;;
  call (fails w) (EvCall "validateKubernetesVersion") ;;
  let cluster := fullCluster w in
  callWrap (fails w) (EvCall "BuildVfsPath ConfigBase")
           "error parsing config base: " ;;
  checkKopsDowngrade c w ;;
  call (fails w) (EvCall "validation.DeepValidate") ;;
  (if String.eqb (KubernetesVersion cluster) ""
   then fail "KubernetesVersion not set" else ret tt) ;;
  (if String.eqb (DNSZone cluster) "" &&
      negb (IsGossipHostname w (Name cluster))
   then fail "DNSZone not set" else ret tt) ;;
  call (fails w) (EvCall "Clientset.KeyStore") ;;
  call (fails w) (EvCall "Clientset.SSHCredentialStore") ;;
  call (fails w) (EvCall "Clientset.SecretStore") ;;
  callWrap (fails w) (EvCall "addonsClient.List") "error fetching addons: " ;;
  checkSecrets w cluster ;;
  call (fails w) (EvCall "addFileAssets") ;;
  callWrap (fails w) (EvCall "FindSSHPublicKeys")
           "error retrieving SSH public key: " ;;
  project <- checkCloudProvider w cluster ;;
  (if IsGossipHostname w (Name cluster)
   then ret tt
   else call (fails w) (EvCall "validateDNS")) ;;
  call (fails w) (EvCall "newNodeUpConfigBuilder") ;;
  callWrap (fails w) (EvCall "templates.LoadTemplates")
           "error loading templates: " ;;
  call (fails w) (EvCall "tf.AddTo") ;;
  provider <- liftE (providerBuilders w cluster lc) ;;
  callWrap (fails w)
           (EvBuildTasks (commonBuilders lc ++ provider) (LifecycleOverrides c))
           "error building tasks: " ;;
  ret (lc, project, igs, builtTasks w).

(** From [fi.NewContext] to the end of the function. *)
Definition execute (c : ApplyClusterCmd) (w : World) (lc : Lifecycles)
           (igs : list string) (sel : Selection) (tasks : TaskMap)
  : M Outputs :=
  let cluster := fullCluster w in
  let context := mkContext (target sel) (checkExisting sel) tasks in
  callWrap (fails w) (EvNewContext context) "error building context: " ;;
  defer (EvContextClose context)
    (when (negb (dryRun sel) &&
           negb (Lifecycle_eqb (clusterLifecycle lc) LifecycleIgnore))
       (writeState w igs) ;;
     callWrap (fails w) (EvRunTasks context (runTasksOptions c))
              "error running tasks: " ;;
     let shouldPrecreateDNS :=
       if IsGossipHostname w (Name cluster) then false
       else shouldPrecreateDNS sel in
     when (shouldPrecreateDNS &&
           negb (Lifecycle_eqb (clusterLifecycle lc) LifecycleIgnore))
       (callWarn (fails w) EvPrecreateDNS
          "unable to pre-create DNS records - cluster startup may be slower: ") ;;
     callWrap (fails w) (EvFinish (target sel) tasks)
              "error closing target: " ;;
     ret (mkOutputs tasks (target sel))).

(** From [switch c.TargetName] to the end of the function. *)
Definition runOnTarget (c : ApplyClusterCmd) (w : World) (lc : Lifecycles)
           (project : string) (igs : list string) (taskMap : TaskMap)
  : M Outputs :=
  sel <- selectTarget c w (fullCluster w) project ;;
  tasks <- (if checkExisting sel
            then callWrap (fails w) (EvFindDeletions (LifecycleOverrides c))
                          "error finding deletions: " ;;
                 ret (deletionTasks w)
            else ret taskMap) ;;
  execute c w lc igs sel tasks.

(** [func (c *ApplyClusterCmd) Run(ctx context.Context) error]. *)
Definition Run (c : ApplyClusterCmd) (w : World) : M Outputs :=
  p <- prepare c w ;;
  let '(lc, project, igs, taskMap) := p in
  runOnTarget c w lc project igs taskMap.

End Cloudup.

(* ===================================================================== *)
(** ** package nodeup: [MaxTaskDuration] and [NodeUpCommand.Run]           *)
(* ===================================================================== *)

Module Nodeup.


(** The fields of [NodeUpCommand] that are set by the caller. *)
Record NodeUpCommand : Type := mkCmd {
  CacheDir : string;
  ConfigLocation : string;
  Target_ : string
}.

(** The fields of the loaded [nodeup.Config] that [Run] branches on. *)
Record Config : Type := mkConfig {
  ConfigServer : bool;            (* c.config.ConfigServer != nil *)
  ConfigBase : string;            (* fi.StringValue(c.config.ConfigBase) *)
  ClusterLocation : string;       (* fi.StringValue(c.config.ClusterLocation) *)
  InstanceGroupName : string;
  Assets : list string;           (* c.config.Assets[architecture] *)
  Images : list string;           (* c.config.Images[architecture] *)
  EnableLifecycleHook : bool;
  IsNodeOrAPIServer : bool        (* InstanceGroupRole is Node or APIServer *)
}.

(** The fields of the loaded [api.Cluster] that [Run] branches on. *)
Record Cluster : Type := mkCluster {
  CloudProviderIsAWS : bool;
  SecretStore : string;
  KeyStore : string;
  Kubelet : bool;                 (* c.cluster.Spec.Kubelet != nil *)
  MasterKubelet : bool;           (* c.cluster.Spec.MasterKubelet != nil *)
  KubeProxy : bool;               (* c.cluster.Spec.KubeProxy != nil *)
  Docker : bool                   (* c.cluster.Spec.Docker != nil *)
}.

(** The answers of the collaborators.  A configured config server is
    taken to answer with a node configuration (the request sets
    [IncludeNodeConfig]), so [nodeConfig != nil] exactly when
    [ConfigServer] is set. *)
Record World : Type := mkWorld {
  fails : Oracle;
  config : Config;                (* the unmarshalled configuration *)
  cluster : Cluster;              (* the unmarshalled cluster *)
  auxConfigHashMatches : bool;
  autoScalingInstances : nat;     (* len(result.AutoScalingInstances) *)
  loadedTasks : TaskMap           (* loader.Build() *)
}.

(** [strconv.Itoa] on a non-negative index. *)
Definition Itoa (n : nat) : string := NilEmpty.string_of_uint (Nat.to_uint n).

(** [m[k] = v] on a map kept as an association list. *)
Fixpoint mapSet (m : TaskMap) (k : string) (v : Task) : TaskMap :=
  match m with
  | [] => [(k, v)]
  | (k', v') :: m' =>
      if String.eqb k k' then (k, v) :: m' else (k', v') :: mapSet m' k v
  end.

(** [for i, image := range ... { taskMap["LoadImage."+strconv.Itoa(i)] = ... }] *)
Fixpoint addLoadImageTasks (i : nat) (images : list string) (taskMap : TaskMap)
  : TaskMap :=
  match images with
  | [] => taskMap
  | image :: rest =>
      addLoadImageTasks (S i) rest
        (mapSet taskMap (String.append "LoadImage." (Itoa i))
                (String.append "nodetasks.LoadImageTask " image))
  end.

(** Loading the configuration, the cluster and the auxiliary config. *)
Definition loadConfig (c : NodeUpCommand) (w : World) : M unit :=
  (if negb (String.eqb (ConfigLocation c) "")
   then callWrap (fails w) (EvCall "vfs.Context.ReadFile ConfigLocation")
                 "error loading configuration: " ;;
        callWrap (fails w) (EvCall "utils.YamlUnmarshal config")
                 "error parsing configuration: "
   else fail "ConfigLocation is required") ;;
  (if String.eqb (CacheDir c) ""
   then fail "CacheDir is required" else ret tt) ;;
  let cfg := config w in
  let nodeConfig := ConfigServer cfg in
  (if ConfigServer cfg
   then call (fails w) (EvCall "getNodeConfigFromServer")
   else if negb (String.eqb (ConfigBase cfg) "")
   then callWrap (fails w) (EvCall "BuildVfsPath ConfigBase")
                 "cannot parse ConfigBase: "
   else if negb (String.eqb (ClusterLocation cfg) "")
   then callWrap (fails w) (EvCall "BuildVfsPath basePath")
                 "cannot parse inferred ConfigBase: "
   else fail "ConfigBase or ConfigServer is required") ;;
  (if nodeConfig
   then callWrap (fails w) (EvCall "utils.YamlUnmarshal ClusterFullConfig")
                 "error parsing Cluster config response: "
   else
     when (negb (String.eqb (ClusterLocation cfg) ""))
       (callWrap (fails w) (EvCall "BuildVfsPath ClusterLocation")
                 "error parsing ClusterLocation: ") ;;
     callWrap (fails w) (EvCall "p.ReadFile") "error loading Cluster: " ;;
     callWrap (fails w) (EvCall "utils.YamlUnmarshal cluster")
              "error parsing Cluster: ") ;;
  (if nodeConfig
   then callWrap (fails w) (EvCall "utils.YamlUnmarshal AuxConfig")
                 "error parsing AuxConfig config response: "
   else if negb (String.eqb (InstanceGroupName cfg) "")
   then callWrap (fails w) (EvCall "auxConfigLocation.ReadFile")
                 "error loading AuxConfig: " ;;
        callWrap (fails w) (EvCall "utils.YamlUnmarshal auxconfig")
                 "error parsing AuxConfig: "
   else fail "no instance group defined in nodeup config") ;;
  (if negb (auxConfigHashMatches w)
   then fail "auxiliary config hash mismatch" else ret tt).

(** [func evaluateSpec]: the overrides are evaluated one after the other.
    The cluster's [Kubelet] and [MasterKubelet] are dereferenced, without
    a nil check, for the argument of the call. *)
Definition evaluateSpec (w : World) : M unit :=
  let cl := cluster w in
  (if Kubelet cl
   then call (fails w) (EvCall "evaluateHostnameOverride Kubelet")
   else panic nilDereference) ;;
  (if MasterKubelet cl
   then call (fails w) (EvCall "evaluateHostnameOverride MasterKubelet")
   else panic nilDereference) ;;
  call (fails w) (EvCall "evaluateHostnameOverride KubeletConfig") ;;
  when (KubeProxy cl)
    (call (fails w) (EvCall "evaluateHostnameOverride KubeProxy") ;;
     call (fails w) (EvCall "evaluateBindAddress KubeProxy")) ;;
  when (Docker cl)
    (call (fails w) (EvCall "evaluateDockerSpecStorage")).

(** [func getAWSConfigurationMode]: only nodes and API servers ask the
    auto-scaling API; [result.AutoScalingInstances[0]] is read without a
    check of the length. *)
Definition getAWSConfigurationMode (w : World) : M unit :=
  if negb (IsNodeOrAPIServer (config w)) then ret tt
  else
    callWrap (fails w) (EvCall "DescribeAutoScalingInstances")
             "error describing instances: " ;;
    if (autoScalingInstances w =? 0)%nat
    then panic indexOutOfRange
    else ret tt.

(** From [evaluateSpec] to [loadKernelModules]: the model context. *)
Definition buildModelContext (w : World) : M unit :=
  let cfg := config w in
  let nodeConfig := ConfigServer cfg in
  let aws := CloudProviderIsAWS (cluster w) in
  evaluateSpec w ;;
  callWrap (fails w) (EvCall "architectures.FindArchitecture")
           "error determining OS architecture: " ;;
  callWrap (fails w) (EvCall "distributions.FindDistribution")
           "error determining OS distribution: " ;;
  forEach (Assets cfg) (fun asset =>
    callWrap (fails w) (EvCall (String.append "assetStore.Add " asset))
             "error adding asset: ") ;;
  when aws
    (call (fails w) (EvCall "awsup.FindRegion") ;;
     call (fails w) (EvCall "awsup.NewAWSCloud")) ;;
  (if nodeConfig then ret tt
   else if negb (String.eqb (SecretStore (cluster w)) "")
   then callWrap (fails w) (EvCall "BuildVfsPath SecretStore")
                 "error building secret store path: "
   else fail "SecretStore not set") ;;
  (if nodeConfig then ret tt
   else if negb (String.eqb (KeyStore (cluster w)) "")
   then callWrap (fails w) (EvCall "BuildVfsPath KeyStore")
                 "error building key store path: "
   else fail "KeyStore not set") ;;
  call (fails w) (EvCall "modelContext.Init") ;;
  when aws
    (callWrap (fails w) (EvCall "vfs.Context.ReadFile instance-id")
              "error reading instance-id from AWS metadata: " ;;
     getAWSConfigurationMode w) ;;
  call (fails w) (EvCall "loadKernelModules").

(** [loader.Build()] and the image tasks. *)
Definition buildTaskMap (w : World) : M TaskMap :=
  callWrap (fails w) (EvCall "loader.Build") "error building loader: " ;;
  ret (addLoadImageTasks 0 (Images (config w)) (loadedTasks w)).

(** [switch c.Target], entered with [checkExisting := true]. *)
Definition selectTarget (c : NodeUpCommand) : M (Target * bool) :=
  let checkExisting := true in
  if String.eqb (Target_ c) "direct" then
    let t := LocalTarget (CacheDir c) in
    emit (EvNewTarget t) ;; ret (t, checkExisting)
  else if String.eqb (Target_ c) "dryrun" then
    let t := DryRunTarget false in
    emit (EvCall "assets.NewAssetBuilder") ;;
    emit (EvNewTarget t) ;; ret (t, checkExisting)
  else if String.eqb (Target_ c) "cloudinit" then
    let t := CloudInitTarget in
    emit (EvNewTarget t) ;; ret (t, false)
  else fail (errorf "unsupported target type " (quoted (Target_ c))).

(** From [fi.NewContext] to the end of the function. *)
Definition execute (w : World) (target : Target) (checkExisting : bool)
           (taskMap : TaskMap) : M unit :=
  let context := mkContext target checkExisting taskMap in
  callExit (fails w) (EvNewContext context) "error building context: " ;;
  defer (EvContextClose context)
    (callExit (fails w) (EvRunTasks context OptionsInitDefaults)
              "error running tasks: " ;;
     callExit (fails w) (EvFinish target taskMap) "error closing target: " ;;
     when (EnableLifecycleHook (config w) && CloudProviderIsAWS (cluster w))
       (callWrap (fails w) (EvCall "completeWarmingLifecycleAction")
                 "failed to complete lifecylce action: ")).

(** Everything up to the task map. *)
Definition prepare (c : NodeUpCommand) (w : World) : M TaskMap :=
  loadConfig c w ;;
  buildModelContext w ;;
  buildTaskMap w.

(** From [switch c.Target] to the end of the function. *)
Definition runOnTarget (c : NodeUpCommand) (w : World) (taskMap : TaskMap)
  : M unit :=
  sel <- selectTarget c ;;
  let '(target, checkExisting) := sel in
  execute w target checkExisting taskMap.

(** [func (c *NodeUpCommand) Run(out io.Writer) error]. *)
Definition Run (c : NodeUpCommand) (w : World) : M unit :=
  taskMap <- prepare c w ;;
  runOnTarget c w taskMap.

End Nodeup.

(* ===================================================================== *)
(** ** The engine's dependency resolver                                    *)
(* ===================================================================== *)

Module Engine.

(** Modelled from the spec: the task of the data model, cut down to
    what the Dependency Resolver reads.  The sources of the resolver and
    of the executor (package fi: [NewContext], [RunTasks], the
    dependency discovery) are not among the files; only their callers
    are.  A task has an identity, the references to other tasks found in
    its fields, and the extra dependencies it declares explicitly. *)
Record Task : Type := mkTask {
  key : string;
  references : list string;
  extraDependencies : list string
}.

Definition TaskSet := list Task.

Definition keys (ts : TaskSet) : list string := map key ts.

(** Modelled from the spec: the resolver's edges, dependant to
    dependency, one for each reference and each declared extra
    dependency (section 4.2). *)
Definition dependencies (t : Task) : list string :=
  references t ++ extraDependencies t.

Definition mem (k : string) (l : list string) : bool :=
  existsb (String.eqb k) l.

(** Modelled from the spec: the build-time errors of section 7. *)
Inductive BuildError : Type :=
| DuplicateTask (k : string)
| UnresolvedReference (dependant dependency : string)
| DependencyCycle (members : list string).

(** Modelled from the spec: the check for duplicate task names. *)
Fixpoint firstDuplicate (ks : list string) : option string :=
  match ks with
  | [] => None
  | k :: rest => if mem k rest then Some k else firstDuplicate rest
  end.

(** Modelled from the spec: the check for unresolved references, for
    the dependencies of one task and for a whole task set. *)
Fixpoint firstMissing (known : list string) (ds : list string) : option string :=
  match ds with
  | [] => None
  | d :: rest => if mem d known then firstMissing known rest else Some d
  end.

Fixpoint firstUnresolved (known : list string) (ts : TaskSet)
  : option (string * string) :=
  match ts with
  | [] => None
  | t :: rest =>
      match firstMissing known (dependencies t) with
      | Some d => Some (key t, d)
      | None => firstUnresolved known rest
      end
  end.

(** Modelled from the spec: a task can be placed once all its
    dependencies are placed. *)
Definition ready (placed : list string) (t : Task) : bool :=
  forallb (fun d => mem d placed) (dependencies t).

(** Modelled from the spec: ordering the graph.  Each round places every
    pending task whose dependencies are all placed already; the loop
    stops when nothing is pending or nothing can be placed.  One round
    per task is always enough. *)
Fixpoint place (rounds : nat) (pending : TaskSet) (placed : list string)
  : list string * TaskSet :=
  match rounds with
  | O => (placed, pending)
  | S rounds' =>
      match partition (ready placed) pending with
      | ([], _) => (placed, pending)
      | (now, later) => place rounds' later (placed ++ keys now)
      end
  end.

(** Modelled from the spec: the Dependency Resolver (section 4.2).
    Input: the flat task collection.  Output: a topological order, or a
    build-time error; when the graph cannot be fully ordered the error
    names the tasks that could not be placed. *)
Definition Resolver (ts : TaskSet) : BuildError + list string :=
  match firstDuplicate (keys ts) with
  | Some k => inl (DuplicateTask k)
  | None =>
      match firstUnresolved (keys ts) ts with
      | Some (a, d) => inl (UnresolvedReference a d)
      | None =>
          match place (length ts) ts [] with
          | (order, []) => inr order
          | (_, stuck) => inl (DependencyCycle (keys stuck))
          end
      end
  end.

(** Position of a key in an order (the length of the order when the key
    does not occur). *)
Fixpoint indexOf (k : string) (order : list string) : nat :=
  match order with
  | [] => O
  | k' :: rest => if String.eqb k k' then O else S (indexOf k rest)
  end.

(** Every dependant comes after each of its dependencies. *)
Definition topological (ts : TaskSet) (order : list string) : Prop :=
  forall t d, In t ts -> In d (dependencies t) ->
              In d order /\ In (key t) order /\
              indexOf d order < indexOf (key t) order.

(** The edge relation on task keys and the notion of a cycle. *)
Definition dependsOn (ts : TaskSet) (a b : string) : Prop :=
  exists t, In t ts /\ key t = a /\ In b (dependencies t).

Definition hasCycle (ts : TaskSet) : Prop :=
  exists a, clos_trans string (dependsOn ts) a a.

(** A valid task set: unique identities, references only to tasks of the
    same collection (the two invariants of section 3). *)
Definition valid (ts : TaskSet) : Prop :=
  NoDup (keys ts) /\
  forall t d, In t ts -> In d (dependencies t) -> In d (keys ts).

(** Modelled from the spec: the error taxonomy of section 7; only
    transient errors are retried. *)
Inductive ErrorClass : Type :=
| BuildTime
| RequiredResourceMissing
| Transient
| TerminalPerTask.

Definition retried (c : ErrorClass) : bool :=
  match c with Transient => true | _ => false end.

Definition classOfBuildError (e : BuildError) : ErrorClass := BuildTime.

(** Modelled from the spec: what one attempt at a task ([Find] then
    [Render]) comes to. *)
Inductive Attempt : Type :=
| Rendered
| TransientError (e : error)
| TerminalError (e : error).


(** Modelled from the spec: the retry loop of one task, bounded by the
    number of attempts that fit the maximum task duration.  Returns the
    number of attempts made and the last error, if the task failed. *)
Fixpoint runTask (attempt : string -> nat -> Attempt) (k : string)
         (budget n : nat) : nat * option error :=
  match budget with
  | O => (n, Some "MaxTaskDuration exceeded")
  | S budget' =>
      match attempt k n with
      | Rendered => (S n, None)
      | TerminalError e => (S n, Some e)
      | TransientError e =>
          match budget' with
          | O => (S n, Some e)
          | _ => runTask attempt k budget' (S n)
          end
      end
  end.

(** Modelled from the spec: what a run reports. *)
Record RunReport : Type := mkReport {
  attempts : list (string * nat);        (* Find/Render cycles, per task run *)
  failures : list (string * error)       (* every failed task, last error *)
}.

(** Modelled from the spec: tasks run in resolved order; a task one of
    whose dependencies failed is failed without being run. *)
Fixpoint runInOrder (attempt : string -> nat -> Attempt) (budget : nat)
         (ts : TaskSet) (order : list string) (r : RunReport) : RunReport :=
  match order with
  | [] => r
  | k :: rest =>
      let deps := flat_map dependencies
                    (filter (fun t => String.eqb (key t) k) ts) in
      if existsb (fun d => mem d (map fst (failures r))) deps
      then runInOrder attempt budget ts rest
             (mkReport (attempts r)
                       (failures r ++ [(k, "dependency failed")]))
      else
        let (n, res) := runTask attempt k budget O in
        runInOrder attempt budget ts rest
          (mkReport (attempts r ++ [(k, n)])
                    (match res with
                     | Some e => failures r ++ [(k, e)]
                     | None => failures r
                     end))
  end.

(** Modelled from the spec: the error of a run, a build-time error or
    the list of the failed tasks. *)
Inductive RunError : Type :=
| BuildFailed (e : BuildError)
| TasksFailed (failed : list (string * error)).

(** Modelled from the spec: the run entry point.  The graph is built
    first; a build-time error ends the run before any task is
    attempted. *)
Definition RunTasks (attempt : string -> nat -> Attempt) (budget : nat)
           (ts : TaskSet) : RunReport * option RunError :=
  match Resolver ts with
  | inl e => (mkReport [] [], Some (BuildFailed e))
  | inr order =>
      let r := runInOrder attempt budget ts order (mkReport [] []) in
      (r, match failures r with
          | [] => None
          | fs => Some (TasksFailed fs)
          end)
  end.

End Engine.

(* ===================================================================== *)
(** ** Walks in the dependency graph                                       *)
(* ===================================================================== *)

Module Graph.

(** Each element of the list is related to the next one. *)
Fixpoint linked {A} (R : A -> A -> Prop) (l : list A) : Prop :=
  match l with
  | a :: rest =>
      match rest with
      | b :: _ => R a b /\ linked R rest
      | [] => True
      end
  | [] => True
  end.

(** The tasks placed so far are placed after their dependencies. *)
Definition placedInOrder (ts : Engine.TaskSet) (placed : list string) : Prop :=
  forall t d, In t ts -> In (Engine.key t) placed ->
              In d (Engine.dependencies t) ->
              In d placed /\
              Engine.indexOf d placed < Engine.indexOf (Engine.key t) placed.

(** The state of the ordering loop: the pending tasks are tasks of the
    set, every task is pending or placed and not both, and what is
    placed is in order. *)
Definition placing (ts pending : Engine.TaskSet) (placed : list string) : Prop :=
  incl pending ts /\
  Permutation (Engine.keys pending ++ placed) (Engine.keys ts) /\
  placedInOrder ts placed.

End Graph.

(* ===================================================================== *)
(** ** Reading traces                                                      *)
(* ===================================================================== *)

Module Trace.

Definition isCall (ev : Event) : bool :=
  match ev with EvCall _ => true | _ => false end.
Definition isWarning (ev : Event) : bool :=
  match ev with EvWarning _ => true | _ => false end.
Definition isBuildTasks (ev : Event) : bool :=
  match ev with EvBuildTasks _ _ => true | _ => false end.
Definition isNewTarget (ev : Event) : bool :=
  match ev with EvNewTarget _ => true | _ => false end.
Definition isFindDeletions (ev : Event) : bool :=
  match ev with EvFindDeletions _ => true | _ => false end.
Definition isNewContext (ev : Event) : bool :=
  match ev with EvNewContext _ => true | _ => false end.
Definition isStoreWrite (ev : Event) : bool :=
  match ev with EvStoreWrite _ => true | _ => false end.
Definition isRunTasks (ev : Event) : bool :=
  match ev with EvRunTasks _ _ => true | _ => false end.
Definition isPrecreateDNS (ev : Event) : bool :=
  match ev with EvPrecreateDNS => true | _ => false end.
Definition isFinish (ev : Event) : bool :=
  match ev with EvFinish _ _ => true | _ => false end.
Definition isContextClose (ev : Event) : bool :=
  match ev with EvContextClose _ => true | _ => false end.

(** The call that builds the task map of nodeup. *)
Definition isLoaderBuild (ev : Event) : bool :=
  match ev with
  | EvCall n => String.eqb n "loader.Build"
  | _ => false
  end.

(** The events of the preparation part of both drivers. *)
Definition isSetup (ev : Event) : bool :=
  isCall ev || isWarning ev || isBuildTasks ev.

(** The events of the target selection. *)
Definition isSelect (ev : Event) : bool :=
  isNewTarget ev || isCall ev.

(** The events of the state-store block. *)
Definition isStoreBlock (ev : Event) : bool :=
  isCall ev || isStoreWrite ev.

(** Number of events of a kind. *)
Fixpoint count (p : Event -> bool) (tr : list Event) : nat :=
  match tr with
  | [] => 0
  | ev :: rest => (if p ev then 1 else 0) + count p rest
  end.

(** No event of a kind. *)
Fixpoint none (p : Event -> bool) (tr : list Event) : bool :=
  match tr with
  | [] => true
  | ev :: rest => negb (p ev) && none p rest
  end.

(** The part of a trace before, and after, the first event of a kind
    (for [after]: nothing when there is no such event). *)
Fixpoint before (p : Event -> bool) (tr : list Event) : list Event :=
  match tr with
  | [] => []
  | ev :: rest => if p ev then [] else ev :: before p rest
  end.

Fixpoint after (p : Event -> bool) (tr : list Event) : list Event :=
  match tr with
  | [] => []
  | ev :: rest => if p ev then rest else after p rest
  end.


(** The task map a trace event is given, if any. *)
Definition tasksOf (ev : Event) : option TaskMap :=
  match ev with
  | EvNewContext ctx => Some (ctxTasks ctx)
  | EvRunTasks ctx _ => Some (ctxTasks ctx)
  | EvFinish _ tasks => Some tasks
  | _ => None
  end.

End Trace.

(* ===================================================================== *)
(** ** Properties of computations                                          *)
(* ===================================================================== *)

Module Props.

(** A trace segment all of whose events are of kind [q]. *)
Definition ofKind (q : Event -> bool) (l : list Event) : Prop :=
  forallb q l = true.

(** A computation all of whose events are of kind [P] and that never
    exits the process. *)
Definition quiet {A} (P : Event -> bool) (m : M A) : Prop :=
  forallb P (trace m) = true /\ forall msg, outcome m <> Exited msg.

(** A computation that never panics. *)
Definition calm {A} (m : M A) : Prop :=
  forall msg, outcome m <> Panicked msg.

(** A computation that, whenever it returns, has made an event of kind
    [P]. *)
Definition ensures {A} (P : Event -> bool) (m : M A) : Prop :=
  forall a, outcome m = Returned a -> existsb P (trace m) = true.

(** What is known of the value a computation returns. *)
Definition returns {A} (m : M A) (Q : A -> Prop) : Prop :=
  forall a, outcome m = Returned a -> Q a.

(** The local variables the target switch of [ApplyClusterCmd.Run] leaves
    behind, read off the target name. *)
Definition backendFor (tn : TargetName) : option Backend :=
  match tn with
  | TargetDirect => Some BackendDirect
  | TargetTerraform => Some BackendTerraform
  | TargetCloudformation => Some BackendCloudformation
  | TargetDryRun => Some BackendDryRun
  | TargetOther _ => None
  end.

Definition isDirect (tn : TargetName) : bool :=
  match tn with TargetDirect => true | _ => false end.

Definition checksExisting (tn : TargetName) : bool :=
  match tn with
  | TargetTerraform | TargetCloudformation => false
  | _ => true
  end.

Definition selectedBy (tn : TargetName) (sel : Cloudup.Selection) : Prop :=
  backendFor tn = Some (backend (Cloudup.target sel)) /\
  Cloudup.checkExisting sel = checksExisting tn /\
  Cloudup.dryRun sel = TargetName_is_dryrun tn /\
  Cloudup.shouldPrecreateDNS sel = isDirect tn.

(** [c.InstanceGroups] after the first block of [ApplyClusterCmd.Run]. *)
Definition instanceGroupsOf (c : Cloudup.ApplyClusterCmd) (w : Cloudup.World)
  : list string :=
  match Cloudup.InstanceGroups c with
  | Some l => l
  | None => Cloudup.listedInstanceGroups w
  end.

(** Every event of a computation satisfies [P]. *)
Definition always {A} (P : Event -> Prop) (m : M A) : Prop :=
  Forall P (trace m).

(** *** The ways [ApplyClusterCmd.Run] can go *)

(** Whatever [BuildTasks] call a setup made, it was given the builders of
    the run's lifecycles and the overrides of the command. *)
Definition builtWith (c : Cloudup.ApplyClusterCmd) (w : Cloudup.World)
           (S : list Event) : Prop :=
  forall bs ov, In (EvBuildTasks bs ov) S ->
    exists lc pb,
      Cloudup.builderLifecycles (Cloudup.Phase_ c) (Cloudup.TargetName_ c)
                                (Cloudup.GetAssets c) = inr lc /\
      Cloudup.providerBuilders w (Cloudup.fullCluster w) lc = inr pb /\
      bs = Cloudup.commonBuilders lc ++ pb /\
      ov = Cloudup.LifecycleOverrides c.

(** The setup went through: the task map is built with the lifecycles
    [lc]. *)
Definition prepared (c : Cloudup.ApplyClusterCmd) (S : list Event)
           (lc : Cloudup.Lifecycles) : Prop :=
  forallb Trace.isSetup S = true /\
  existsb Trace.isBuildTasks S = true /\
  Cloudup.builderLifecycles (Cloudup.Phase_ c) (Cloudup.TargetName_ c)
                            (Cloudup.GetAssets c) = inr lc.

(** The target switch went through, making the calls [T'] after the
    target was constructed. *)
Definition selected (c : Cloudup.ApplyClusterCmd) (sel : Cloudup.Selection)
           (T' : list Event) : Prop :=
  selectedBy (Cloudup.TargetName_ c) sel /\ forallb Trace.isCall T' = true.

(** The [if checkExisting { c.TaskMap, err = l.FindDeletions(...) }] block. *)
Definition deletions (c : Cloudup.ApplyClusterCmd) (sel : Cloudup.Selection)
  : list Event :=
  if Cloudup.checkExisting sel
  then [EvFindDeletions (Cloudup.LifecycleOverrides c)]
  else [].

Definition tasksFor (w : Cloudup.World) (sel : Cloudup.Selection) : TaskMap :=
  if Cloudup.checkExisting sel
  then Cloudup.deletionTasks w
  else Cloudup.builtTasks w.

Definition contextFor (w : Cloudup.World) (sel : Cloudup.Selection) : Context :=
  mkContext (Cloudup.target sel) (Cloudup.checkExisting sel) (tasksFor w sel).

(** The guard of the state-store block and of DNS pre-creation. *)
Definition writesStore (sel : Cloudup.Selection) (lc : Cloudup.Lifecycles) : bool :=
  negb (Cloudup.dryRun sel) &&
  negb (Lifecycle_eqb (Cloudup.clusterLifecycle lc) LifecycleIgnore).

Definition precreates (w : Cloudup.World) (sel : Cloudup.Selection)
           (lc : Cloudup.Lifecycles) : bool :=
  (if Cloudup.IsGossipHostname w (Cloudup.Name (Cloudup.fullCluster w))
   then false else Cloudup.shouldPrecreateDNS sel) &&
  negb (Lifecycle_eqb (Cloudup.clusterLifecycle lc) LifecycleIgnore).

(** The state-store block ran to its end, with events [W]. *)
Definition storeBlock (c : Cloudup.ApplyClusterCmd) (w : Cloudup.World)
           (sel : Cloudup.Selection) (lc : Cloudup.Lifecycles)
           (W : list Event) : Prop :=
  if writesStore sel lc
  then Cloudup.writeState w (instanceGroupsOf c w) = (W, Returned tt)
  else W = [].

Definition dnsEvents (w : Cloudup.World) (sel : Cloudup.Selection)
           (lc : Cloudup.Lifecycles) : list Event :=
  if precreates w sel lc
  then match Cloudup.fails w EvPrecreateDNS with
       | Some e =>
           [EvPrecreateDNS;
            EvWarning (errorf "unable to pre-create DNS records - cluster startup may be slower: " e)]
       | None => [EvPrecreateDNS]
       end
  else [].

Inductive ApplyPath (c : Cloudup.ApplyClusterCmd) (w : Cloudup.World)
  : M Cloudup.Outputs -> Prop :=
| PrepareFails S e :
    builtWith c w S ->
    forallb Trace.isSetup S = true ->
    ApplyPath c w (S, Failed e)
| SelectFails S lc T e :
    builtWith c w S -> prepared c S lc ->
    (T = [] \/
     exists t T', T = EvNewTarget t :: T' /\ forallb Trace.isCall T' = true /\
                  Cloudup.TargetName_ c = TargetTerraform /\
                  backend t = BackendTerraform) ->
    ApplyPath c w (S ++ T, Failed e)
| FindDeletionsFails S lc sel T' e :
    builtWith c w S -> prepared c S lc -> selected c sel T' ->
    Cloudup.checkExisting sel = true ->
    Cloudup.fails w (EvFindDeletions (Cloudup.LifecycleOverrides c)) = Some e ->
    ApplyPath c w
      (S ++ EvNewTarget (Cloudup.target sel) :: T' ++
         [EvFindDeletions (Cloudup.LifecycleOverrides c)],
       Failed (errorf "error finding deletions: " e))
| NewContextFails S lc sel T' e :
    builtWith c w S -> prepared c S lc -> selected c sel T' ->
    Cloudup.fails w (EvNewContext (contextFor w sel)) = Some e ->
    ApplyPath c w
      (S ++ EvNewTarget (Cloudup.target sel) :: T' ++ deletions c sel ++
         [EvNewContext (contextFor w sel)],
       Failed (errorf "error building context: " e))
| StoreWriteFails S lc sel T' W e :
    builtWith c w S -> prepared c S lc -> selected c sel T' ->
    writesStore sel lc = true ->
    Cloudup.writeState w (instanceGroupsOf c w) = (W, Failed e) ->
    ApplyPath c w
      (S ++ EvNewTarget (Cloudup.target sel) :: T' ++ deletions c sel ++
         EvNewContext (contextFor w sel) :: W ++
         [EvContextClose (contextFor w sel)],
       Failed e)
| RunTasksFails S lc sel T' W e :
    builtWith c w S -> prepared c S lc -> selected c sel T' -> storeBlock c w sel lc W ->
    Cloudup.fails w (EvRunTasks (contextFor w sel) (Cloudup.runTasksOptions c))
      = Some e ->
    ApplyPath c w
      (S ++ EvNewTarget (Cloudup.target sel) :: T' ++ deletions c sel ++
         EvNewContext (contextFor w sel) :: W ++
         [EvRunTasks (contextFor w sel) (Cloudup.runTasksOptions c);
          EvContextClose (contextFor w sel)],
       Failed (errorf "error running tasks: " e))
| TasksRan S lc sel T' W :
    builtWith c w S -> prepared c S lc -> selected c sel T' -> storeBlock c w sel lc W ->
    Cloudup.fails w (EvRunTasks (contextFor w sel) (Cloudup.runTasksOptions c))
      = None ->
    ApplyPath c w
      (S ++ EvNewTarget (Cloudup.target sel) :: T' ++ deletions c sel ++
         EvNewContext (contextFor w sel) :: W ++
         EvRunTasks (contextFor w sel) (Cloudup.runTasksOptions c) ::
         dnsEvents w sel lc ++
         [EvFinish (Cloudup.target sel) (tasksFor w sel);
          EvContextClose (contextFor w sel)],
       match Cloudup.fails w (EvFinish (Cloudup.target sel) (tasksFor w sel)) with
       | Some e => Failed (errorf "error closing target: " e)
       | None => Returned (Cloudup.mkOutputs (tasksFor w sel) (Cloudup.target sel))
       end).

(** *** The ways [NodeUpCommand.Run] can go *)

(** The target switch of nodeup: the target, [checkExisting] and the
    events of the case taken. *)
Definition nodeSelected (c : Nodeup.NodeUpCommand) (t : Target)
           (checkExisting : bool) (T : list Event) : Prop :=
  (Nodeup.Target_ c = "direct" /\ t = LocalTarget (Nodeup.CacheDir c) /\
   checkExisting = true /\ T = [EvNewTarget t]) \/
  (Nodeup.Target_ c = "dryrun" /\ t = DryRunTarget false /\
   checkExisting = true /\ T = [EvCall "assets.NewAssetBuilder"; EvNewTarget t]) \/
  (Nodeup.Target_ c = "cloudinit" /\ t = CloudInitTarget /\
   checkExisting = false /\ T = [EvNewTarget t]).

Definition nodeTasks (w : Nodeup.World) : TaskMap :=
  Nodeup.addLoadImageTasks 0 (Nodeup.Images (Nodeup.config w))
                           (Nodeup.loadedTasks w).

Definition nodePrepared (S : list Event) : Prop :=
  forallb Trace.isSetup S = true /\
  existsb Trace.isLoaderBuild S = true.

Definition hookEvents (w : Nodeup.World) : list Event :=
  if Nodeup.EnableLifecycleHook (Nodeup.config w) &&
     Nodeup.CloudProviderIsAWS (Nodeup.cluster w)
  then [EvCall "completeWarmingLifecycleAction"]
  else [].

Inductive NodeupPath (c : Nodeup.NodeUpCommand) (w : Nodeup.World)
  : M unit -> Prop :=
| NodePrepareFails S e :
    forallb Trace.isSetup S = true ->
    NodeupPath c w (S, Failed e)
| NodePreparePanics S msg :
    forallb Trace.isSetup S = true ->
    NodeupPath c w (S, Panicked msg)
| NodeSelectFails S :
    nodePrepared S ->
    Nodeup.Target_ c <> "direct" -> Nodeup.Target_ c <> "dryrun" ->
    Nodeup.Target_ c <> "cloudinit" ->
    NodeupPath c w
      (S, Failed (errorf "unsupported target type " (quoted (Nodeup.Target_ c))))
| NodeNewContextFails S t ce T e :
    nodePrepared S -> nodeSelected c t ce T ->
    Nodeup.fails w (EvNewContext (mkContext t ce (nodeTasks w))) = Some e ->
    NodeupPath c w
      (S ++ T ++ [EvNewContext (mkContext t ce (nodeTasks w))],
       Exited (errorf "error building context: " e))
| NodeRunTasksFails S t ce T e :
    nodePrepared S -> nodeSelected c t ce T ->
    Nodeup.fails w (EvRunTasks (mkContext t ce (nodeTasks w)) OptionsInitDefaults)
      = Some e ->
    NodeupPath c w
      (S ++ T ++ [EvNewContext (mkContext t ce (nodeTasks w));
                  EvRunTasks (mkContext t ce (nodeTasks w)) OptionsInitDefaults],
       Exited (errorf "error running tasks: " e))
| NodeFinishFails S t ce T e :
    nodePrepared S -> nodeSelected c t ce T ->
    Nodeup.fails w (EvRunTasks (mkContext t ce (nodeTasks w)) OptionsInitDefaults)
      = None ->
    Nodeup.fails w (EvFinish t (nodeTasks w)) = Some e ->
    NodeupPath c w
      (S ++ T ++ [EvNewContext (mkContext t ce (nodeTasks w));
                  EvRunTasks (mkContext t ce (nodeTasks w)) OptionsInitDefaults;
                  EvFinish t (nodeTasks w)],
       Exited (errorf "error closing target: " e))
| NodeFinished S t ce T :
    nodePrepared S -> nodeSelected c t ce T ->
    Nodeup.fails w (EvRunTasks (mkContext t ce (nodeTasks w)) OptionsInitDefaults)
      = None ->
    Nodeup.fails w (EvFinish t (nodeTasks w)) = None ->
    NodeupPath c w
      (S ++ T ++ [EvNewContext (mkContext t ce (nodeTasks w));
                  EvRunTasks (mkContext t ce (nodeTasks w)) OptionsInitDefaults;
                  EvFinish t (nodeTasks w)] ++
         hookEvents w ++ [EvContextClose (mkContext t ce (nodeTasks w))],
       match hookEvents w with
       | [] => Returned tt
       | _ =>
           match Nodeup.fails w (EvCall "completeWarmingLifecycleAction") with
           | Some e => Failed (errorf "failed to complete lifecylce action: " e)
           | None => Returned tt
           end
       end).


(** *** The order of the calls around [RunTasks]

    [built] recognises the call that builds the task map, [fails] is the
    oracle of the run. *)
Definition RunProtocol {A} (fails : Oracle) (built : Event -> bool) (r : M A)
  : Prop :=
  let tr := trace r in
  (* RunTasks is called at most once, and once in a run that succeeds *)
  Trace.count Trace.isRunTasks tr <= 1 /\
  (forall a, outcome r = Returned a -> Trace.count Trace.isRunTasks tr = 1) /\
  (* before it: the task map is built, the target constructed, the
     context created; none of that happens after it *)
  (forall ctx o, In (EvRunTasks ctx o) tr ->
     existsb built (Trace.before Trace.isRunTasks tr) = true /\
     In (EvNewTarget (ctxTarget ctx)) (Trace.before Trace.isRunTasks tr) /\
     In (EvNewContext ctx) (Trace.before Trace.isRunTasks tr) /\
     Trace.none built (Trace.after Trace.isRunTasks tr) = true /\
     Trace.none Trace.isFindDeletions (Trace.after Trace.isRunTasks tr) = true /\
     Trace.none Trace.isNewTarget (Trace.after Trace.isRunTasks tr) = true /\
     Trace.none Trace.isNewContext (Trace.after Trace.isRunTasks tr) = true) /\
  (* Finish only after RunTasks succeeded, on its target and task map *)
  (forall t m, In (EvFinish t m) tr ->
     exists ctx o, In (EvRunTasks ctx o) (Trace.before Trace.isFinish tr) /\
                   fails (EvRunTasks ctx o) = None /\
                   t = ctxTarget ctx /\ m = ctxTasks ctx) /\
  (* one context per run, created in the run, closed last *)
  Trace.count Trace.isNewContext tr <= 1 /\
  Trace.count Trace.isContextClose tr <= 1 /\
  (forall ctx, In (EvContextClose ctx) tr ->
     In (EvNewContext ctx) (Trace.before Trace.isContextClose tr) /\
     Trace.after Trace.isContextClose tr = []) /\
  (forall a, outcome r = Returned a ->
     existsb Trace.isFinish (Trace.before Trace.isContextClose tr) = true /\
     existsb Trace.isContextClose tr = true).

(** The calls that get a run ready for [RunTasks]: building the task
    map, finding the deletions, creating the context, writing the state
    store. *)
Definition isPreparation (built : Event -> bool) (ev : Event) : bool :=
  built ev || Trace.isFindDeletions ev || Trace.isNewContext ev ||
  Trace.isStoreWrite ev.

(** A call of kind [K] that fails ends the run before [RunTasks]: the
    run has no [RunTasks] call and does not return. *)
Definition stopsAt {A} (fails : Oracle) (K : Event -> bool) (m : M A) : Prop :=
  forall ev e, In ev (trace m) -> K ev = true -> fails ev = Some e ->
    Trace.none Trace.isRunTasks (trace m) = true /\
    forall a, outcome m <> Returned a.

(** An event that is not of kind [K]. *)
Definition lacks (K : Event -> bool) (ev : Event) : bool := negb (K ev).

(** [RunTasks] is reached only through a setup, a target selection and a
    state-store block that returned: what [ApplyClusterCmd.Run] went
    through when it calls [RunTasks] with the context [ctx]. *)
Definition applyReady (c : Cloudup.ApplyClusterCmd) (w : Cloudup.World)
           (ctx : Context) : Prop :=
  exists lc project igs taskMap sel,
    outcome (Cloudup.prepare c w) = Returned (lc, project, igs, taskMap) /\
    outcome (Cloudup.selectTarget c w (Cloudup.fullCluster w) project)
    = Returned sel /\
    (Cloudup.checkExisting sel = true ->
     Cloudup.fails w (EvFindDeletions (Cloudup.LifecycleOverrides c)) = None) /\
    Cloudup.fails w (EvNewContext ctx) = None /\
    (writesStore sel lc = true ->
     outcome (Cloudup.writeState w igs) = Returned tt) /\
    ctxTarget ctx = Cloudup.target sel.

(** The same for [NodeUpCommand.Run]. *)
Definition nodeupReady (c : Nodeup.NodeUpCommand) (w : Nodeup.World)
           (ctx : Context) : Prop :=
  exists taskMap target checkExisting,
    outcome (Nodeup.prepare c w) = Returned taskMap /\
    outcome (Nodeup.selectTarget c) = Returned (target, checkExisting) /\
    Nodeup.fails w (EvNewContext ctx) = None /\
    ctx = mkContext target checkExisting taskMap.

End Props.

(* ===================================================================== *)
(** ** Concrete runs used as test inputs                                   *)
(* ===================================================================== *)

Module Samples.

Definition noFailure : Oracle := fun _ => None.

(** Only [RunTasks] fails. *)
Definition runTasksFails : Oracle :=
  fun ev => match ev with EvRunTasks _ _ => Some "task failed" | _ => None end.

(** Only [precreateDNS] fails. *)
Definition precreateDNSFails : Oracle :=
  fun ev => match ev with EvPrecreateDNS => Some "no zone" | _ => None end.

Definition awsCluster : Cloudup.Cluster :=
  Cloudup.mkCluster "minimal.example.com" "1.21.0" "example.com"
                    None None CloudProviderAWS (Some "admin") false.

Definition built : TaskMap := [("VPC/minimal", "VPC"); ("Subnet/a", "Subnet")].
Definition withDeletions : TaskMap :=
  [("VPC/minimal", "VPC"); ("Subnet/a", "Subnet"); ("Subnet/old", "Deletion")].

Definition world (fails : Oracle) : Cloudup.World :=
  Cloudup.mkWorld fails ["nodes"] awsCluster (fun _ => false)
                  Cloudup.VersionFileNotExist false false 1 ""
                  false false false false false built withDeletions.

Definition apply (t : TargetName) (p : Phase) : Cloudup.ApplyClusterCmd :=
  Cloudup.mkCmd (Some ["master"; "nodes"]) t "out" false None p [] false.

Definition nodeWorld (fails : Oracle) : Nodeup.World :=
  Nodeup.mkWorld fails
    (Nodeup.mkConfig false "memfs://state/minimal.example.com" "" "nodes"
                     [] ["pause"] false true)
    (Nodeup.mkCluster false "memfs://secrets" "memfs://pki"
                      true true false false)
    true 1 [("Package/ntp", "Package")].


Definition nodeup (t : string) : Nodeup.NodeUpCommand :=
  Nodeup.mkCmd "/var/cache/nodeup" "memfs://state/nodeupconfig.yaml" t.

(** VPC, Subnet (refs VPC), Instance (refs Subnet). *)
Definition threeTasks : Engine.TaskSet :=
  [ Engine.mkTask "Instance" ["Subnet"] [];
    Engine.mkTask "Subnet" ["VPC"] [];
    Engine.mkTask "VPC" [] [] ].

(** Two tasks that reference each other, and one that needs them. *)
Definition cyclicTasks : Engine.TaskSet :=
  [ Engine.mkTask "A" ["B"] [];
    Engine.mkTask "B" [] ["A"];
    Engine.mkTask "C" ["A"] [];
    Engine.mkTask "VPC" [] [] ].

End Samples.

(* ===================================================================== *)
(** ** Go strings, slices and maps used by the helper functions            *)
(* ===================================================================== *)

Module Strings.

(** [strings.Split(s, sep)] for a separator of one ASCII byte: the
    pieces between the separators, [[s]] when there is none. *)
Fixpoint Split (s : string) (sep : Ascii.ascii) : list string :=
  match s with
  | EmptyString => [EmptyString]
  | String c s' =>
      if Ascii.eqb c sep then EmptyString :: Split s' sep
      else match Split s' sep with
           | [] => [String c EmptyString]
           | x :: xs => String c x :: xs
           end
  end.

(** [strings.Contains(s, sep)] for a separator of one ASCII byte. *)
Fixpoint Contains (s : string) (sep : Ascii.ascii) : bool :=
  match s with
  | EmptyString => false
  | String c s' => Ascii.eqb c sep || Contains s' sep
  end.

(** [strings.Replace(s, old, "", -1)] for [old] of one ASCII byte. *)
Fixpoint Remove (s : string) (old : Ascii.ascii) : string :=
  match s with
  | EmptyString => EmptyString
  | String c s' =>
      if Ascii.eqb c old then Remove s' old else String c (Remove s' old)
  end.

(** [strings.HasPrefix(s, prefix)]. *)
Definition HasPrefix (s prefix : string) : bool := String.prefix prefix s.

(** [xs[0]] of a slice: the index is out of range on an empty one. *)
Definition first {A} (xs : list A) : option A :=
  match xs with [] => None | x :: _ => Some x end.

Definition comma : Ascii.ascii := Ascii.ascii_of_nat 44.
Definition dot : Ascii.ascii := Ascii.ascii_of_nat 46.
Definition colon : Ascii.ascii := Ascii.ascii_of_nat 58.
Definition newline : Ascii.ascii := Ascii.ascii_of_nat 10.

End Strings.

(** A Go [map[string]V] whose values are slices: reading a missing key
    gives the nil slice. *)
Module GoMap.

Definition t (V : Type) : Type := list (string * V).

Fixpoint lookup {V} (m : t V) (k : string) : option V :=
  match m with
  | [] => None
  | (k', v) :: m' => if String.eqb k k' then Some v else lookup m' k
  end.

(** [m[k]] for a map of slices. *)
Definition get {A} (m : t (list A)) (k : string) : list A :=
  match lookup m k with Some l => l | None => [] end.

(** [m[k] = v]. *)
Fixpoint set {V} (m : t V) (k : string) (v : V) : t V :=
  match m with
  | [] => [(k, v)]
  | (k', v') :: m' =>
      if String.eqb k k' then (k, v) :: m' else (k', v') :: set m' k v
  end.

End GoMap.

(* ===================================================================== *)
(** ** package kops: the API types the helper functions read               *)
(* ===================================================================== *)

Module Kops.

(** [kops.InstanceGroupRole] is a Go string type. *)
Definition InstanceGroupRole := string.

Record FileAssetSpec : Type := mkFileAssetSpec {
  fa_Name : string;
  fa_Content : string;
  fa_Roles : list InstanceGroupRole
}.

Record ExecContainerAction : Type := mkExecContainerAction {
  exec_Image : string
}.

(** [Before] and [Requires] are compared with [nil]: [None] is the nil
    slice. *)
Record HookSpec : Type := mkHookSpec {
  hook_Disabled : bool;
  hook_Roles : list InstanceGroupRole;
  hook_Requires : option (list string);
  hook_Before : option (list string);
  hook_ExecContainer : option ExecContainerAction;
  hook_Manifest : string;
  hook_UseRawManifest : bool
}.

(** The fields of [kops.KubeletConfigSpec] that [NewConfig] sets. *)
Record KubeletConfigSpec : Type := mkKubeletConfigSpec {
  AnonymousAuth : option bool;              (* *bool *)
  NodeLabels : list (string * string);
  Taints : list string
}.

Record WarmPoolSpec : Type := mkWarmPoolSpec {
  MinSize : Z;                              (* int64 *)
  MaxSize : option Z;                       (* *int64 *)
  EnableLifecycleHook : bool
}.

Record EtcdClusterSpec : Type := mkEtcdClusterSpec {
  etcd_Name : string;
  etcd_EnableEtcdTLS : bool;
  etcd_Version : string
}.

Record AWSPermission : Type := mkAWSPermission {
  PolicyARNs : list string;
  InlinePolicy : string
}.

Record ServiceAccountExternalPermission : Type := mkSAPermission {
  sa_Name : string;
  sa_Namespace : string;
  sa_AWS : option AWSPermission             (* *AWSPermission *)
}.

(** The fields of [kops.InstanceGroup] read by [NewConfig] and
    [BuildConfig]. *)
Record InstanceGroup : Type := mkInstanceGroup {
  ig_Name : string;                         (* ObjectMeta.Name *)
  ig_Role : InstanceGroupRole;
  ig_SysctlParameters : list string;
  ig_VolumeMounts : list string;
  ig_Hooks : list HookSpec;
  ig_FileAssets : list FileAssetSpec;
  ig_Kubelet : option KubeletConfigSpec;    (* *KubeletConfigSpec *)
  ig_Taints : list string;
  ig_UpdatePolicy : option string;          (* *string *)
  ig_MachineType : string
}.

(** The fields of [kops.Cluster] read by [NewConfig] and [BuildConfig]. *)
Record Cluster : Type := mkCluster {
  cl_Name : string;                         (* ObjectMeta.Name *)
  cl_Hooks : list HookSpec;
  cl_FileAssets : list FileAssetSpec;
  cl_WarmPool : option WarmPoolSpec;
  cl_MasterKubelet : option KubeletConfigSpec;
  cl_Kubelet : option KubeletConfigSpec;
  cl_UpdatePolicy : option string;
  cl_AmazonVPC : bool;     (* Networking != nil && Networking.AmazonVPC != nil *)
  cl_MasterInternalName : string;
  cl_CloudProvider : string
}.

Record KeysetItem : Type := mkKeysetItem {
  Id : string;
  PublicMaterial : string;                  (* []byte *)
  PrivateMaterial : string                  (* []byte *)
}.

(** [kops.KeysetType]: [SecretTypeKeypair], [SecretTypeSecret], or any
    other string. *)
Inductive KeysetType : Type :=
| SecretTypeKeypair
| SecretTypeSecret
| SecretTypeOther (s : string).

Record Keyset : Type := mkKeyset {
  ks_Name : string;
  ks_Type : KeysetType;
  PrimaryId : string;
  Keys : list KeysetItem
}.

Record SSHCredential : Type := mkSSHCredential {
  ssh_Name : string;
  PublicKey : string
}.

(** What the package gives that is declared outside these files. *)
Record Externals : Type := mkExternals {
  InstanceGroupRoleMaster : InstanceGroupRole;
  UpdatePolicyAutomatic : string;
  (* reflectutils.JSONMergeStruct(&dest, src) *)
  JSONMergeStruct : KubeletConfigSpec -> option KubeletConfigSpec ->
                    KubeletConfigSpec;
  (* cluster.Spec.WarmPool.ResolveDefaults(instanceGroup) *)
  ResolveDefaults : option WarmPoolSpec -> InstanceGroup -> WarmPoolSpec;
  IsEnabled : WarmPoolSpec -> bool;         (* warmPool.IsEnabled() *)
  (* nodelabels.BuildNodeLabels(cluster, instanceGroup) *)
  BuildNodeLabels : Cluster -> InstanceGroup -> list (string * string)
}.

End Kops.

(* ===================================================================== *)
(** ** package nodeup (pkg/apis/nodeup): [NewConfig] and its filters       *)
(* ===================================================================== *)

Module ApiNodeup.

Import Kops.

Definition Architecture := string.

Record Image : Type := mkImage {
  img_Name : string;
  img_Sources : list string;
  img_Hash : string
}.

Record StaticManifest : Type := mkStaticManifest {
  Key : string;
  Path : string
}.

Record ConfigServerOptions : Type := mkConfigServerOptions {
  Server : string;
  CA : string;
  CloudProvider : string
}.

(** [type Config struct]. *)
Record Config : Type := mkConfig {
  Assets : GoMap.t (list string);
  Images : GoMap.t (list Image);
  ConfigBase : option string;
  ClusterLocation : option string;
  InstanceGroupName : string;
  InstanceGroupRole_ : InstanceGroupRole;
  ClusterName : string;
  Channels : list string;
  ApiserverAdditionalIPs : list string;
  EtcdManifests : list string;
  DefaultMachineType : option string;
  EnableLifecycleHook_ : bool;
  StaticManifests : list StaticManifest;
  KubeletConfig : KubeletConfigSpec;
  SysctlParameters : list string;
  UpdatePolicy : string;
  VolumeMounts : list string;
  ConfigServer : option ConfigServerOptions;
  AuxConfigHash : string
}.

(** [type AuxConfig struct]. *)
Record AuxConfig : Type := mkAuxConfig {
  FileAssets : list FileAssetSpec;
  Hooks : list (list HookSpec)
}.

(** [func containsRole]. *)
Fixpoint containsRole (v : InstanceGroupRole) (roles : list InstanceGroupRole)
  : bool :=
  match roles with
  | [] => false
  | x :: rest => if String.eqb v x then true else containsRole v rest
  end.

(** The loop of [filterFileAssets], entered with the assets collected so
    far. *)
Fixpoint filterFileAssets_from (fileAssets : list FileAssetSpec)
         (f : list FileAssetSpec) (role : InstanceGroupRole)
  : list FileAssetSpec :=
  match f with
  | [] => fileAssets
  | fileAsset :: rest =>
      if (0 <? length (fa_Roles fileAsset))%nat &&
         negb (containsRole role (fa_Roles fileAsset))
      then filterFileAssets_from fileAssets rest role
      else
        let fileAsset :=
          mkFileAssetSpec (fa_Name fileAsset) (fa_Content fileAsset) [] in
        filterFileAssets_from (fileAssets ++ [fileAsset]) rest role
  end.

(** [func filterFileAssets]. *)
Definition filterFileAssets (f : list FileAssetSpec) (role : InstanceGroupRole)
  : list FileAssetSpec :=
  filterFileAssets_from [] f role.

(** The loop of [filterHooks]. *)
Fixpoint filterHooks_from (hooks : list HookSpec) (h : list HookSpec)
         (role : InstanceGroupRole) : list HookSpec :=
  match h with
  | [] => hooks
  | hook :: rest =>
      if (0 <? length (hook_Roles hook))%nat &&
         negb (containsRole role (hook_Roles hook))
      then filterHooks_from hooks rest role
      else
        let hook :=
          mkHookSpec (hook_Disabled hook) [] (hook_Requires hook)
                     (hook_Before hook) (hook_ExecContainer hook)
                     (hook_Manifest hook) (hook_UseRawManifest hook) in
        filterHooks_from (hooks ++ [hook]) rest role
  end.

(** [func filterHooks]. *)
Definition filterHooks (h : list HookSpec) (role : InstanceGroupRole)
  : list HookSpec :=
  filterHooks_from [] h role.

Definition withAnonymousAuth (k : KubeletConfigSpec) (v : option bool)
  : KubeletConfigSpec :=
  mkKubeletConfigSpec v (NodeLabels k) (Taints k).

(** [p != nil && !*p] for a [*bool]. *)
Definition isFalse (p : option bool) : bool :=
  match p with Some b => negb b | None => false end.

(** The kubelet configuration [NewConfig] assembles, from the zero value. *)
Definition kubeletConfig (x : Externals) (cluster : Cluster)
           (instanceGroup : InstanceGroup) : KubeletConfigSpec :=
  let role := ig_Role instanceGroup in
  let isMaster := String.eqb role (InstanceGroupRoleMaster x) in
  let k := mkKubeletConfigSpec None [] [] in
  let k :=
    if isMaster then
      let k := JSONMergeStruct x k (cl_MasterKubelet cluster) in
      match cl_Kubelet cluster with
      | Some kubelet =>
          if isFalse (AnonymousAuth kubelet)
          then withAnonymousAuth k (Some false)
          else k
      | None => k
      end
    else JSONMergeStruct x k (cl_Kubelet cluster) in
  let k :=
    match ig_Kubelet instanceGroup with
    | Some igKubelet =>
        let useSecureKubelet := isFalse (AnonymousAuth k) in
        let k := JSONMergeStruct x k (Some igKubelet) in
        if useSecureKubelet then withAnonymousAuth k (Some false) else k
    | None => k
    end in
  let k := mkKubeletConfigSpec (AnonymousAuth k)
                               (BuildNodeLabels x cluster instanceGroup)
                               (Taints k) in
  mkKubeletConfigSpec (AnonymousAuth k) (NodeLabels k)
                      (Taints k ++ ig_Taints instanceGroup).

(** [func NewConfig]. *)
Definition NewConfig (x : Externals) (cluster : Cluster)
           (instanceGroup : InstanceGroup) : Config * AuxConfig :=
  let role := ig_Role instanceGroup in
  let clusterHooks := filterHooks (cl_Hooks cluster) (ig_Role instanceGroup) in
  let igHooks := filterHooks (ig_Hooks instanceGroup) (ig_Role instanceGroup) in
  let auxConfig :=
    mkAuxConfig (filterFileAssets (ig_FileAssets instanceGroup) role ++
                 filterFileAssets (cl_FileAssets cluster) role)
                [igHooks; clusterHooks] in
  let warmPool := ResolveDefaults x (cl_WarmPool cluster) instanceGroup in
  let enableLifecycleHook :=
    if IsEnabled x warmPool && EnableLifecycleHook warmPool
    then true else false in
  let updatePolicy :=
    match ig_UpdatePolicy instanceGroup with
    | Some p => p
    | None => match cl_UpdatePolicy cluster with
              | Some p => p
              | None => UpdatePolicyAutomatic x
              end
    end in
  let defaultMachineType :=
    if cl_AmazonVPC cluster
    then Strings.first (Strings.Split (ig_MachineType instanceGroup)
                                      Strings.comma)
    else None in
  (mkConfig [] [] None None "" role "" [] [] [] defaultMachineType
            enableLifecycleHook []
            (kubeletConfig x cluster instanceGroup)
            (ig_SysctlParameters instanceGroup) updatePolicy
            (ig_VolumeMounts instanceGroup) None "",
   auxConfig).

End ApiNodeup.

(* ===================================================================== *)
(** ** Function bodies that call collaborators and may panic               *)
(* ===================================================================== *)

Module Go.

(** How a Go function body ends: with its results and a nil error, with
    a non-nil error, or in a run-time panic (a nil pointer dereference,
    an index or slice bound out of range). *)
Inductive Result (A : Type) : Type :=
| Ok (a : A)
| Err (e : error)
| Panic (msg : string).

Arguments Ok {A} a.
Arguments Err {A} e.
Arguments Panic {A} msg.

(** The calls a body makes to its collaborators, in order, and how it
    ends. *)
Definition Eff (E A : Type) : Type := (list E * Result A)%type.

Definition ret {E A} (a : A) : Eff E A := ([], Ok a).

Definition bind {E A B} (m : Eff E A) (f : A -> Eff E B) : Eff E B :=
  match m with
  | (t, Ok a) => let (t', r) := f a in (t ++ t', r)
  | (t, Err e) => (t, Err e)
  | (t, Panic msg) => (t, Panic msg)
  end.

Definition raise {E A} (e : error) : Eff E A := ([], Err e).
Definition panic {E A} (msg : string) : Eff E A := ([], Panic msg).

(** A call whose answer the body does not branch on (a log line). *)
Definition log {E} (ev : E) : Eff E unit := ([ev], Ok tt).

(** [v, err := f(...); if err != nil { return wrap(err) }]: the call
    [ev] and the answer the collaborator gives. *)
Definition call {E A} (ev : E) (answer : error + A) (wrap : error -> error)
  : Eff E A :=
  ([ev], match answer with inl e => Err (wrap e) | inr a => Ok a end).

Arguments bind : simpl never.
Arguments call : simpl never.

Definition calls {E A} (m : Eff E A) : list E := fst m.
Definition result {E A} (m : Eff E A) : Result A := snd m.

(** [return err] without wrapping. *)
Definition asIs (e : error) : error := e.

(** The answer of a call that returns only an [error]. *)
Definition errorOnly (e : option error) : error + unit :=
  match e with Some e => inl e | None => inr tt end.

(** Nil pointer dereference. *)
Definition nilDereference : string :=
  "invalid memory address or nil pointer dereference".

Definition indexOutOfRange : string := "index out of range".
Definition sliceOutOfRange : string := "slice bounds out of range".

End Go.

Declare Scope go_scope.
Delimit Scope go_scope with go.

Notation "x <- m ;; k" := (Go.bind m (fun x => k))
  (at level 61, m at next level, right associativity) : go_scope.
Notation "m ;; k" := (Go.bind m (fun _ => k))
  (at level 61, right associativity) : go_scope.

(* ===================================================================== *)
(** ** package fi: key sets (upup/pkg/fi/vfs_castore.go)                   *)
(* ===================================================================== *)

Module Fi.

Import Kops.

(** [fi.KeysetItem]: an id with the parsed certificate and private key,
    either of which may be nil. *)
Record KeysetItem : Type := mkKeysetItem {
  item_Id : string;
  Certificate : option string;              (* *pki.Certificate *)
  PrivateKey : option string                (* *pki.PrivateKey *)
}.

(** [fi.Keyset]. *)
Record Keyset : Type := mkKeyset {
  Items : GoMap.t KeysetItem;               (* map[string]*KeysetItem *)
  Primary : option KeysetItem;              (* *KeysetItem *)
  LegacyFormat : bool
}.

(** What is declared outside these files. *)
Record Externals : Type := mkExternals {
  (* big.NewInt(0).SetString(s, 10): the value, or !ok *)
  SetString : string -> option Z;
  ParsePEMCertificate : string -> error + string;
  ParsePEMPrivateKey : string -> error + string
}.

(** The loop of [FindPrimary], entered with the candidate found so far
    and its version.  The function hands out a pointer into
    [keyset.Spec.Keys]; the model hands out the item.  (The log line for
    an item with a non-integer id is left out.) *)
Fixpoint FindPrimary_from (x : Externals)
         (primary : option Kops.KeysetItem) (primaryVersion : option Z)
         (primaryId : string) (keys : list Kops.KeysetItem)
  : option Kops.KeysetItem :=
  match keys with
  | [] => primary
  | item :: rest =>
      match SetString x (Id item) with
      | None => FindPrimary_from x primary primaryVersion primaryId rest
      | Some version =>
          if String.eqb (Id item) primaryId then Some item
          else
            match primaryVersion with
            | None =>
                FindPrimary_from x (Some item) (Some version) primaryId rest
            | Some pv =>
                if (version >? pv)%Z
                then FindPrimary_from x (Some item) (Some version)
                                      primaryId rest
                else FindPrimary_from x primary primaryVersion primaryId rest
            end
      end
  end.

(** [func FindPrimary]. *)
Definition FindPrimary (x : Externals) (keyset : Kops.Keyset)
  : option Kops.KeysetItem :=
  FindPrimary_from x None None (PrimaryId keyset) (Keys keyset).

(** [func removePrivateKeyMaterial]: on a deep copy, so a new value. *)
Definition removePrivateKeyMaterial (o : Kops.Keyset) : Kops.Keyset :=
  Kops.mkKeyset (ks_Name o) (ks_Type o) (PrimaryId o)
    (map (fun key => Kops.mkKeysetItem (Id key) (PublicMaterial key)
                                       EmptyString)
         (Keys o)).

(** The loop of [parseKeyset]: the items parsed so far, or the error of
    the first key whose material does not parse. *)
Fixpoint parseKeys (x : Externals) (name : string)
         (items : GoMap.t KeysetItem) (keys : list Kops.KeysetItem)
  : error + GoMap.t KeysetItem :=
  match keys with
  | [] => inr items
  | key :: rest =>
      match (if negb (String.length (PublicMaterial key) =? 0)%nat
             then match ParsePEMCertificate x (PublicMaterial key) with
                  | inl err =>
                      inl (errorf (String.append "error loading certificate "
                                     (String.append name
                                        (String.append "/"
                                           (String.append (Id key) ": "))))
                                  err)
                  | inr cert => inr (Some cert)
                  end
             else inr None) with
      | inl e => inl e
      | inr certificate =>
          match (if negb (String.length (PrivateMaterial key) =? 0)%nat
                 then match ParsePEMPrivateKey x (PrivateMaterial key) with
                      | inl err =>
                          inl (errorf
                                 (String.append "error loading private key "
                                    (String.append name
                                       (String.append "/"
                                          (String.append (Id key) ": "))))
                                 err)
                      | inr privateKey => inr (Some privateKey)
                      end
                 else inr None) with
          | inl e => inl e
          | inr privateKey =>
              let ki := mkKeysetItem (Id key) certificate privateKey in
              parseKeys x name (GoMap.set items (Id key) ki) rest
          end
      end
  end.

(** [func parseKeyset].  The last statement reads
    [FindPrimary(o).Id] without a nil check. *)
Definition parseKeyset (x : Externals) (o : Kops.Keyset) : Go.Result Keyset :=
  match parseKeys x (ks_Name o) [] (Keys o) with
  | inl e => Go.Err e
  | inr items =>
      match FindPrimary x o with
      | None => Go.Panic Go.nilDereference
      | Some primary =>
          Go.Ok (mkKeyset items (GoMap.lookup items (Id primary)) false)
      end
  end.

End Fi.

(* ===================================================================== *)
(** ** package nodeup: the helpers of [NodeUpCommand.Run]                  *)
(** (upup/pkg/fi/nodeup/command.go)                                        *)
(* ===================================================================== *)

Module NodeupHost.

Local Open Scope go_scope.

(** The calls the helpers make: the metadata services, the AWS APIs, the
    kernel, kops-controller, and the warnings they log.  ([klog.Info]
    lines are left out.) *)
Inductive Call : Type :=
| ReadFile (path : string)                        (* vfs.Context.ReadFile *)
| NewSession                                      (* session.NewSession *)
| DescribeInstances (region instanceID : string)
| DescribeLifecycleHooks (asgName hookName : string)
| CompleteLifecycleAction (asgName instanceID hookName result : string)
| DescribeAutoScalingInstances (instanceID : string)
| RegionFromMetadata
| NewAWSAuthenticator (region : string)
| UrlParse (rawurl : string)
| QueryBootstrap (baseURL : string) (ca : option string)
                 (apiVersion : string) (includeNodeConfig : bool)
| ReadProcFilesystems                 (* ioutil.ReadFile("/proc/filesystems") *)
| ExecModprobe (module : string)      (* exec.Command("/sbin/modprobe", module) *)
| Warning (msg : string).

(** The answers of the collaborators, and what is declared outside these
    files.  An EC2 reservation is the list of its instances, an
    instance its [PrivateDnsName] (a [*string]); an auto-scaling
    instance is its [LifecycleState] (a [*string]). *)
Record Host : Type := mkHost {
  TrimSpace : string -> string;                   (* strings.TrimSpace *)
  ToLower : string -> string;                     (* strings.ToLower *)
  Fields : string -> list string;                 (* strings.Fields *)
  ParseIP : string -> bool;                       (* net.ParseIP(s) != nil *)
  readFile : string -> error + string;
  newSession : option error;
  describeInstances : string -> string -> error + list (list (option string));
  describeLifecycleHooks : string -> string -> error + nat;
  completeLifecycleAction : string -> string -> string -> string -> option error;
  describeAutoScalingInstances : string -> error + list (option string);
  regionFromMetadata : error + string;
  newAWSAuthenticator : string -> option error;
  urlParse : string -> error + string;
  queryBootstrap : string -> option string -> error + string;
  CloudProviderAWS : string;                      (* api.CloudProviderAWS *)
  InstanceGroupRoleNode : string;
  InstanceGroupRoleAPIServer : string;
  ConfigurationModeWarming : string;              (* model.ConfigurationModeWarming *)
  BootstrapAPIVersion : string                    (* nodeup.BootstrapAPIVersion *)
}.

(** The kernel, whose state a [modprobe] changes: what
    [/proc/filesystems] reads as, and what running [/sbin/modprobe]
    does (the combined output and the error). *)
Record Kernel (K : Type) : Type := mkKernel {
  procFilesystems : K -> error + string;
  execModprobe : string -> K -> K * (string * option error)
}.

(** [s[:len(s)-1]]. *)
Fixpoint dropLast (s : string) : option string :=
  match s with
  | EmptyString => None
  | String c EmptyString => Some EmptyString
  | String c s' => option_map (String c) (dropLast s')
  end.

(** [func completeWarmingLifecycleAction]. *)
Definition completeWarmingLifecycleAction (w : Host)
           (instanceGroupName clusterName instanceID : string)
  : Go.Eff Call unit :=
  let asgName := String.append instanceGroupName (String.append "." clusterName) in
  let hookName := "kops-warmpool" in
  hooks <- Go.call (DescribeLifecycleHooks asgName hookName)
                   (describeLifecycleHooks w asgName hookName)
                   (errorf (String.append "failed to find lifecycle hook "
                              (String.append (quoted hookName) ": "))) ;;
  if (0 <? hooks)%nat then
    Go.call (CompleteLifecycleAction asgName instanceID hookName "CONTINUE")
            (Go.errorOnly
               (completeLifecycleAction w asgName instanceID hookName "CONTINUE"))
            (errorf (String.append "failed to complete lifecycle hook "
                       (String.append (quoted hookName)
                          (String.append " for "
                             (String.append (quoted instanceID) ": ")))))
  else Go.ret tt.

(** [func evaluateHostnameOverride]. *)
Definition evaluateHostnameOverride (w : Host) (hostnameOverride : string)
  : Go.Eff Call string :=
  if String.eqb hostnameOverride "" || String.eqb hostnameOverride "@hostname"
  then Go.ret ""
  else
    let k := TrimSpace w hostnameOverride in
    let k := ToLower w k in
    if String.eqb k "@aws" then
      azBytes <- Go.call
        (ReadFile "metadata://aws/meta-data/placement/availability-zone")
        (readFile w "metadata://aws/meta-data/placement/availability-zone")
        (errorf "error reading availability zone from AWS metadata: ") ;;
      instanceIDBytes <- Go.call
        (ReadFile "metadata://aws/meta-data/instance-id")
        (readFile w "metadata://aws/meta-data/instance-id")
        (errorf "error reading instance-id from AWS metadata: ") ;;
      let instanceID := instanceIDBytes in
      Go.call NewSession (Go.errorOnly (newSession w))
              (errorf "error starting new AWS session: ") ;;
      region <- match dropLast azBytes with
                | Some region => Go.ret region
                | None => Go.panic Go.sliceOutOfRange
                end ;;
      result <- Go.call (DescribeInstances region instanceID)
                        (describeInstances w region instanceID)
                        (errorf "error describing instances: ") ;;
      if negb (length result =? 1)%nat
      then Go.raise "Too many reservations returned for the single instance-id"
      else
        match result with
        | instances :: _ =>
            if negb (length instances =? 1)%nat
            then Go.raise "Too many instances returned for the single instance-id"
            else
              match instances with
              | Some privateDnsName :: _ => Go.ret privateDnsName
              | None :: _ => Go.panic Go.nilDereference
              | [] => Go.panic Go.indexOutOfRange
              end
        | [] => Go.panic Go.indexOutOfRange
        end
    else if String.eqb k "@gce" then
      b <- Go.call (ReadFile "metadata://gce/instance/hostname")
                   (readFile w "metadata://gce/instance/hostname")
                   (errorf "error reading hostname from GCE metadata: ") ;;
      let fullyQualified := b in
      match Strings.first (Strings.Split fullyQualified Strings.dot) with
      | Some bareHostname => Go.ret bareHostname
      | None => Go.panic Go.indexOutOfRange
      end
    else if String.eqb k "@digitalocean" then
      vBytes <- Go.call
        (ReadFile "metadata://digitalocean/interfaces/private/0/ipv4/address")
        (readFile w "metadata://digitalocean/interfaces/private/0/ipv4/address")
        (errorf "error reading droplet private IP from DigitalOcean metadata: ") ;;
      let hostname := vBytes in
      if String.eqb hostname ""
      then Go.raise "private IP for digitalocean droplet was empty"
      else Go.ret hostname
    else if String.eqb k "@alicloud" then
      azBytes <- Go.call (ReadFile "metadata://alicloud/zone-id")
                         (readFile w "metadata://alicloud/zone-id")
                         (errorf "error reading zone-id from Alicloud metadata: ") ;;
      let az := azBytes in
      instanceIDBytes <- Go.call
        (ReadFile "metadata://alicloud/instance-id")
        (readFile w "metadata://alicloud/instance-id")
        (errorf "error reading instance-id from Alicloud metadata: ") ;;
      let instanceID := instanceIDBytes in
      Go.ret (String.append az (String.append "." instanceID))
    else Go.ret hostnameOverride.

(** [func evaluateBindAddress]. *)
Definition evaluateBindAddress (w : Host) (bindAddress : string)
  : Go.Eff Call string :=
  if String.eqb bindAddress "" then Go.ret ""
  else if String.eqb bindAddress "@aws" then
    vBytes <- Go.call (ReadFile "metadata://aws/meta-data/local-ipv4")
                      (readFile w "metadata://aws/meta-data/local-ipv4")
                      (errorf "error reading local IP from AWS metadata: ") ;;
    let ips := Fields w vBytes in
    match ips with
    | [] =>
        Go.log (Warning "Local IP from AWS metadata service was empty") ;;
        Go.ret ""
    | ip :: _ => Go.ret ip
    end
  else if negb (ParseIP w bindAddress)
  then Go.raise "bindAddress is not valid IP address"
  else Go.ret bindAddress.

(** [func kernelHasFilesystem], on the kernel in state [k]. *)
Definition kernelHasFilesystem (w : Host) K (kernel : Kernel K) (k : K)
           (fs : string) : Go.Eff Call bool :=
  contents <- Go.call ReadProcFilesystems (procFilesystems kernel k)
                      (errorf "error reading /proc/filesystems: ") ;;
  Go.ret (existsb (fun line =>
                     existsb (fun token => String.eqb token fs) (Fields w line))
                  (Strings.Split contents Strings.newline)).

(** [func modprobe]: the error it returns, and the kernel after the
    command. *)
Definition modprobe K (kernel : Kernel K) (k : K) (module : string)
  : Go.Eff Call unit * K :=
  let '(k', (outString, err)) := execModprobe kernel module k in
  (Go.call (ExecModprobe module) (Go.errorOnly err)
           (fun e => String.append "modprobe for module "
                       (String.append (quoted module)
                          (String.append " failed ("
                             (String.append e
                                (String.append "): " outString))))),
   k').

(** [if err := f(); err != nil { klog.Warningf(...) }]: the error of the
    body becomes a warning. *)
Definition warnOnError {A} (m : Go.Eff Call A) (prefix : string)
  : Go.Eff Call (option A) :=
  match m with
  | (t, Go.Ok a) => (t, Go.Ok (Some a))
  | (t, Go.Err e) => (t ++ [Warning (errorf prefix e)], Go.Ok None)
  | (t, Go.Panic msg) => (t, Go.Panic msg)
  end.

(** The loop of [evaluateDockerSpecStorage] over [precedence], on the
    kernel in state [k]: the option chosen, if one is, and the kernel
    afterwards. *)
Fixpoint firstSupported (w : Host) K (kernel : Kernel K) (k : K)
         (precedence : list string) : Go.Eff Call (option string * K) :=
  match precedence with
  | [] => Go.ret (None, k)
  | opt :: rest =>
      let fs := if String.eqb opt "overlay2" then "overlay" else opt in
      supported <- warnOnError (kernelHasFilesystem w kernel k fs)
        (String.append "error checking if "
           (String.append (quoted fs) " filesystem is supported: ")) ;;
      match supported with
      | None => firstSupported w kernel k rest
      | Some supported =>
          k1 <- (if negb supported
                 then
                   let module := fs in
                   let (m, k') := modprobe kernel k fs in
                   warnOnError m
                     (String.append "error running `modprobe "
                        (String.append (quoted module) "`: ")) ;;
                   Go.ret k'
                 else Go.ret k) ;;
          supported <- warnOnError (kernelHasFilesystem w kernel k1 fs)
            (String.append "error checking if "
               (String.append (quoted fs) " filesystem is supported: ")) ;;
          match supported with
          | None => firstSupported w kernel k1 rest
          | Some true => Go.ret (Some opt, k1)
          | Some false =>
              Go.log (Warning (String.append (quoted opt)
                " docker storage was specified, but filesystem is not supported")) ;;
              firstSupported w kernel k1 rest
          end
      end
  end.

(** [func evaluateDockerSpecStorage]: the new [spec.Storage] (a
    [*string]) and the kernel afterwards. *)
Definition evaluateDockerSpecStorage (w : Host) K (kernel : Kernel K) (k : K)
           (specStorage : option string)
  : Go.Eff Call (option string * K) :=
  let storage := match specStorage with Some s => s | None => "" end in
  if Strings.Contains storage Strings.comma then
    let precedence := Strings.Split storage Strings.comma in
    chosen <- firstSupported w kernel k precedence ;;
    match chosen with
    | (Some opt, k') => Go.ret (Some opt, k')
    | (None, k') =>
        match precedence with
        | p0 :: _ =>
            Go.log (Warning
              (String.append "No storage module was supported from "
                 (String.append (quoted storage)
                    (String.append ", will default to " (quoted p0))))) ;;
            Go.ret (Some p0, k')
        | [] => Go.panic Go.indexOutOfRange
        end
    end
  else Go.ret (specStorage, k).

(** [func loadKernelModules]. *)
Definition loadKernelModules K (kernel : Kernel K) (k : K)
  : Go.Eff Call K :=
  let (m, k') := modprobe kernel k "br_netfilter" in
  warnOnError m "error loading br_netfilter module: " ;;
  Go.ret k'.

(** [func getNodeConfigFromServer]. *)
Definition getNodeConfigFromServer (w : Host)
           (config : ApiNodeup.ConfigServerOptions) : Go.Eff Call string :=
  (if String.eqb (ApiNodeup.CloudProvider config) (CloudProviderAWS w)
   then
     region <- Go.call RegionFromMetadata (regionFromMetadata w) Go.asIs ;;
     Go.call (NewAWSAuthenticator region)
             (Go.errorOnly (newAWSAuthenticator w region)) Go.asIs
   else
     Go.raise (String.append "unsupported cloud provider "
                             (ApiNodeup.CloudProvider config))) ;;
  let ca := if negb (String.eqb (ApiNodeup.CA config) "")
            then Some (ApiNodeup.CA config) else None in
  u <- Go.call (UrlParse (ApiNodeup.Server config))
               (urlParse w (ApiNodeup.Server config))
               (errorf (String.append "unable to parse configuration server url "
                          (String.append (quoted (ApiNodeup.Server config))
                                         ": "))) ;;
  Go.call (QueryBootstrap u ca (BootstrapAPIVersion w) true)
          (queryBootstrap w u ca) Go.asIs.

(** [func getAWSConfigurationMode]. *)
Definition getAWSConfigurationMode (w : Host) (role instanceID : string)
  : Go.Eff Call string :=
  if negb (String.eqb role (InstanceGroupRoleNode w)) &&
     negb (String.eqb role (InstanceGroupRoleAPIServer w))
  then Go.ret ""
  else
    result <- Go.call (DescribeAutoScalingInstances instanceID)
                      (describeAutoScalingInstances w instanceID)
                      (errorf "error describing instances: ") ;;
    match result with
    | [] => Go.panic Go.indexOutOfRange
    | lifecycleState :: _ =>
        let lifecycle := match lifecycleState with
                         | Some s => s
                         | None => ""
                         end in
        if Strings.HasPrefix lifecycle "Warmed:"
        then Go.ret (ConfigurationModeWarming w)
        else Go.ret ""
    end.

(** The fields of the cluster and of the configuration that
    [evaluateSpec] rewrites.  [Kubelet], [MasterKubelet], [KubeProxy]
    and [Docker] are pointers. *)
Record KubeProxyConfig : Type := mkKubeProxyConfig {
  proxy_HostnameOverride : string;
  BindAddress : string
}.

Record Spec : Type := mkSpec {
  Kubelet_HostnameOverride : option string;        (* None: Kubelet == nil *)
  MasterKubelet_HostnameOverride : option string;  (* None: MasterKubelet == nil *)
  KubeletConfig_HostnameOverride : string;         (* c.config.KubeletConfig *)
  KubeProxy : option KubeProxyConfig;
  Docker_Storage : option (option string)          (* None: Docker == nil *)
}.

(** [c.X.HostnameOverride] where [c.X] is a pointer. *)
Definition deref {A} (p : option A) : Go.Eff Call A :=
  match p with
  | Some a => Go.ret a
  | None => Go.panic Go.nilDereference
  end.

(** [func evaluateSpec]: the rewritten fields and the kernel afterwards. *)
Definition evaluateSpec (w : Host) K (kernel : Kernel K) (k : K) (c : Spec)
  : Go.Eff Call (Spec * K) :=
  h <- deref (Kubelet_HostnameOverride c) ;;
  kubelet <- evaluateHostnameOverride w h ;;
  h <- deref (MasterKubelet_HostnameOverride c) ;;
  masterKubelet <- evaluateHostnameOverride w h ;;
  kubeletConfig <- evaluateHostnameOverride w (KubeletConfig_HostnameOverride c) ;;
  kubeProxy <- match KubeProxy c with
               | Some p =>
                   h <- evaluateHostnameOverride w (proxy_HostnameOverride p) ;;
                   b <- evaluateBindAddress w (BindAddress p) ;;
                   Go.ret (Some (mkKubeProxyConfig h b))
               | None => Go.ret None
               end ;;
  docker <- match Docker_Storage c with
            | Some storage =>
                r <- evaluateDockerSpecStorage w kernel k storage ;;
                Go.ret (Some (fst r), snd r)
            | None => Go.ret (None, k)
            end ;;
  Go.ret (mkSpec (Some kubelet) (Some masterKubelet) kubeletConfig kubeProxy
                 (fst docker),
          snd docker).

End NodeupHost.

(* ===================================================================== *)
(** ** package cloudup: [nodeUpConfigBuilder.BuildConfig]                  *)
(** (upup/pkg/fi/cloudup/apply_cluster.go)                                 *)
(* ===================================================================== *)

Module CloudupConfig.

Import Kops.

(** [mirrors.MirroredAsset], of which [BuildConfig] only takes the
    [CompactString()]. *)
Definition MirroredAsset := string.

(** [assets.StaticManifest]. *)
Record StaticManifest : Type := mkStaticManifest {
  sm_Key : string;
  sm_Path : string;
  sm_Roles : list InstanceGroupRole
}.

(** [type nodeUpConfigBuilder struct]; of [assetBuilder] the static
    manifests, of [configBase] its [Path()]. *)
Record nodeUpConfigBuilder : Type := mkBuilder {
  assets : GoMap.t (list MirroredAsset);
  staticManifests : list StaticManifest;
  channels : list string;
  configBase : string;
  cluster : Kops.Cluster;
  etcdManifests : GoMap.t (list string);
  images : GoMap.t (GoMap.t (list ApiNodeup.Image));
  protokubeAsset : GoMap.t (list MirroredAsset);
  channelsAsset : GoMap.t (list MirroredAsset)
}.

(** What is declared outside these files. *)
Record Env : Type := mkEnv {
  GetSupported : list ApiNodeup.Architecture;  (* architectures.GetSupported() *)
  CompactString : MirroredAsset -> string;
  IsGossipHostname : string -> bool;           (* dns.IsGossipHostname *)
  KopsControllerStateStore : bool;             (* featureflag...Enabled() *)
  (* url.URL{Scheme: "https", Host: net.JoinHostPort(host,
     strconv.Itoa(wellknownports.KopsControllerPort)), Path: "/"}.String() *)
  controllerURL : string -> string
}.

(** [for _, a := range as { config.Assets[arch] = append(config.Assets[arch],
    a.CompactString()) }]. *)
Definition appendAssets (env : Env) (arch : ApiNodeup.Architecture)
           (someAssets : list MirroredAsset) (configAssets : GoMap.t (list string))
  : GoMap.t (list string) :=
  fold_left (fun m a => GoMap.set m arch (GoMap.get m arch ++ [CompactString env a]))
            someAssets configAssets.

(** The inner loop over [manifest.Roles]: it does not stop at the first
    match. *)
Definition matchesRole (role : InstanceGroupRole)
           (roles : list InstanceGroupRole) : bool :=
  fold_left (fun matched r => if String.eqb r role then true else matched)
            roles false.

(** [func (n *nodeUpConfigBuilder) BuildConfig]; [ca] is what
    [fi.ResourceAsString(caResource)] gives. *)
Definition BuildConfig (env : Env) (x : Kops.Externals)
           (n : nodeUpConfigBuilder) (ig : option Kops.InstanceGroup)
           (apiserverAdditionalIPs : list string) (ca : error + string)
  : error + (ApiNodeup.Config * ApiNodeup.AuxConfig) :=
  let cluster := cluster n in
  match ig with
  | None => inl "instanceGroup cannot be nil"
  | Some ig =>
      let role := ig_Role ig in
      if String.eqb role ""
      then inl (String.append "cannot determine role for instance group: "
                              (ig_Name ig))
      else
        let useGossip := IsGossipHostname env (cl_MasterInternalName cluster) in
        let isMaster := String.eqb role (InstanceGroupRoleMaster x) in
        let (config, auxConfig) := ApiNodeup.NewConfig x cluster ig in
        let configAssets :=
          fold_left (fun m arch =>
                       appendAssets env arch (GoMap.get (assets n) arch)
                                    (GoMap.set m arch []))
                    (GetSupported env) [] in
        let configAssets :=
          if isMaster || useGossip then
            let m :=
              fold_left (fun m arch =>
                           appendAssets env arch
                                        (GoMap.get (protokubeAsset n) arch) m)
                        (GetSupported env) configAssets in
            fold_left (fun m arch =>
                         appendAssets env arch
                                      (GoMap.get (channelsAsset n) arch) m)
                      (GetSupported env) m
          else configAssets in
        let useConfigServer :=
          KopsControllerStateStore env &&
          negb (String.eqb role (InstanceGroupRoleMaster x)) in
        match (if useConfigServer then
                 match ca with
                 | inl err =>
                     inl (errorf "failed to read CA certificate: " err)
                 | inr ca =>
                     inr (Some (ApiNodeup.mkConfigServerOptions
                                  (controllerURL env
                                     (String.append "kops-controller.internal."
                                                    (cl_Name cluster)))
                                  ca (cl_CloudProvider cluster)),
                          ApiNodeup.ConfigBase config)
                 end
               else inr (ApiNodeup.ConfigServer config,
                         Some (configBase n))) with
        | inl e => inl e
        | inr (configServer, configBasePath) =>
            let additionalIPs :=
              if isMaster then apiserverAdditionalIPs
              else ApiNodeup.ApiserverAdditionalIPs config in
            let manifests :=
              fold_left
                (fun acc manifest =>
                   if negb (matchesRole role (sm_Roles manifest)) then acc
                   else acc ++ [ApiNodeup.mkStaticManifest (sm_Key manifest)
                                                           (sm_Path manifest)])
                (staticManifests n) (ApiNodeup.StaticManifests config) in
            inr (ApiNodeup.mkConfig
                   configAssets
                   (match GoMap.lookup (images n) role with
                    | Some m => m
                    | None => []
                    end)
                   configBasePath
                   (ApiNodeup.ClusterLocation config)
                   (ig_Name ig)
                   (ApiNodeup.InstanceGroupRole_ config)
                   (cl_Name cluster)
                   (channels n)
                   additionalIPs
                   (GoMap.get (etcdManifests n) role)
                   (ApiNodeup.DefaultMachineType config)
                   (ApiNodeup.EnableLifecycleHook_ config)
                   manifests
                   (ApiNodeup.KubeletConfig config)
                   (ApiNodeup.SysctlParameters config)
                   (ApiNodeup.UpdatePolicy config)
                   (ApiNodeup.VolumeMounts config)
                   configServer
                   (ApiNodeup.AuxConfigHash config),
                 auxConfig)
        end
  end.

End CloudupConfig.

(* ===================================================================== *)
(** ** package fi: mirroring and deleting key sets                         *)
(** (upup/pkg/fi/vfs_castore.go)                                           *)
(* ===================================================================== *)

Module FiStore.

Import Kops.

Local Open Scope go_scope.

(** A [vfs.Path]: the base directory and the segments joined to it. *)
Definition Path := list string.

(** What [client.Get] answers: the object, an error for which
    [errors.IsNotFound] holds, or another error. *)
Inductive GetAnswer : Type :=
| Found (keyset : Kops.Keyset)
| NotFound
| GetError (e : error).

(** The calls to the file store, to the codec and to the API client. *)
Inductive Call : Type :=
| Serialize (o : Kops.Keyset)               (* serializeKeysetBundle *)
| GetACL (p : Path)                         (* acls.GetACL *)
| WriteFile (p : Path) (data : string)      (* p.WriteFile *)
| Get (name : string)                       (* client.Get *)
| Update (keyset : Kops.Keyset)             (* client.Update *)
| Delete (name : string).                   (* client.Delete *)

(** The answers of the collaborators, and how a path and a key set type
    print. *)
Record World : Type := mkWorld {
  pathString : Path -> string;                (* the [%q] of a vfs.Path *)
  typeString : KeysetType -> string;          (* the [%q] of a KeysetType *)
  serialize : Kops.Keyset -> error + string;
  getACL : Path -> option error;
  writeFile : Path -> string -> option error;
  get : string -> GetAnswer;
  update : Kops.Keyset -> option error;
  delete : string -> option error
}.

Definition KeysetType_eqb (a b : KeysetType) : bool :=
  match a, b with
  | SecretTypeKeypair, SecretTypeKeypair => true
  | SecretTypeSecret, SecretTypeSecret => true
  | SecretTypeOther s, SecretTypeOther s' => String.eqb s s'
  | _, _ => false
  end.

(** One bundle of [mirrorKeyset]: serialize, get the ACL, write. *)
Definition writeBundle (w : World) (o : Kops.Keyset) (p : Path)
  : Go.Eff Call unit :=
  data <- Go.call (Serialize o) (serialize w o) Go.asIs ;;
  Go.call (GetACL p) (Go.errorOnly (getACL w p)) Go.asIs ;;
  Go.call (WriteFile p data) (Go.errorOnly (writeFile w p data))
          (errorf (String.append "error writing "
                     (String.append (pathString w p) ": "))).

(** [func mirrorKeyset]. *)
Definition mirrorKeyset (x : Fi.Externals) (w : World) (basedir : Path)
           (keyset : Kops.Keyset) : Go.Eff Call unit :=
  match Fi.FindPrimary x keyset with
  | None =>
      Go.raise (String.append "found keyset with no primary data: "
                              (ks_Name keyset))
  | Some primary =>
      match ks_Type keyset with
      | SecretTypeKeypair =>
          writeBundle w (Fi.removePrivateKeyMaterial keyset)
                      (basedir ++ ["issued"; ks_Name keyset; "keyset.yaml"]) ;;
          writeBundle w keyset
                      (basedir ++ ["private"; ks_Name keyset; "keyset.yaml"])
      | _ => Go.raise (String.append "unknown secret type: "
                                     (typeString w (ks_Type keyset)))
      end
  end.

(** The loop of [deleteKeysetItem]: the keys kept, and whether the id
    was found. *)
Fixpoint withoutId (id : string) (keys : list Kops.KeysetItem)
         (newKeys : list Kops.KeysetItem) (found : bool)
  : list Kops.KeysetItem * bool :=
  match keys with
  | [] => (newKeys, found)
  | ki :: rest =>
      if String.eqb (Id ki) id
      then withoutId id rest newKeys true
      else withoutId id rest (newKeys ++ [ki]) found
  end.

(** [func deleteKeysetItem]. *)
Definition deleteKeysetItem (w : World) (name : string)
           (keysetType : KeysetType) (id : string) : Go.Eff Call unit :=
  got <- ([Get name],
          match get w name with
          | Found keyset => Go.Ok (Some keyset)
          | NotFound => Go.Ok None
          | GetError e =>
              Go.Err (errorf (String.append "error reading Keyset "
                                (String.append (quoted name) ": ")) e)
          end) ;;
  match got with
  | None => Go.ret tt
  | Some keyset =>
      if negb (KeysetType_eqb (ks_Type keyset) keysetType)
      then Go.raise (String.append "mismatch on Keyset type on " (quoted name))
      else
        let (newKeys, found) := withoutId id (Keys keyset) [] false in
        if negb found
        then Go.raise (String.append "KeysetItem "
                         (String.append (quoted id)
                            (String.append " not found in Keyset "
                                           (quoted name))))
        else if (length newKeys =? 0)%nat
        then Go.call (Delete name) (Go.errorOnly (delete w name))
                     (errorf (String.append "error deleting Keyset "
                                (String.append (quoted name) ": ")))
        else
          let keyset := Kops.mkKeyset (ks_Name keyset) (ks_Type keyset)
                                      (PrimaryId keyset) newKeys in
          Go.call (Update keyset) (Go.errorOnly (update w keyset))
                  (errorf (String.append "error updating Keyset "
                             (String.append (quoted name) ": ")))
  end.

End FiStore.

(* ===================================================================== *)
(** ** package validation (pkg/apis/kops/validation/validation.go)         *)
(* ===================================================================== *)

Module Validation.

Import Kops.

(** A [*field.Path]: the names and indexes from the root. *)
Inductive PathElement : Type :=
| Child (name : string)
| Index (i : nat)
| Key (key : string).

Definition Path := list PathElement.

(** The value a [field.Invalid] reports. *)
Inductive Value : Type :=
| IntValue (n : Z)
| StringValue (s : string).

(** [*field.Error], by constructor. *)
Inductive FieldError : Type :=
| Required (p : Path) (detail : string)
| Invalid (p : Path) (value : Value) (detail : string)
| Forbidden (p : Path) (detail : string)
| Duplicate (p : Path) (value : Value).

Definition ErrorList := list FieldError.

(** The loop of [validateEtcdBackupStore], entered with the errors and
    the names seen so far (the keys of the map [etcdBackupStore]). *)
Fixpoint validateEtcdBackupStore_from (allErrs : ErrorList)
         (etcdBackupStore : list string) (specs : list EtcdClusterSpec)
         (fieldPath : Path) : ErrorList :=
  match specs with
  | [] => allErrs
  | x :: rest =>
      let alreadyUsed := existsb (String.eqb (etcd_Name x)) etcdBackupStore in
      let allErrs :=
        if alreadyUsed
        then allErrs ++ [Forbidden (fieldPath ++ [Index 0; Child "backupStore"])
                           "the backup store must be unique for each etcd cluster"]
        else allErrs in
      validateEtcdBackupStore_from allErrs (etcd_Name x :: etcdBackupStore)
                                   rest fieldPath
  end.

(** [func validateEtcdBackupStore]. *)
Definition validateEtcdBackupStore (specs : list EtcdClusterSpec)
           (fieldPath : Path) : ErrorList :=
  validateEtcdBackupStore_from [] [] specs fieldPath.

(** [func validateEtcdTLS]. *)
Definition validateEtcdTLS (specs : list EtcdClusterSpec) (fieldPath : Path)
  : ErrorList :=
  let allErrs := [] in
  let usingTLS :=
    fold_left (fun usingTLS x =>
                 if etcd_EnableEtcdTLS x then S usingTLS else usingTLS)
              specs 0 in
  if (0 <? usingTLS)%nat && negb (usingTLS =? length specs)%nat
  then allErrs ++ [Forbidden (fieldPath ++ [Index 0; Child "enableEtcdTLS"])
                     "both etcd clusters must have TLS enabled or none at all"]
  else allErrs.

End Validation.

(* ===================================================================== *)
(** ** Predicates used in the statements about the helper functions        *)
(* ===================================================================== *)

Module HelperProps.

(** Whether an asset or hook with these [Roles] is kept for [role]. *)
Definition admits (role : Kops.InstanceGroupRole)
           (roles : list Kops.InstanceGroupRole) : bool :=
  negb ((0 <? length roles)%nat && negb (ApiNodeup.containsRole role roles)).

Definition withoutRoles (a : Kops.FileAssetSpec) : Kops.FileAssetSpec :=
  Kops.mkFileAssetSpec (Kops.fa_Name a) (Kops.fa_Content a) [].

Definition hookWithoutRoles (h : Kops.HookSpec) : Kops.HookSpec :=
  Kops.mkHookSpec (Kops.hook_Disabled h) [] (Kops.hook_Requires h)
                  (Kops.hook_Before h) (Kops.hook_ExecContainer h)
                  (Kops.hook_Manifest h) (Kops.hook_UseRawManifest h).


(** A key without its private material. *)
Definition withoutPrivate (key : Kops.KeysetItem) : Kops.KeysetItem :=
  Kops.mkKeysetItem (Kops.Id key) (Kops.PublicMaterial key) EmptyString.


(** The file system that is looked for, and loaded, for a docker storage
    option. *)
Definition probed (opt : string) : string :=
  if String.eqb opt "overlay2" then "overlay" else opt.

(** The kernel in state [k] lists the file system [fs] in
    [/proc/filesystems]. *)
Definition lists (w : NodeupHost.Host) K (kernel : NodeupHost.Kernel K)
           (k : K) (fs : string) : Prop :=
  Go.result (NodeupHost.kernelHasFilesystem w kernel k fs) = Go.Ok true.

(** The warning [evaluateDockerSpecStorage] logs when it falls back to
    the first option. *)
Definition noStorageSupported (storage p0 : string) : NodeupHost.Call :=
  NodeupHost.Warning
    (String.append "No storage module was supported from "
       (String.append (quoted storage)
          (String.append ", will default to " (quoted p0)))).


(** [role == kops.InstanceGroupRoleMaster]. *)
Definition isMaster (x : Kops.Externals) (ig : Kops.InstanceGroup) : bool :=
  String.eqb (Kops.ig_Role ig) (Kops.InstanceGroupRoleMaster x).

(** Whether the node is to fetch its configuration from kops-controller. *)
Definition useConfigServer (env : CloudupConfig.Env) (x : Kops.Externals)
           (ig : Kops.InstanceGroup) : bool :=
  CloudupConfig.KopsControllerStateStore env && negb (isMaster x ig).

(** Whether protokube and channels are installed from assets. *)
Definition needsProtokube (env : CloudupConfig.Env) (x : Kops.Externals)
           (n : CloudupConfig.nodeUpConfigBuilder) (ig : Kops.InstanceGroup)
  : bool :=
  isMaster x ig ||
  CloudupConfig.IsGossipHostname env
    (Kops.cl_MasterInternalName (CloudupConfig.cluster n)).

(** The compact strings of the assets a map holds for an architecture. *)
Definition compact (env : CloudupConfig.Env)
           (m : GoMap.t (list CloudupConfig.MirroredAsset))
           (arch : ApiNodeup.Architecture) : list string :=
  map (CloudupConfig.CompactString env) (GoMap.get m arch).


(** What the provider-specific checks of [ApplyClusterCmd.Run] ask of
    the feature flags and of the SSH public keys in the key store. *)
Definition providerAdmits (w : Cloudup.World) (cluster : Cloudup.Cluster)
  : Prop :=
  let n := Cloudup.sshPublicKeys w in
  match Cloudup.CloudProvider cluster with
  | CloudProviderGCE => Cloudup.AlphaAllowGCE w = true
  | CloudProviderDO =>
      n <> 0 \/ exists k, Cloudup.SSHKeyName cluster = Some k /\ k <> ""
  | CloudProviderAWS =>
      n <= 1 /\ (n = 0 -> Cloudup.SSHKeyName cluster <> None)
  | CloudProviderALI => Cloudup.AlphaAllowALI w = true /\ n = 1
  | CloudProviderAzure => Cloudup.featureAzure w = true /\ n = 1
  | CloudProviderOpenstack => n = 1
  | CloudProviderOther _ => False
  end.

(** What [ApplyClusterCmd.Run] checks of the populated cluster and of
    the state store before it builds any task. *)
Definition settingsChecked (c : Cloudup.ApplyClusterCmd) (w : Cloudup.World)
  : Prop :=
  let cluster := Cloudup.fullCluster w in
  Cloudup.KubernetesVersion cluster <> "" /\
  (Cloudup.DNSZone cluster <> "" \/
   Cloudup.IsGossipHostname w (Cloudup.Name cluster) = true) /\
  (Cloudup.BoolValue (Cloudup.EncryptionConfig cluster) = true ->
   Cloudup.encryptionconfigSecret w = true) /\
  (Cloudup.CiliumEnableEncryption cluster = Some true ->
   Cloudup.ciliumpasswordSecret w = true) /\
  (Cloudup.AllowKopsDowngrade c = false ->
   Cloudup.kopsVersionUpdated w = Cloudup.VersionFileNotExist \/
   Cloudup.kopsVersionUpdated w = Cloudup.VersionFileContent true false).

(** What [NodeUpCommand.Run] requires of the command and of the loaded
    configuration. *)
Definition nodeupConfigured (c : Nodeup.NodeUpCommand) (w : Nodeup.World)
  : Prop :=
  let cfg := Nodeup.config w in
  Nodeup.ConfigLocation c <> "" /\
  Nodeup.CacheDir c <> "" /\
  (Nodeup.ConfigServer cfg = true \/ Nodeup.ConfigBase cfg <> "" \/
   Nodeup.ClusterLocation cfg <> "") /\
  Nodeup.auxConfigHashMatches w = true /\
  (Nodeup.ConfigServer cfg = false ->
   Nodeup.InstanceGroupName cfg <> "" /\
   Nodeup.SecretStore (Nodeup.cluster w) <> "" /\
   Nodeup.KeyStore (Nodeup.cluster w) <> "").

(** The call that populates the instance group [g]. *)
Definition populate (g : string) : Event :=
  EvCall (String.append "PopulateInstanceGroupSpec " g).

(** The key and the task of the image at index [i]. *)
Definition loadImageKey (i : nat) : string :=
  String.append "LoadImage." (Nodeup.Itoa i).

Definition loadImageTask (image : string) : Task :=
  String.append "nodetasks.LoadImageTask " image.


(** The keys of a key set other than those with the id [id]. *)
Definition keysWithout (id : string) (keys : list Kops.KeysetItem)
  : list Kops.KeysetItem :=
  filter (fun k => negb (String.eqb (Kops.Id k) id)) keys.

(** Whether a key of the list has the id [id]. *)
Definition hasId (id : string) (keys : list Kops.KeysetItem) : bool :=
  existsb (fun k => String.eqb (Kops.Id k) id) keys.

(** Where [mirrorKeyset] writes the two bundles of a key set. *)
Definition issuedBundle (basedir : FiStore.Path) (keyset : Kops.Keyset)
  : FiStore.Path :=
  basedir ++ ["issued"; Kops.ks_Name keyset; "keyset.yaml"].

Definition privateBundle (basedir : FiStore.Path) (keyset : Kops.Keyset)
  : FiStore.Path :=
  basedir ++ ["private"; Kops.ks_Name keyset; "keyset.yaml"].

End HelperProps.

(* ===================================================================== *)
(** ** Sample inputs of the helper functions                               *)
(* ===================================================================== *)

Module HelperSamples.

Definition sampleExternals : Kops.Externals :=
  Kops.mkExternals "Master" "automatic"
    (fun dest src => match src with Some s => s | None => dest end)
    (fun wp _ => match wp with
                 | Some w => w
                 | None => Kops.mkWarmPoolSpec 0 None false
                 end)
    (fun wp => match Kops.MaxSize wp with
               | Some m => negb (m =? 0)%Z
               | None => true
               end)
    (fun _ ig => [("kops.k8s.io/instancegroup", Kops.ig_Name ig)]).

Definition sampleCluster : Kops.Cluster :=
  Kops.mkCluster "minimal.example.com" [] [] None
    (Some (Kops.mkKubeletConfigSpec (Some true) [] []))
    (Some (Kops.mkKubeletConfigSpec (Some false) [] []))
    None false "api.internal.minimal.example.com" "aws".

Definition sampleMasters : Kops.InstanceGroup :=
  Kops.mkInstanceGroup "master-a" "Master" [] [] [] []
    (Some (Kops.mkKubeletConfigSpec (Some true) [] [])) [] None "m5.large,m4.large".


(** Ids are read as unsigned decimal numbers. *)
Definition decimal (s : string) : option Z :=
  match s with
  | EmptyString => None
  | _ => option_map (fun u => Z.of_N (N.of_uint u)) (NilEmpty.uint_of_string s)
  end.

Definition sampleFi : Fi.Externals :=
  Fi.mkExternals decimal (fun pem => inr pem) (fun pem => inr pem).

(** Three generations of a key pair and a stray entry. *)
Definition sampleKeys : list Kops.KeysetItem :=
  [ Kops.mkKeysetItem "1" "cert-1" "key-1";
    Kops.mkKeysetItem "3" "cert-3" "key-3";
    Kops.mkKeysetItem "legacy" "cert-0" "";
    Kops.mkKeysetItem "2" "cert-2" "key-2" ].

Definition sampleKeyset (primaryId : string) : Kops.Keyset :=
  Kops.mkKeyset "ca" Kops.SecretTypeKeypair primaryId sampleKeys.


(** A GCE instance whose metadata service answers, and whose only valid
    bind address is [10.0.0.4]. *)
Definition sampleHost : NodeupHost.Host :=
  NodeupHost.mkHost
    (fun s => s) (fun s => s) (fun s => [s])
    (fun s => String.eqb s "10.0.0.4")
    (fun path =>
       if String.eqb path "metadata://gce/instance/hostname"
       then inr "nodes-x7.c.project.internal"
       else if String.eqb path
                 "metadata://aws/meta-data/placement/availability-zone"
       then inr "us-test-1a"
       else if String.eqb path "metadata://aws/meta-data/instance-id"
       then inr "i-0123"
       else if String.eqb path
                 "metadata://digitalocean/interfaces/private/0/ipv4/address"
       then inr "10.0.0.4"
       else inl "not found")
    None
    (fun region instanceID =>
       if String.eqb region "us-test-1"
       then inr [[Some "ip-10-0-0-4.ec2.internal"]]
       else inl "unknown region")
    (fun _ _ => inr 1%nat)
    (fun _ _ _ _ => None)
    (fun _ => inr [Some "Warmed:Pending"])
    (inr "us-test-1")
    (fun _ => None)
    (fun s => inr s)
    (fun _ _ => inr "response")
    "aws" "Node" "APIServer" "Warming" "bootstrap.kops.k8s.io/v1alpha1".


Definition sampleEnv : CloudupConfig.Env :=
  CloudupConfig.mkEnv ["amd64"; "arm64"] (fun a => a) (fun _ => false) true
    (fun host => String.append "https://" (String.append host ":3988/")).

Definition sampleBuilder : CloudupConfig.nodeUpConfigBuilder :=
  CloudupConfig.mkBuilder
    [("amd64", ["kubelet-amd64"; "kubectl-amd64"]); ("arm64", ["kubelet-arm64"])]
    [CloudupConfig.mkStaticManifest "kube-apiserver-healthcheck"
       "manifests/static/healthcheck.yaml" ["Master"]]
    ["memfs://state/addons/bootstrap-channel.yaml"]
    "memfs://state/minimal.example.com"
    sampleCluster
    [("Master", ["memfs://state/manifests/etcd/main.yaml"])]
    []
    [("amd64", ["protokube-amd64"])]
    [("amd64", ["channels-amd64"])].

Definition sampleNodes : Kops.InstanceGroup :=
  Kops.mkInstanceGroup "nodes" "Node" [] [] [] [] None [] None "t3.medium".

End HelperSamples.

Unset Implicit Arguments.

(* ===================================================================== *)
(** ** Facts about the run monad                                           *)
(* ===================================================================== *)

Import Props.

Lemma trace_bind A B (m : M A) (f : A -> M B) :
  trace (bind m f) =
  trace m ++ match outcome m with Returned a => trace (f a) | _ => [] end.
Proof.
  destruct m as [t [a | e | msg | msg]]; simpl; try (now rewrite app_nil_r).
  destruct (f a); reflexivity.
Qed.

Lemma outcome_bind A B (m : M A) (f : A -> M B) :
  outcome (bind m f) =
  match outcome m with
  | Returned a => outcome (f a)
  | Failed e => Failed e
  | Exited msg => Exited msg
  | Panicked msg => Panicked msg
  end.
Proof.
  destruct m as [t [a | e | msg | msg]]; simpl; try reflexivity.
  destruct (f a); reflexivity.
Qed.

Lemma quiet_ret A P (a : A) : quiet P (ret a).
Proof. split; [reflexivity | discriminate]. Qed.

Lemma quiet_fail A P e : quiet P (@fail A e).
Proof. split; [reflexivity | discriminate]. Qed.

Lemma quiet_panic A P msg : quiet P (@panic A msg).
Proof. split; [reflexivity | discriminate]. Qed.

Lemma quiet_bind A B P (m : M A) (f : A -> M B) :
  quiet P m -> (forall a, quiet P (f a)) -> quiet P (bind m f).
Proof.
  intros [Hm Em] Hf. split.
  - rewrite trace_bind, forallb_app, Hm. simpl.
    destruct (outcome m); try reflexivity. apply Hf.
  - intros msg. rewrite outcome_bind.
    destruct (outcome m) eqn:E; try discriminate.
    + apply Hf.
    + intros H. now apply (Em msg0).
Qed.

Lemma quiet_emit P ev : P ev = true -> quiet P (emit ev).
Proof. intros H. split; [simpl; now rewrite H | discriminate]. Qed.

Lemma quiet_call P o ev : P ev = true -> quiet P (call o ev).
Proof.
  intros H. split; [simpl; now rewrite H |].
  simpl. destruct (o ev); discriminate.
Qed.

Lemma quiet_callWrap P o ev pre : P ev = true -> quiet P (callWrap o ev pre).
Proof.
  intros H. split; [simpl; now rewrite H |].
  simpl. destruct (o ev); discriminate.
Qed.

Lemma quiet_callWarn P o ev pre :
  P ev = true -> (forall msg, P (EvWarning msg) = true) ->
  quiet P (callWarn o ev pre).
Proof.
  intros H W. unfold callWarn. destruct (o ev); split; simpl;
    try discriminate; now rewrite H, ?W.
Qed.

Lemma quiet_when P b m : quiet P m -> quiet P (when b m).
Proof. destruct b; simpl; [trivial | intros _; apply quiet_ret]. Qed.

Lemma quiet_liftE A P (r : error + A) : quiet P (Cloudup.liftE r).
Proof. destruct r; [apply quiet_fail | apply quiet_ret]. Qed.

Lemma quiet_forEach A P (xs : list A) body :
  (forall x, quiet P (body x)) -> quiet P (forEach xs body).
Proof.
  intros H. induction xs as [| x xs IH]; simpl.
  - apply quiet_ret.
  - apply quiet_bind; [apply H | intros _; exact IH].
Qed.

Lemma quiet_weaken A (P Q : Event -> bool) (m : M A) :
  (forall ev, P ev = true -> Q ev = true) -> quiet P m -> quiet Q m.
Proof.
  intros PQ [H E]. split; [| exact E].
  rewrite forallb_forall in *. auto.
Qed.

(** Walks down a computation, one rule per construct. *)
Ltac quiet_step :=
  match goal with
  | |- quiet _ (bind _ _) => apply quiet_bind; [| intros ?]
  | |- quiet _ (ret _) => apply quiet_ret
  | |- quiet _ (fail _) => apply quiet_fail
  | |- quiet _ (panic _) => apply quiet_panic
  | |- quiet _ (emit _) => apply quiet_emit; reflexivity
  | |- quiet _ (call _ _) => apply quiet_call; reflexivity
  | |- quiet _ (callWrap _ _ _) => apply quiet_callWrap; reflexivity
  | |- quiet _ (callWarn _ _ _) =>
      apply quiet_callWarn; [reflexivity | intros ?; reflexivity]
  | |- quiet _ (when _ _) => apply quiet_when
  | |- quiet _ (Cloudup.liftE _) => apply quiet_liftE
  | |- quiet _ (forEach _ _) => apply quiet_forEach; intros ?
  | |- quiet _ (if ?b then _ else _) => destruct b
  | |- quiet _ (match ?x with _ => _ end) => destruct x
  end.

Ltac quiet_auto := repeat quiet_step.

(** *** What never panics *)

Lemma calm_ret A (a : A) : calm (ret a).
Proof. discriminate. Qed.

Lemma calm_fail A e : calm (@fail A e).
Proof. discriminate. Qed.

Lemma calm_bind A B (m : M A) (f : A -> M B) :
  calm m -> (forall a, calm (f a)) -> calm (bind m f).
Proof.
  intros Hm Hf msg. rewrite outcome_bind.
  destruct (outcome m) eqn:E; try discriminate.
  - apply Hf.
  - intros H. now apply (Hm msg0).
Qed.

Lemma calm_emit ev : calm (emit ev).
Proof. discriminate. Qed.

Lemma calm_call o ev : calm (call o ev).
Proof. intros msg. simpl. destruct (o ev); discriminate. Qed.

Lemma calm_callWrap o ev pre : calm (callWrap o ev pre).
Proof. intros msg. simpl. destruct (o ev); discriminate. Qed.

Lemma calm_callWarn o ev pre : calm (callWarn o ev pre).
Proof. intros msg. unfold callWarn. destruct (o ev); discriminate. Qed.

Lemma calm_when b m : calm m -> calm (when b m).
Proof. destruct b; simpl; [trivial | intros _; apply calm_ret]. Qed.

Lemma calm_liftE A (r : error + A) : calm (Cloudup.liftE r).
Proof. destruct r; [apply calm_fail | apply calm_ret]. Qed.

Lemma calm_forEach A (xs : list A) body :
  (forall x, calm (body x)) -> calm (forEach xs body).
Proof.
  intros H. induction xs as [| x xs IH]; simpl.
  - apply calm_ret.
  - apply calm_bind; [apply H | intros _; exact IH].
Qed.

Ltac calm_step :=
  match goal with
  | |- calm (bind _ _) => apply calm_bind; [| intros ?]
  | |- calm (ret _) => apply calm_ret
  | |- calm (fail _) => apply calm_fail
  | |- calm (emit _) => apply calm_emit
  | |- calm (call _ _) => apply calm_call
  | |- calm (callWrap _ _ _) => apply calm_callWrap
  | |- calm (callWarn _ _ _) => apply calm_callWarn
  | |- calm (when _ _) => apply calm_when
  | |- calm (Cloudup.liftE _) => apply calm_liftE
  | |- calm (forEach _ _) => apply calm_forEach; intros ?
  | |- calm (if ?b then _ else _) => destruct b
  | |- calm (match ?x with _ => _ end) => destruct x
  end.

Ltac calm_auto := repeat calm_step.

Lemma calm_Cloudup_prepare c w : calm (Cloudup.prepare c w).
Proof.
  unfold Cloudup.prepare, Cloudup.upgradeSpecs, Cloudup.checkKopsDowngrade,
    Cloudup.checkSecrets, Cloudup.checkCloudProvider.
  calm_auto.
Qed.

Lemma calm_Cloudup_writeState w igs : calm (Cloudup.writeState w igs).
Proof. unfold Cloudup.writeState. calm_auto. Qed.

Lemma quiet_Cloudup_prepare c w : quiet Trace.isSetup (Cloudup.prepare c w).
Proof.
  unfold Cloudup.prepare, Cloudup.upgradeSpecs, Cloudup.checkKopsDowngrade,
    Cloudup.checkSecrets, Cloudup.checkCloudProvider.
  quiet_auto.
Qed.

Lemma quiet_Cloudup_writeState w igs :
  quiet Trace.isStoreBlock (Cloudup.writeState w igs).
Proof. unfold Cloudup.writeState. quiet_auto. Qed.

Lemma quiet_Nodeup_prepare c w : quiet Trace.isSetup (Nodeup.prepare c w).
Proof.
  unfold Nodeup.prepare, Nodeup.loadConfig, Nodeup.buildModelContext,
    Nodeup.evaluateSpec, Nodeup.getAWSConfigurationMode, Nodeup.buildTaskMap.
  quiet_auto.
Qed.

(** *** Values returned, events guaranteed *)

Lemma returns_bind A B (m : M A) (f : A -> M B) Q :
  (forall a, outcome m = Returned a -> returns (f a) Q) -> returns (bind m f) Q.
Proof.
  intros H b. rewrite outcome_bind. destruct (outcome m) eqn:E; try discriminate.
  now apply H.
Qed.

Lemma returns_ret A (a : A) (Q : A -> Prop) : Q a -> returns (ret a) Q.
Proof. intros H b E. inversion E. now subst. Qed.

Lemma ensures_bind_l A B P (m : M A) (f : A -> M B) :
  ensures P m -> ensures P (bind m f).
Proof.
  intros H b. rewrite outcome_bind, trace_bind, existsb_app.
  destruct (outcome m) eqn:E; try discriminate.
  intros _. now rewrite (H a).
Qed.

Lemma ensures_bind_r A B P (m : M A) (f : A -> M B) :
  (forall a, ensures P (f a)) -> ensures P (bind m f).
Proof.
  intros H b. rewrite outcome_bind, trace_bind, existsb_app.
  destruct (outcome m) eqn:E; try discriminate.
  intros F. rewrite (H a b F). apply orb_true_r.
Qed.

Lemma ensures_callWrap P o ev pre : P ev = true -> ensures P (callWrap o ev pre).
Proof. intros H a _. simpl. now rewrite H. Qed.

Lemma liftE_Returned A (r : error + A) a :
  outcome (Cloudup.liftE r) = Returned a -> r = inr a.
Proof. destruct r; simpl; intros H; inversion H; reflexivity. Qed.

Lemma Cloudup_prepare_ensures c w :
  ensures Trace.isBuildTasks (Cloudup.prepare c w).
Proof.
  unfold Cloudup.prepare.
  repeat first
    [ solve [apply ensures_bind_l; apply ensures_callWrap; reflexivity]
    | apply ensures_bind_r; intros ? ].
Qed.

Lemma Cloudup_prepare_returns c w :
  returns (Cloudup.prepare c w)
    (fun p => exists lc project,
       p = (lc, project, instanceGroupsOf c w, Cloudup.builtTasks w) /\
       Cloudup.builderLifecycles (Cloudup.Phase_ c) (Cloudup.TargetName_ c)
                                 (Cloudup.GetAssets c) = inr lc).
Proof.
  unfold Cloudup.prepare.
  apply returns_bind; intros igs Higs.
  assert (igs = instanceGroupsOf c w) as ->.
  { unfold instanceGroupsOf. destruct (Cloudup.InstanceGroups c); simpl in Higs.
    - now inversion Higs.
    - unfold call in Higs. simpl in Higs.
      destruct (Cloudup.fails w _); now inversion Higs. }
  apply returns_bind; intros _ _.
  apply returns_bind; intros lc Hlc. apply liftE_Returned in Hlc.
  repeat (apply returns_bind; intros ? _).
  apply returns_ret. eauto.
Qed.

Lemma Nodeup_prepare_ensures c w :
  ensures Trace.isLoaderBuild (Nodeup.prepare c w).
Proof.
  unfold Nodeup.prepare, Nodeup.buildTaskMap.
  repeat first
    [ solve [apply ensures_bind_l; apply ensures_callWrap; reflexivity]
    | apply ensures_bind_r; intros ? ].
Qed.

Lemma Nodeup_prepare_returns c w :
  returns (Nodeup.prepare c w)
    (fun tm => tm = Nodeup.addLoadImageTasks 0 (Nodeup.Images (Nodeup.config w))
                                             (Nodeup.loadedTasks w)).
Proof.
  unfold Nodeup.prepare, Nodeup.buildTaskMap.
  repeat (apply returns_bind; intros ? _).
  now apply returns_ret.
Qed.

(** *** What [BuildTasks] is given *)

Lemma always_bind A B P (m : M A) (f : A -> M B) :
  always P m -> (forall a, outcome m = Returned a -> always P (f a)) ->
  always P (bind m f).
Proof.
  unfold always. intros Hm Hf. rewrite trace_bind. apply Forall_app. split; [exact Hm |].
  destruct (outcome m) eqn:E; auto.
Qed.

Lemma always_ret A P (a : A) : always P (ret a).
Proof. constructor. Qed.

Lemma always_quiet A (q : Event -> bool) (P : Event -> Prop) (m : M A) :
  (forall ev, q ev = true -> P ev) -> quiet q m -> always P m.
Proof.
  intros QP [H _]. unfold always. rewrite forallb_forall in H.
  apply Forall_forall. auto.
Qed.

Lemma Cloudup_prepare_builtWith c w : builtWith c w (trace (Cloudup.prepare c w)).
Proof.
  assert (always (fun ev => forall bs ov, ev = EvBuildTasks bs ov ->
            exists lc pb,
              Cloudup.builderLifecycles (Cloudup.Phase_ c) (Cloudup.TargetName_ c)
                                        (Cloudup.GetAssets c) = inr lc /\
              Cloudup.providerBuilders w (Cloudup.fullCluster w) lc = inr pb /\
              bs = Cloudup.commonBuilders lc ++ pb /\
              ov = Cloudup.LifecycleOverrides c)
           (Cloudup.prepare c w)) as H.
  { unfold Cloudup.prepare.
    repeat (apply always_bind;
            [ apply (always_quiet _ (fun ev => Trace.isCall ev || Trace.isWarning ev));
              [ intros [] ; simpl; intros; discriminate
              | unfold Cloudup.upgradeSpecs, Cloudup.checkKopsDowngrade,
                  Cloudup.checkSecrets, Cloudup.checkCloudProvider;
                solve [quiet_auto] ]
            | intros ? ? ]).
    apply always_bind; [| intros; apply always_ret].
    unfold always, callWrap. simpl. constructor; [| constructor].
    intros bs ov E. inversion E; subst.
    repeat match goal with
           | H : outcome (Cloudup.liftE _) = Returned _ |- _ =>
               apply liftE_Returned in H
           end.
    do 2 eexists. repeat split; first [eassumption | reflexivity]. }
  unfold always in H. rewrite Forall_forall in H.
  intros bs ov I. exact (H _ I bs ov eq_refl).
Qed.

(** *** The stages of [ApplyClusterCmd.Run] *)

(** Either the preparation fails, or the run is the preparation followed
    by the target part. *)
Lemma Cloudup_Run_stages c w :
  exists S, forallb Trace.isSetup S = true /\ builtWith c w S /\
    ((exists e, Cloudup.Run c w = (S, Failed e)) \/
     (exists lc project,
        Cloudup.builderLifecycles (Cloudup.Phase_ c) (Cloudup.TargetName_ c)
                                  (Cloudup.GetAssets c) = inr lc /\
        existsb Trace.isBuildTasks S = true /\
        let rest := Cloudup.runOnTarget c w lc project (instanceGroupsOf c w)
                                        (Cloudup.builtTasks w) in
        Cloudup.Run c w = (S ++ trace rest, outcome rest))).
Proof.
  unfold Cloudup.Run.
  destruct (quiet_Cloudup_prepare c w) as [HS HX].
  pose proof (Cloudup_prepare_ensures c w) as HE.
  pose proof (Cloudup_prepare_returns c w) as HR.
  pose proof (Cloudup_prepare_builtWith c w) as HW.
  pose proof (calm_Cloudup_prepare c w) as HC.
  destruct (Cloudup.prepare c w) as [S [p | e | msg | msg]];
    unfold trace, outcome, calm in *; simpl in *; exists S;
    (split; [exact HS |]); (split; [exact HW |]).
  - right. destruct (HR p eq_refl) as (lc & project & -> & Hlc).
    exists lc, project. split; [exact Hlc |]. split; [now apply (HE _ eq_refl) |].
    destruct (Cloudup.runOnTarget _ _ _ _ _ _); reflexivity.
  - left. eauto.
  - exfalso. now apply (HX msg).
  - exfalso. now apply (HC msg).
Qed.

(** *** Trace segments *)

Lemma none_app p l1 l2 :
  Trace.none p (l1 ++ l2) = Trace.none p l1 && Trace.none p l2.
Proof.
  induction l1 as [| ev l1 IH]; simpl; [reflexivity |].
  now rewrite IH, andb_assoc.
Qed.

Lemma none_of_kind (q p : Event -> bool) l :
  (forall ev, q ev = true -> p ev = false) ->
  forallb q l = true -> Trace.none p l = true.
Proof.
  intros D. induction l as [| ev l IH]; simpl; [reflexivity |].
  intros H. apply andb_prop in H. destruct H as [Hq Hl].
  now rewrite (D ev Hq), IH.
Qed.

Lemma after_app_none p l1 l2 :
  Trace.none p l1 = true -> Trace.after p (l1 ++ l2) = Trace.after p l2.
Proof.
  induction l1 as [| ev l1 IH]; simpl; [reflexivity |].
  destruct (p ev); simpl; [discriminate | exact IH].
Qed.

Lemma before_app_none p l1 l2 :
  Trace.none p l1 = true -> Trace.before p (l1 ++ l2) = l1 ++ Trace.before p l2.
Proof.
  induction l1 as [| ev l1 IH]; simpl; [reflexivity |].
  destruct (p ev); simpl; [discriminate | intros H; now rewrite IH].
Qed.

Lemma after_none p l : Trace.none p l = true -> Trace.after p l = [].
Proof.
  induction l as [| ev l IH]; simpl; [reflexivity |].
  destruct (p ev); simpl; [discriminate | exact IH].
Qed.

Lemma before_none p l : Trace.none p l = true -> Trace.before p l = l.
Proof.
  induction l as [| ev l IH]; simpl; [reflexivity |].
  destruct (p ev); simpl; [discriminate | intros H; now rewrite IH].
Qed.

Lemma count_app p l1 l2 :
  Trace.count p (l1 ++ l2) = Trace.count p l1 + Trace.count p l2.
Proof.
  induction l1 as [| ev l1 IH]; simpl; [reflexivity |]. rewrite IH. lia.
Qed.

Lemma count_none p l : Trace.none p l = true -> Trace.count p l = 0.
Proof.
  induction l as [| ev l IH]; simpl; [reflexivity |].
  destruct (p ev); simpl; [discriminate | exact IH].
Qed.

Lemma existsb_none p l : Trace.none p l = true -> existsb p l = false.
Proof.
  induction l as [| ev l IH]; simpl; [reflexivity |].
  destruct (p ev); simpl; [discriminate | exact IH].
Qed.

Lemma In_kind (q : Event -> bool) l ev :
  forallb q l = true -> In ev l -> q ev = true.
Proof. intros H I. rewrite forallb_forall in H. now apply H. Qed.

(** Symbolic execution of the part of a driver that follows the setup:
    every collaborator call is split into its two answers. *)
Ltac exec_step :=
  match goal with
  | |- context [match ?o ?ev with Some _ => _ | None => _ end] =>
      let E := fresh "E" in destruct (o ev) eqn:E; simpl
  | |- context [Cloudup.writeState ?w ?igs] =>
      let W := fresh "W" in
      let r := fresh "r" in
      let EW := fresh "EW" in
      let HW := fresh "HW" in
      let Hx := fresh "Hx" in
      let Hc := fresh "Hc" in
      destruct (quiet_Cloudup_writeState w igs) as [HW Hx];
      pose proof (calm_Cloudup_writeState w igs) as Hc;
      destruct (Cloudup.writeState w igs) as [W r] eqn:EW;
      unfold trace, outcome, calm in HW, Hx, Hc; simpl in HW, Hx, Hc;
      destruct r as [[] | ? | ? | ?];
      [ | | exfalso; eapply Hx; reflexivity
        | exfalso; eapply Hc; reflexivity ]; simpl
  | |- context [if ?b then _ else _] =>
      let E := fresh "E" in destruct b eqn:E; simpl
  end.

Ltac exec :=
  unfold when, call, callWrap, callWarn, callExit, Cloudup.liftE;
  simpl; repeat exec_step; rewrite <- ?app_assoc; simpl.

Ltac kinds :=
  let ev := fresh "ev" in
  intros ev; destruct ev; cbv; intros; congruence.

Ltac rewrite_known :=
  repeat match goal with
         | H : ?x = _ |- context [?x] => rewrite H
         end.

Lemma path_eq c w (m m' : M Cloudup.Outputs) :
  ApplyPath c w m -> m = m' -> ApplyPath c w m'.
Proof. now intros H <-. Qed.

Lemma Cloudup_selectTarget_cases c w project :
  exists T r,
    Cloudup.selectTarget c w (Cloudup.fullCluster w) project = (T, r) /\
    match r with
    | Returned sel =>
        selectedBy (Cloudup.TargetName_ c) sel /\
        exists T', T = EvNewTarget (Cloudup.target sel) :: T' /\
                   forallb Trace.isCall T' = true
    | Failed e =>
        T = [] \/
        exists t T', T = EvNewTarget t :: T' /\ forallb Trace.isCall T' = true /\
                     Cloudup.TargetName_ c = TargetTerraform /\
                     backend t = BackendTerraform
    | Exited _ => False
    | Panicked _ => False
    end.
Proof.
  unfold Cloudup.selectTarget.
  destruct (Cloudup.TargetName_ c);
    [destruct (Cloudup.CloudProvider (Cloudup.fullCluster w)) | | | |].
  all: exec.
  all: eexists; eexists; (split; [reflexivity |]); simpl.
  all: unfold selectedBy; simpl.
  all: try (left; reflexivity).
  all: try (split; [tauto | eexists; split; reflexivity]).
  all: right; do 2 eexists; split; [reflexivity | repeat split].
Qed.

(** From [fi.NewContext] on, after a selection [sel]. *)
Lemma Cloudup_execute_paths c w S lc sel T' :
  builtWith c w S -> prepared c S lc -> selected c sel T' ->
  let rest := Cloudup.execute c w lc (instanceGroupsOf c w) sel (tasksFor w sel) in
  ApplyPath c w
    (S ++ EvNewTarget (Cloudup.target sel) :: T' ++ deletions c sel ++ trace rest,
     outcome rest).
Proof.
  intros HBW HP HS rest. subst rest. unfold Cloudup.execute.
  change (mkContext (Cloudup.target sel) (Cloudup.checkExisting sel) (tasksFor w sel))
    with (contextFor w sel).
  change (negb (Cloudup.dryRun sel) &&
          negb (Lifecycle_eqb (Cloudup.clusterLifecycle lc) LifecycleIgnore))
    with (writesStore sel lc).
  change ((if Cloudup.IsGossipHostname w (Cloudup.Name (Cloudup.fullCluster w))
           then false else Cloudup.shouldPrecreateDNS sel) &&
          negb (Lifecycle_eqb (Cloudup.clusterLifecycle lc) LifecycleIgnore))
    with (precreates w sel lc).
  unfold callWrap, callWarn, when.
  destruct (Cloudup.fails w (EvNewContext (contextFor w sel))) eqn:ENC; simpl.
  { eapply NewContextFails; eauto. }
  assert (exists W r,
             (if writesStore sel lc
              then Cloudup.writeState w (instanceGroupsOf c w) else ret tt) = (W, r) /\
             match r with
             | Returned _ => storeBlock c w sel lc W
             | Failed e => writesStore sel lc = true /\
                           Cloudup.writeState w (instanceGroupsOf c w) = (W, Failed e)
             | Exited _ => False
             | Panicked _ => False
             end) as (W & r & -> & HW).
  { unfold storeBlock. destruct (writesStore sel lc).
    - destruct (quiet_Cloudup_writeState w (instanceGroupsOf c w)) as [_ Hx].
      pose proof (calm_Cloudup_writeState w (instanceGroupsOf c w)) as Hc.
      destruct (Cloudup.writeState w (instanceGroupsOf c w))
        as [W [[] | e | msg | msg]];
        unfold outcome, calm in Hx, Hc; simpl in Hx, Hc;
        do 2 eexists; (split; [reflexivity |]);
        simpl; auto; [now apply (Hx msg) | now apply (Hc msg)].
    - do 2 eexists. split; reflexivity. }
  destruct r as [[] | e | msg | msg]; simpl; [| | contradiction | contradiction].
  2:{ destruct HW. eapply path_eq; [eapply StoreWriteFails; eauto |].
      rewrite <- ?app_assoc. reflexivity. }
  destruct (Cloudup.fails w (EvRunTasks (contextFor w sel) (Cloudup.runTasksOptions c)))
    eqn:ERT; simpl.
  { eapply path_eq; [eapply RunTasksFails; eauto |].
    rewrite <- ?app_assoc. reflexivity. }
  eapply path_eq; [eapply TasksRan; eauto |].
  unfold dnsEvents.
  destruct (precreates w sel lc); simpl;
    [destruct (Cloudup.fails w EvPrecreateDNS); simpl |];
    destruct (Cloudup.fails w (EvFinish (Cloudup.target sel) (tasksFor w sel)));
    simpl; rewrite <- ?app_assoc; reflexivity.
Qed.

Lemma Cloudup_Run_paths c w : ApplyPath c w (Cloudup.Run c w).
Proof.
  destruct (Cloudup_Run_stages c w)
    as (S & HS & HBW & [(e & ->) | (lc & project & Hlc & HB & ->)]).
  { now constructor. }
  assert (prepared c S lc) as HP by (repeat split; assumption).
  unfold Cloudup.runOnTarget.
  destruct (Cloudup_selectTarget_cases c w project) as (T & r & -> & H).
  destruct r as [sel | e | msg | msg]; [| | contradiction | contradiction].
  2:{ simpl. eapply SelectFails; eauto. }
  destruct H as (Hsel & T' & -> & HT').
  assert (selected c sel T') as HSel by (split; assumption).
  pose proof (Cloudup_execute_paths c w S lc sel T' HBW HP HSel) as HE. simpl in HE.
  unfold deletions, tasksFor in HE. unfold tasksFor, contextFor in HE.
  unfold callWrap. simpl.
  destruct (Cloudup.checkExisting sel) eqn:CE; simpl.
  - destruct (Cloudup.fails w (EvFindDeletions (Cloudup.LifecycleOverrides c)))
      eqn:EF; simpl.
    + eapply path_eq; [eapply FindDeletionsFails; eauto |]. reflexivity.
    + destruct (Cloudup.execute c w lc (instanceGroupsOf c w) sel
                                (Cloudup.deletionTasks w)) as [X rX].
      exact HE.
  - destruct (Cloudup.execute c w lc (instanceGroupsOf c w) sel
                              (Cloudup.builtTasks w)) as [X rX].
    exact HE.
Qed.

Lemma not_eqb (a b : string) : String.eqb a b = false -> a <> b.
Proof. intros H E. apply String.eqb_eq in E. congruence. Qed.

Lemma node_eq c w (m m' : M unit) :
  NodeupPath c w m -> m = m' -> NodeupPath c w m'.
Proof. now intros H <-. Qed.

Ltac node_selected :=
  unfold nodeSelected;
  first [ left; split; [assumption |]; repeat split; reflexivity
        | right; left; split; [assumption |]; repeat split; reflexivity
        | right; right; split; [assumption |]; repeat split; reflexivity ].

Ltac node_path k :=
  eapply node_eq;
  [ eapply k; [eassumption | node_selected | eassumption ..]
  | unfold hookEvents; rewrite_known; simpl; rewrite_known; reflexivity ].

Lemma Nodeup_Run_paths c w : NodeupPath c w (Nodeup.Run c w).
Proof.
  unfold Nodeup.Run.
  destruct (quiet_Nodeup_prepare c w) as [HS HX].
  pose proof (Nodeup_prepare_ensures c w) as HE.
  pose proof (Nodeup_prepare_returns c w) as HR.
  destruct (Nodeup.prepare c w) as [S [tm | e | msg | msg]];
    unfold trace, outcome in *; simpl in *.
  2:{ now constructor. }
  2:{ exfalso. now apply (HX msg). }
  2:{ now apply NodePreparePanics. }
  rewrite (HR tm eq_refl). fold (nodeTasks w).
  assert (nodePrepared S) as HP.
  { split; [exact HS | exact (HE tm eq_refl)]. }
  clear HE HR HX.
  unfold Nodeup.runOnTarget, Nodeup.selectTarget, Nodeup.execute.
  destruct (String.eqb (Nodeup.Target_ c) "direct") eqn:E1;
    [| destruct (String.eqb (Nodeup.Target_ c) "dryrun") eqn:E2;
       [| destruct (String.eqb (Nodeup.Target_ c) "cloudinit") eqn:E3]].
  4:{ simpl. rewrite app_nil_r. apply NodeSelectFails; auto using not_eqb. }
  all: exec.
  all: rewrite ?String.eqb_eq in *.
  all: first [ node_path NodeNewContextFails
             | node_path NodeRunTasksFails
             | node_path NodeFinishFails
             | node_path NodeFinished ].
Qed.

(** *** Reading the traces of the paths *)

Lemma storeBlock_kind c w sel lc W :
  storeBlock c w sel lc W -> forallb Trace.isStoreBlock W = true.
Proof.
  unfold storeBlock. destruct (writesStore sel lc).
  - intros E. destruct (quiet_Cloudup_writeState w (instanceGroupsOf c w)) as [H _].
    now rewrite E in H.
  - now intros ->.
Qed.

Lemma writeState_kind w igs W r :
  Cloudup.writeState w igs = (W, r) -> forallb Trace.isStoreBlock W = true.
Proof.
  intros E. destruct (quiet_Cloudup_writeState w igs) as [H _]. now rewrite E in H.
Qed.

(** For a segment [l] all of whose events are of kind [q], records that
    it has no event of any kind that [q] excludes. *)
Ltac no_kind q l H p :=
  try (assert (Trace.none p l = true)
        by (apply (none_of_kind q p l); [kinds | exact H])).

Ltac segment_facts q l H :=
  no_kind q l H Trace.isBuildTasks;
  no_kind q l H Trace.isNewTarget;
  no_kind q l H Trace.isFindDeletions;
  no_kind q l H Trace.isNewContext;
  no_kind q l H Trace.isStoreWrite;
  no_kind q l H Trace.isRunTasks;
  no_kind q l H Trace.isPrecreateDNS;
  no_kind q l H Trace.isFinish;
  no_kind q l H Trace.isContextClose.

(** Pushes [none], [count], [existsb], [before] and [after] through a
    trace made of segments. *)
Ltac segments_step :=
  match goal with
  | |- context [Trace.none _ (_ ++ _)] => rewrite none_app
  | |- context [Trace.count _ (_ ++ _)] => rewrite count_app
  | |- context [existsb _ (_ ++ _)] => rewrite existsb_app
  | H : Trace.none ?p ?l = true |- context [Trace.after ?p (?l ++ ?r)] =>
      rewrite (after_app_none p l r H)
  | H : Trace.none ?p ?l = true |- context [Trace.before ?p (?l ++ ?r)] =>
      rewrite (before_app_none p l r H)
  | H : Trace.none ?p ?l = true |- context [Trace.after ?p ?l] =>
      rewrite (after_none p l H)
  | H : Trace.none ?p ?l = true |- context [Trace.before ?p ?l] =>
      rewrite (before_none p l H)
  | H : Trace.none ?p ?l = true |- context [Trace.count ?p ?l] =>
      rewrite (count_none p l H)
  | H : Trace.none ?p ?l = true |- context [existsb ?p ?l] =>
      rewrite (existsb_none p l H)
  | H : Trace.none ?p ?l = true |- context [Trace.none ?p ?l] => rewrite H
  | H : existsb ?p ?l = true |- context [existsb ?p ?l] => rewrite H
  end.

Ltac segments := simpl; repeat (segments_step; simpl).

Ltac kind_facts :=
  repeat match goal with
         | H : forallb ?q ?l = true |- _ =>
             segment_facts q l H; change (ofKind q l) in H
         end.

(** All the ways an [ApplyClusterCmd.Run] can go, each with the kinds of
    its segments. *)
Ltac apply_paths c w :=
  let m := fresh "m" in
  let P := fresh "P" in
  generalize (Cloudup_Run_paths c w); generalize (Cloudup.Run c w);
  intros m P; destruct P;
  repeat match goal with
         | H : prepared _ _ _ |- _ =>
             let HS := fresh "HS" in
             let HB := fresh "HB" in
             let HL := fresh "HL" in
             destruct H as (HS & HB & HL)
         | H : selected _ _ _ |- _ =>
             let HS := fresh "Hsel" in
             let HT := fresh "HT" in
             destruct H as (HS & HT)
         | H : _ = [] \/ _ |- _ =>
             let HT := fresh "HT" in
             let HN := fresh "HN" in
             let HK := fresh "HK" in
             destruct H as [-> | (? & ? & -> & HT & HN & HK)]
         | H : storeBlock _ _ _ _ ?W |- _ =>
             lazymatch goal with
             | _ : forallb Trace.isStoreBlock W = true |- _ => fail
             | _ =>
                 let HW := fresh "HW" in
                 pose proof (storeBlock_kind _ _ _ _ _ H) as HW
             end
         | H : Cloudup.writeState _ _ = (?W, Failed _) |- _ =>
             lazymatch goal with
             | _ : forallb Trace.isStoreBlock W = true |- _ => fail
             | _ =>
                 let HW := fresh "HW" in
                 pose proof (writeState_kind _ _ _ _ H) as HW
             end
         end;
  kind_facts;
  unfold trace, outcome; simpl.

(** All the ways a [NodeUpCommand.Run] can go. *)
Ltac nodeup_paths c w :=
  let m := fresh "m" in
  let P := fresh "P" in
  generalize (Nodeup_Run_paths c w); generalize (Nodeup.Run c w);
  intros m P; destruct P;
  repeat match goal with
         | H : nodePrepared _ |- _ =>
             let HS := fresh "HS" in
             let HB := fresh "HB" in
             destruct H as (HS & HB)
         | H : nodeSelected _ _ _ _ |- _ =>
             let HN := fresh "HN" in
             destruct H as [(HN & -> & -> & ->) | [(HN & -> & -> & ->) | (HN & -> & -> & ->)]]
         end;
  kind_facts;
  unfold trace, outcome; simpl.

Ltac split_events :=
  unfold deletions, dnsEvents, hookEvents in *;
  repeat match goal with
         | |- context [if ?b then _ else _] =>
             lazymatch type of b with
             | bool => let E := fresh "E" in destruct b eqn:E; simpl in *
             end
         | H : context [if ?b then _ else _] |- _ =>
             lazymatch type of b with
             | bool => let E := fresh "E" in destruct b eqn:E; simpl in *
             end
         end;
  repeat match goal with
         | |- context [match ?o ?ev with Some _ => _ | None => _ end] =>
             let E := fresh "E" in destruct (o ev) eqn:E
         | H : context [match ?o ?ev with Some _ => _ | None => _ end] |- _ =>
             let E := fresh "E" in destruct (o ev) eqn:E
         end.

(** Decomposes a hypothesis [In ev tr] over the segments of [tr]. *)
Ltac in_segments H :=
  repeat (rewrite in_app_iff in H || simpl in H);
  repeat match type of H with
         | _ \/ _ => destruct H as [H | H]
         end;
  try contradiction;
  try discriminate H;
  try (match type of H with
       | In _ ?l =>
           match goal with
           | K : ofKind ?q l |- _ =>
               apply (In_kind q l _ K) in H; discriminate H
           end
       end).

Ltac find_in :=
  match goal with
  | |- In _ (_ :: _) => first [left; reflexivity | right; find_in]
  | |- In _ (_ ++ _) => apply in_or_app; first [right; find_in | left; find_in]
  | |- In _ _ => assumption
  end.

(** Identifies the event of a hypothesis [ev = ev']. *)
Ltac same_event H := inversion H; subst; clear H.

(** For [H : In ev tr] with an unknown event [ev] and [Ht : targetOf ev =
    Some t]: finds [ev] among the events of [tr] that carry a target. *)
Ltac target_cases H Ht :=
  in_segments H;
  try (match type of H with
       | In ?ev ?l =>
           match goal with
           | K : ofKind ?q l |- _ =>
               apply (In_kind q l _ K) in H; destruct ev; discriminate
           end
       end);
  try (subst; simpl in Ht; try discriminate Ht; inversion Ht; subst; clear Ht).

(** *** Calls that must succeed before [RunTasks] *)

Lemma only_bind A B P (m : M A) (f : A -> M B) :
  forallb P (trace m) = true -> (forall a, forallb P (trace (f a)) = true) ->
  forallb P (trace (bind m f)) = true.
Proof.
  intros Hm Hf. rewrite trace_bind, forallb_app, Hm. simpl.
  destruct (outcome m); try reflexivity. apply Hf.
Qed.

Lemma only_callWarn P o ev pre :
  P ev = true -> (forall msg, P (EvWarning msg) = true) ->
  forallb P (trace (callWarn o ev pre)) = true.
Proof.
  intros H W. unfold callWarn. destruct (o ev); simpl; now rewrite H, ?W.
Qed.

Lemma only_when P b m :
  forallb P (trace m) = true -> forallb P (trace (when b m)) = true.
Proof. destruct b; simpl; trivial. Qed.

Lemma only_liftE A P (r : error + A) :
  forallb P (trace (Cloudup.liftE r)) = true.
Proof. now destruct r. Qed.

Lemma only_forEach A P (xs : list A) body :
  (forall x, forallb P (trace (body x)) = true) ->
  forallb P (trace (forEach xs body)) = true.
Proof.
  intros H. induction xs as [| x xs IH]; simpl; [reflexivity |].
  apply only_bind; [apply H | intros _; exact IH].
Qed.

(** Walks down a computation to check the kind of every event it can
    make. *)
Ltac only_step :=
  match goal with
  | |- forallb _ (trace (bind _ _)) = true => apply only_bind; [| intros ?]
  | |- forallb _ (trace (callWarn _ _ _)) = true =>
      apply only_callWarn; [reflexivity | intros ?; reflexivity]
  | |- forallb _ (trace (when _ _)) = true => apply only_when
  | |- forallb _ (trace (Cloudup.liftE _)) = true => apply only_liftE
  | |- forallb _ (trace (forEach _ _)) = true => apply only_forEach; intros ?
  | |- forallb _ (trace (if ?b then _ else _)) = true => destruct b
  | |- forallb _ (trace (match ?x with _ => _ end)) = true => destruct x
  | |- forallb _ (trace _) = true => reflexivity
  end.

Ltac only_auto := solve [repeat only_step].

Lemma none_lacking l :
  forallb (lacks Trace.isRunTasks) l = true ->
  Trace.none Trace.isRunTasks l = true.
Proof.
  apply none_of_kind. intros x. unfold lacks.
  now destruct (Trace.isRunTasks x).
Qed.

Lemma stopsAt_lacks A fails K (m : M A) :
  forallb (lacks K) (trace m) = true -> stopsAt fails K m.
Proof.
  intros H ev e I HK. exfalso.
  apply (In_kind _ _ _ H) in I. unfold lacks in I. rewrite HK in I.
  discriminate I.
Qed.

Lemma stopsAt_call fails K ev :
  Trace.isRunTasks ev = false -> stopsAt fails K (call fails ev).
Proof.
  intros R ev' e [<- | []] _ F. unfold call. simpl. rewrite R, F.
  split; [reflexivity | discriminate].
Qed.

Lemma stopsAt_callWrap fails K ev pre :
  Trace.isRunTasks ev = false -> stopsAt fails K (callWrap fails ev pre).
Proof.
  intros R ev' e [<- | []] _ F. unfold callWrap. simpl. rewrite R, F.
  split; [reflexivity | discriminate].
Qed.

Lemma stopsAt_callExit fails K ev pre :
  Trace.isRunTasks ev = false -> stopsAt fails K (callExit fails ev pre).
Proof.
  intros R ev' e [<- | []] _ F. unfold callExit. simpl. rewrite R, F.
  split; [reflexivity | discriminate].
Qed.

Lemma stopsAt_bind A B fails K (m : M A) (f : A -> M B) :
  forallb (lacks Trace.isRunTasks) (trace m) = true -> stopsAt fails K m ->
  (forall a, stopsAt fails K (f a)) -> stopsAt fails K (bind m f).
Proof.
  intros Q Hm Hf ev e I HK F.
  apply none_lacking in Q.
  rewrite trace_bind, outcome_bind, none_app, Q in *.
  apply in_app_or in I. destruct I as [I | I].
  - destruct (Hm ev e I HK F) as [_ NR].
    destruct (outcome m) eqn:E; try (split; [reflexivity | discriminate]).
    exfalso. now apply (NR a).
  - destruct (outcome m) eqn:E; try contradiction.
    exact (Hf a ev e I HK F).
Qed.

Lemma stopsAt_bind_tail A B fails K (m : M A) (f : A -> M B) :
  stopsAt fails K m -> (forall a, forallb (lacks K) (trace (f a)) = true) ->
  stopsAt fails K (bind m f).
Proof.
  intros Hm Hf ev e I HK F.
  rewrite trace_bind, outcome_bind in *.
  apply in_app_or in I. destruct I as [I | I].
  - destruct (Hm ev e I HK F) as [N NR].
    destruct (outcome m) eqn:E;
      try (rewrite app_nil_r; split; [exact N | discriminate]).
    exfalso. now apply (NR a).
  - exfalso. destruct (outcome m) eqn:E; try contradiction.
    apply (In_kind _ _ _ (Hf a)) in I. unfold lacks in I. rewrite HK in I.
    discriminate I.
Qed.

Lemma stopsAt_when fails K b m :
  stopsAt fails K m -> stopsAt fails K (when b m).
Proof.
  destruct b; simpl; [trivial |]. intros _. now apply stopsAt_lacks.
Qed.

Lemma stopsAt_forEach A fails K (xs : list A) body :
  (forall x, forallb (lacks Trace.isRunTasks) (trace (body x)) = true) ->
  (forall x, stopsAt fails K (body x)) -> stopsAt fails K (forEach xs body).
Proof.
  intros Q H. induction xs as [| x xs IH]; simpl.
  - now apply stopsAt_lacks.
  - apply stopsAt_bind; [apply Q | apply H | intros _; exact IH].
Qed.

Lemma stopsAt_defer A fails K ev (rest : M A) :
  K ev = false -> Trace.isRunTasks ev = false ->
  stopsAt fails K rest -> stopsAt fails K (defer ev rest).
Proof.
  intros HK R H ev' e I HK' F.
  assert (I' : In ev' (trace rest)).
  { destruct rest as [t [a | x | msg | msg]]; simpl in *; try exact I.
    all: apply in_app_or in I; destruct I as [I | [<- | []]]; try exact I.
    all: congruence. }
  destruct (H ev' e I' HK' F) as [N NR].
  destruct rest as [t [a | x | msg | msg]]; simpl in *.
  - exfalso. now apply (NR a).
  - rewrite none_app, N. simpl. rewrite R. split; [reflexivity | discriminate].
  - split; [exact N | discriminate].
  - rewrite none_app, N. simpl. rewrite R. split; [reflexivity | discriminate].
Qed.

(** Walks down a driver: a call that can fail ends the body, and what
    follows [RunTasks] makes no call of the kind. *)
Ltac stops_step :=
  match goal with
  | |- stopsAt _ _ (bind (callWrap _ (EvRunTasks _ _) _) _) =>
      apply stopsAt_bind_tail;
      [ apply stopsAt_lacks; only_auto | intros ?; only_auto ]
  | |- stopsAt _ _ (bind (callExit _ (EvRunTasks _ _) _) _) =>
      apply stopsAt_bind_tail;
      [ apply stopsAt_lacks; only_auto | intros ?; only_auto ]
  | |- stopsAt _ _ (bind _ _) =>
      apply stopsAt_bind; [ only_auto | | intros ? ]
  | |- stopsAt _ _ (call _ _) => apply stopsAt_call; reflexivity
  | |- stopsAt _ _ (callWrap _ _ _) => apply stopsAt_callWrap; reflexivity
  | |- stopsAt _ _ (callExit _ _ _) => apply stopsAt_callExit; reflexivity
  | |- stopsAt _ _ (when _ _) => apply stopsAt_when
  | |- stopsAt _ _ (forEach _ _) =>
      apply stopsAt_forEach; [ intros ?; only_auto | intros ? ]
  | |- stopsAt _ _ (defer _ _) =>
      apply stopsAt_defer; [ reflexivity | reflexivity | ]
  | |- stopsAt _ _ (let '(_, _) := ?p in _) => destruct p
  | |- stopsAt _ _ (if ?b then _ else _) => destruct b
  | |- stopsAt _ _ (match ?x with _ => _ end) => destruct x
  | |- stopsAt _ _ _ => apply stopsAt_lacks; only_auto
  end.

Ltac stops_auto := repeat stops_step.

Lemma Cloudup_Run_stopsAt c w :
  stopsAt (Cloudup.fails w) (isPreparation Trace.isBuildTasks)
          (Cloudup.Run c w).
Proof.
  unfold Cloudup.Run, Cloudup.runOnTarget, Cloudup.execute, Cloudup.prepare,
    Cloudup.selectTarget, Cloudup.writeState, Cloudup.upgradeSpecs,
    Cloudup.checkKopsDowngrade, Cloudup.checkSecrets,
    Cloudup.checkCloudProvider.
  stops_auto.
Qed.

Lemma Nodeup_Run_stopsAt c w :
  stopsAt (Nodeup.fails w) (isPreparation Trace.isLoaderBuild)
          (Nodeup.Run c w).
Proof.
  unfold Nodeup.Run, Nodeup.runOnTarget, Nodeup.execute, Nodeup.prepare,
    Nodeup.selectTarget, Nodeup.loadConfig, Nodeup.buildModelContext,
    Nodeup.evaluateSpec, Nodeup.getAWSConfigurationMode, Nodeup.buildTaskMap.
  stops_auto.
Qed.

(** *** What a run went through when it calls [RunTasks] *)

Lemma Cloudup_selectTarget_kind c w cl project :
  forallb Trace.isSelect (trace (Cloudup.selectTarget c w cl project)) = true.
Proof. unfold Cloudup.selectTarget. only_auto. Qed.

Lemma Cloudup_Run_ready c w ctx o :
  In (EvRunTasks ctx o) (trace (Cloudup.Run c w)) -> applyReady c w ctx.
Proof.
  unfold Cloudup.Run, applyReady.
  destruct (quiet_Cloudup_prepare c w) as [HS _].
  rewrite trace_bind.
  destruct (Cloudup.prepare c w) as [S [[[[lc project] igs] tm] | e | m | m]];
    unfold trace at 1, outcome at 1; unfold trace in HS; simpl in HS; simpl.
  2-4: rewrite app_nil_r; intros I; apply (In_kind _ _ _ HS) in I;
       discriminate I.
  intros I. apply in_app_or in I. destruct I as [I | I].
  { apply (In_kind _ _ _ HS) in I. discriminate I. }
  exists lc, project, igs, tm.
  unfold Cloudup.runOnTarget in I. rewrite trace_bind in I.
  pose proof (Cloudup_selectTarget_kind c w (Cloudup.fullCluster w) project)
    as HT.
  destruct (Cloudup.selectTarget c w (Cloudup.fullCluster w) project)
    as [T [sel | e | m | m]];
    unfold trace at 1, outcome at 1 in I; unfold trace in HT;
    simpl in HT, I.
  2-4: rewrite app_nil_r in I; apply (In_kind _ _ _ HT) in I;
       discriminate I.
  apply in_app_or in I. destruct I as [I | I].
  { apply (In_kind _ _ _ HT) in I. discriminate I. }
  exists sel. split; [reflexivity |]. split; [reflexivity |].
  revert I. unfold Cloudup.execute, writesStore, defer.
  exec.
  all: intros I; in_segments I.
  all: try match goal with
           | K : forallb Trace.isStoreBlock ?W = true, H : In _ ?W |- _ =>
               apply (In_kind _ _ _ K) in H; discriminate H
           end.
  all: same_event I.
  all: repeat split; intros; try congruence; try reflexivity.
Qed.

Lemma Nodeup_Run_ready c w ctx o :
  In (EvRunTasks ctx o) (trace (Nodeup.Run c w)) -> nodeupReady c w ctx.
Proof.
  unfold Nodeup.Run, nodeupReady.
  destruct (quiet_Nodeup_prepare c w) as [HS _].
  rewrite trace_bind.
  destruct (Nodeup.prepare c w) as [S [tm | e | m | m]];
    unfold trace at 1, outcome at 1; unfold trace in HS; simpl in HS; simpl.
  2-4: rewrite app_nil_r; intros I; apply (In_kind _ _ _ HS) in I;
       discriminate I.
  intros I. apply in_app_or in I. destruct I as [I | I].
  { apply (In_kind _ _ _ HS) in I. discriminate I. }
  exists tm.
  revert I. unfold Nodeup.runOnTarget, Nodeup.selectTarget, Nodeup.execute, defer.
  destruct (String.eqb (Nodeup.Target_ c) "direct");
    [| destruct (String.eqb (Nodeup.Target_ c) "dryrun");
       [| destruct (String.eqb (Nodeup.Target_ c) "cloudinit")]].
  all: exec.
  all: intros I; in_segments I.
  all: same_event I.
  all: do 2 eexists; repeat split; try reflexivity; assumption.
Qed.

(** *** How many targets a run constructs *)

Lemma returns_bind_l A B (m : M A) (f : A -> M B) (Q : Prop) :
  returns m (fun _ => Q) -> returns (bind m f) (fun _ => Q).
Proof.
  intros H b. rewrite outcome_bind.
  destruct (outcome m) eqn:E; try discriminate. intros _. exact (H a E).
Qed.

Ltac in_block tac :=
  repeat first
    [ solve [apply returns_bind_l; tac]
    | solve [tac]
    | apply returns_bind; intros ? _; lazy zeta ].














(* ===================================================================== *)
(** ** The claims                                                          *)
(* ===================================================================== *)

(** C2 (as amended).  When [RunTasks] returns an error the run does not
    succeed and [Target.Finish] is not called: [ApplyClusterCmd.Run]
    returns the wrapped error, while [NodeUpCommand.Run] does not return
    at all but ends the process through [klog.Exitf]. *)
Theorem failed_RunTasks_fails_the_run :
  (forall c w ctx o e,
      In (EvRunTasks ctx o) (trace (Cloudup.Run c w)) ->
      Cloudup.fails w (EvRunTasks ctx o) = Some e ->
      outcome (Cloudup.Run c w) = Failed (errorf "error running tasks: " e) /\
      Trace.none Trace.isFinish (trace (Cloudup.Run c w)) = true) /\
  (forall c w ctx o e,
      In (EvRunTasks ctx o) (trace (Nodeup.Run c w)) ->
      Nodeup.fails w (EvRunTasks ctx o) = Some e ->
      outcome (Nodeup.Run c w) = Exited (errorf "error running tasks: " e) /\
      Trace.none Trace.isFinish (trace (Nodeup.Run c w)) = true).
Proof.
  split; intros c w ctx o e.
  - apply_paths c w; intros I F.
    all: split_events; in_segments I.
    all: same_event I.
    all: segments; split; congruence.
  - nodeup_paths c w; intros I F.
    all: split_events; in_segments I.
    all: same_event I.
    all: segments; split; congruence.
Qed.

(** A run of each driver in which [RunTasks] fails. *)
Lemma failed_RunTasks_fails_the_run_witness :
  (outcome (Cloudup.Run (Samples.apply TargetDirect PhaseEmpty)
                        (Samples.world Samples.runTasksFails))
   = Failed "error running tasks: task failed" /\
   Trace.none Trace.isFinish
     (trace (Cloudup.Run (Samples.apply TargetDirect PhaseEmpty)
                         (Samples.world Samples.runTasksFails))) = true) /\
  (outcome (Nodeup.Run (Samples.nodeup "direct")
                       (Samples.nodeWorld Samples.runTasksFails))
   = Exited "error running tasks: task failed" /\
   Trace.none Trace.isFinish
     (trace (Nodeup.Run (Samples.nodeup "direct")
                        (Samples.nodeWorld Samples.runTasksFails))) = true).
Proof.
  split.
  - apply (proj1 failed_RunTasks_fails_the_run
             (Samples.apply TargetDirect PhaseEmpty)
             (Samples.world Samples.runTasksFails)
             (mkContext AWSAPITarget true Samples.withDeletions)
             OptionsInitDefaults "task failed").
    + vm_compute. tauto.
    + reflexivity.
  - apply (proj2 failed_RunTasks_fails_the_run
             (Samples.nodeup "direct")
             (Samples.nodeWorld Samples.runTasksFails)
             (mkContext (LocalTarget "/var/cache/nodeup") true
                        [("Package/ntp", "Package");
                         ("LoadImage.0", "nodetasks.LoadImageTask pause")])
             OptionsInitDefaults "task failed").
    + vm_compute. tauto.
    + reflexivity.
Defined.

(** C2, the claim as stated, fails: in this nodeup run [RunTasks] returns
    an error and [NodeUpCommand.Run] returns no error; the process
    exits. *)
Lemma nodeup_exits_when_RunTasks_fails :
  In (EvRunTasks (mkContext (LocalTarget "/var/cache/nodeup") true
                            [("Package/ntp", "Package");
                             ("LoadImage.0", "nodetasks.LoadImageTask pause")])
                 OptionsInitDefaults)
     (trace (Nodeup.Run (Samples.nodeup "direct")
                        (Samples.nodeWorld Samples.runTasksFails))) /\
  Samples.runTasksFails
    (EvRunTasks (mkContext (LocalTarget "/var/cache/nodeup") true
                           [("Package/ntp", "Package");
                            ("LoadImage.0", "nodetasks.LoadImageTask pause")])
                OptionsInitDefaults) = Some "task failed" /\
  outcome (Nodeup.Run (Samples.nodeup "direct")
                      (Samples.nodeWorld Samples.runTasksFails))
  = Exited "error running tasks: task failed" /\
  ~ (exists e, outcome (Nodeup.Run (Samples.nodeup "direct")
                                   (Samples.nodeWorld Samples.runTasksFails))
               = Failed e).
Proof.
  repeat split.
  - vm_compute. tauto.
  - intros [e H]. vm_compute in H. discriminate H.
Qed.

(** C3 (as amended).  In every invocation of either driver [RunTasks] is
    called at most once, and exactly once in an invocation that returns
    success; it is called only after the task map is built, the target
    constructed and the context created, and only when all of that
    succeeded: a call that builds the task map, finds the deletions,
    creates the context or writes the state store and fails ends the
    invocation without [RunTasks], and an invocation that calls
    [RunTasks] went through a setup, a target selection and a state-store
    block that returned.  [Target.Finish] is called only after [RunTasks]
    succeeded; the context is created in the invocation and closed as
    its last action, after [Finish]. *)
Theorem RunTasks_called_once_in_order :
  (forall c w,
      RunProtocol (Cloudup.fails w) Trace.isBuildTasks (Cloudup.Run c w) /\
      stopsAt (Cloudup.fails w) (isPreparation Trace.isBuildTasks)
              (Cloudup.Run c w) /\
      (forall ctx o, In (EvRunTasks ctx o) (trace (Cloudup.Run c w)) ->
                     applyReady c w ctx)) /\
  (forall c w,
      RunProtocol (Nodeup.fails w) Trace.isLoaderBuild (Nodeup.Run c w) /\
      stopsAt (Nodeup.fails w) (isPreparation Trace.isLoaderBuild)
              (Nodeup.Run c w) /\
      (forall ctx o, In (EvRunTasks ctx o) (trace (Nodeup.Run c w)) ->
                     nodeupReady c w ctx)).
Proof.
  split; intros c w; (split; [unfold RunProtocol |]).
  - apply_paths c w.
    all: repeat match goal with |- _ /\ _ => split end; intros.
    all: split_events.
    all: repeat match goal with
                | H : In _ _ |- _ => in_segments H; try same_event H
                end.
    all: try discriminate.
    all: segments.
    all: try lia.
    all: repeat split; try reflexivity; try find_in.
    all: try (do 2 eexists; split; [find_in | split; [eassumption | split; reflexivity]]).
  - split; [apply Cloudup_Run_stopsAt |].
    intros ctx o. apply Cloudup_Run_ready.
  - nodeup_paths c w.
    all: repeat match goal with |- _ /\ _ => split end; intros.
    all: split_events.
    all: repeat match goal with
                | H : In _ _ |- _ => in_segments H; try same_event H
                end.
    all: try discriminate.
    all: segments.
    all: try lia.
    all: repeat split; try reflexivity; try find_in.
    all: try (do 2 eexists; split; [find_in | split; [eassumption | split; reflexivity]]).
  - split; [apply Nodeup_Run_stopsAt |].
    intros ctx o. apply Nodeup_Run_ready.
Qed.

(** C3, the claim as stated, fails: an invocation with an unknown phase
    returns an error without ever calling [RunTasks]. *)
Lemma unknown_phase_never_calls_RunTasks :
  Trace.count Trace.isRunTasks
    (trace (Cloudup.Run (Samples.apply TargetDirect (PhaseOther "bogus"))
                        (Samples.world Samples.noFailure))) = 0 /\
  Trace.count Trace.isRunTasks
    (trace (Cloudup.Run (Samples.apply TargetDirect (PhaseOther "bogus"))
                        (Samples.world Samples.noFailure))) <> 1 /\
  outcome (Cloudup.Run (Samples.apply TargetDirect (PhaseOther "bogus"))
                       (Samples.world Samples.noFailure))
  = Failed (errorf "unknown phase " (quoted "bogus")).
Proof. vm_compute. repeat split. discriminate. Qed.



(** *** The guards of the state-store block and of DNS pre-creation *)

Lemma Lifecycle_eqb_eq (a b : Lifecycle) : Lifecycle_eqb a b = true <-> a = b.
Proof. destruct a, b; simpl; split; intro H; congruence. Qed.

Lemma writesStore_true tn sel lc :
  selectedBy tn sel -> writesStore sel lc = true ->
  tn <> TargetDryRun /\ Cloudup.clusterLifecycle lc <> LifecycleIgnore.
Proof.
  intros (_ & _ & D & _). unfold writesStore. rewrite D.
  intros H. apply andb_prop in H. destruct H as [H1 H2]. split.
  - intros ->. discriminate H1.
  - intros E. rewrite E in H2. discriminate H2.
Qed.

Lemma writesStore_false tn sel lc :
  selectedBy tn sel -> writesStore sel lc = false ->
  tn = TargetDryRun \/ Cloudup.clusterLifecycle lc = LifecycleIgnore.
Proof.
  intros (_ & _ & D & _). unfold writesStore. rewrite D.
  destruct tn; simpl; auto;
    destruct (Lifecycle_eqb (Cloudup.clusterLifecycle lc) LifecycleIgnore) eqn:E;
    try discriminate; intros _; right; now apply Lifecycle_eqb_eq.
Qed.

Lemma precreates_true w tn sel lc :
  selectedBy tn sel -> precreates w sel lc = true ->
  tn = TargetDirect /\
  Cloudup.IsGossipHostname w (Cloudup.Name (Cloudup.fullCluster w)) = false /\
  Cloudup.clusterLifecycle lc <> LifecycleIgnore.
Proof.
  intros (_ & _ & _ & P). unfold precreates. rewrite P.
  destruct (Cloudup.IsGossipHostname w _); [discriminate |].
  intros H. apply andb_prop in H. destruct H as [H1 H2]. repeat split.
  - destruct tn; try discriminate H1. reflexivity.
  - intros E. rewrite E in H2. discriminate H2.
Qed.

(** The state-store block, when it runs to its end, has written the
    version marker, the completed spec, and every instance group. *)
Lemma bind_Returned A B (m : M A) (f : A -> M B) W b :
  bind m f = (W, Returned b) ->
  exists t1 a t2, m = (t1, Returned a) /\ f a = (t2, Returned b) /\ W = t1 ++ t2.
Proof.
  destruct m as [t1 [a | e | msg | msg]]; simpl; try discriminate.
  destruct (f a) as [t2 r] eqn:E. intros H. inversion H; subst.
  exists t1, a, t2. auto.
Qed.

Lemma callWrap_Returned o ev pre W :
  callWrap o ev pre = (W, Returned tt) -> W = [ev].
Proof. unfold callWrap. intros H. now inversion H. Qed.

Lemma writeGroups_complete w igs W :
  forEach igs (fun g =>
      bind (callWrap (Cloudup.fails w) (EvStoreWrite (UpdateInstanceGroup g))
                     "error writing InstanceGroup to registry: ")
           (fun _ => callWrap (Cloudup.fails w) (EvStoreWrite (WriteMirror g))
                       "error writing instance group spec to mirror: "))
  = (W, Returned tt) ->
  forall g, In g igs ->
            In (EvStoreWrite (UpdateInstanceGroup g)) W /\
            In (EvStoreWrite (WriteMirror g)) W.
Proof.
  revert W. induction igs as [| g0 igs IH]; intros W H g I; [contradiction |].
  cbn [forEach] in H.
  apply bind_Returned in H. destruct H as (t1 & [] & t2 & H1 & H2 & ->).
  cbv beta in H1. apply bind_Returned in H1. destruct H1 as (u1 & [] & u2 & K1 & K2 & ->).
  apply callWrap_Returned in K1, K2. subst.
  destruct I as [<- | I].
  - simpl. auto.
  - destruct (IH t2 H2 g I). simpl. auto.
Qed.

Lemma writeState_complete w igs W :
  Cloudup.writeState w igs = (W, Returned tt) ->
  In (EvStoreWrite WriteKopsVersionUpdated) W /\
  In (EvStoreWrite WriteClusterCompleted) W /\
  forall g, In g igs ->
            In (EvStoreWrite (UpdateInstanceGroup g)) W /\
            In (EvStoreWrite (WriteMirror g)) W.
Proof.
  unfold Cloudup.writeState. intros H.
  apply bind_Returned in H. destruct H as (t1 & [] & t2 & H1 & H2 & ->).
  apply bind_Returned in H2. destruct H2 as (t3 & [] & t4 & H3 & H4 & ->).
  apply bind_Returned in H4. destruct H4 as (t5 & [] & t6 & H5 & H6 & ->).
  apply callWrap_Returned in H3, H5. subst.
  pose proof (writeGroups_complete w igs t6 H6) as G.
  repeat split.
  - apply in_or_app. right. simpl. auto.
  - apply in_or_app. right. simpl. auto.
  - apply in_or_app. right. simpl. right. right. now apply G.
  - apply in_or_app. right. simpl. right. right. now apply G.
Qed.

(** C9.  No write to the state store happens on a dry-run or when the
    cluster lifecycle is [Ignore]; whatever is written is written before
    [RunTasks] is called; and a run that is neither, once it calls
    [RunTasks], has written the version marker, the completed cluster
    spec and every instance group. *)
Theorem state_store_written_only_before_real_runs c w :
  let tr := trace (Cloudup.Run c w) in
  (Cloudup.TargetName_ c = TargetDryRun ->
   Trace.none Trace.isStoreWrite tr = true) /\
  (forall lc,
     Cloudup.builderLifecycles (Cloudup.Phase_ c) (Cloudup.TargetName_ c)
                               (Cloudup.GetAssets c) = inr lc ->
     Cloudup.clusterLifecycle lc = LifecycleIgnore ->
     Trace.none Trace.isStoreWrite tr = true) /\
  (forall wr, In (EvStoreWrite wr) tr ->
     Cloudup.TargetName_ c <> TargetDryRun /\
     exists lc, Cloudup.builderLifecycles (Cloudup.Phase_ c) (Cloudup.TargetName_ c)
                                          (Cloudup.GetAssets c) = inr lc /\
                Cloudup.clusterLifecycle lc <> LifecycleIgnore) /\
  Trace.none Trace.isStoreWrite (Trace.after Trace.isRunTasks tr) = true /\
  (forall ctx o lc,
     In (EvRunTasks ctx o) tr ->
     Cloudup.TargetName_ c <> TargetDryRun ->
     Cloudup.builderLifecycles (Cloudup.Phase_ c) (Cloudup.TargetName_ c)
                               (Cloudup.GetAssets c) = inr lc ->
     Cloudup.clusterLifecycle lc <> LifecycleIgnore ->
     In (EvStoreWrite WriteKopsVersionUpdated) (Trace.before Trace.isRunTasks tr) /\
     In (EvStoreWrite WriteClusterCompleted) (Trace.before Trace.isRunTasks tr) /\
     forall g, In g (instanceGroupsOf c w) ->
       In (EvStoreWrite (UpdateInstanceGroup g)) (Trace.before Trace.isRunTasks tr) /\
       In (EvStoreWrite (WriteMirror g)) (Trace.before Trace.isRunTasks tr)).
Proof.
  intros tr; subst tr.
  apply_paths c w.
  all: repeat match goal with |- _ /\ _ => split end; intros.
  all: try match goal with
           | H : storeBlock _ _ _ _ _ |- _ =>
               unfold storeBlock in H;
               destruct (writesStore _ _) eqn:EWS; [| subst]
           end.
  all: try match goal with
           | H : writesStore _ _ = true |- _ =>
               destruct (writesStore_true _ _ _ Hsel H)
           | H : writesStore _ _ = false |- _ =>
               destruct (writesStore_false _ _ _ Hsel H)
           end.
  all: split_events.
  all: repeat match goal with
              | H : In (EvStoreWrite _) _ |- _ => in_segments H
              | H : In (EvRunTasks _ _) _ |- _ => in_segments H; try same_event H
              end.
  all: try discriminate.
  all: try contradiction.
  all: try congruence.
  all: segments.
  all: try reflexivity.
  all: try (split; [assumption | eexists; split; eassumption]).
  all: match goal with
       | H : Cloudup.writeState _ _ = (_, Returned tt) |- _ =>
           destruct (writeState_complete _ _ _ H) as (K1 & K2 & K3)
       end.
  all: split; [find_in | split; [find_in |]].
  all: intros g Hg; destruct (K3 g Hg); split; find_in.
Qed.

(** A direct run writes the store before it runs the tasks. *)
Lemma state_store_written_only_before_real_runs_witness :
  In (EvStoreWrite WriteKopsVersionUpdated)
     (Trace.before Trace.isRunTasks
        (trace (Cloudup.Run (Samples.apply TargetDirect PhaseEmpty)
                            (Samples.world Samples.noFailure)))) /\
  Cloudup.TargetName_ (Samples.apply TargetDirect PhaseEmpty) <> TargetDryRun.
Proof.
  split.
  - apply (proj2 (proj2 (proj2 (proj2 (state_store_written_only_before_real_runs
                           (Samples.apply TargetDirect PhaseEmpty)
                           (Samples.world Samples.noFailure)))))
             (mkContext AWSAPITarget true Samples.withDeletions)
             OptionsInitDefaults
             (Cloudup.mkLifecycles LifecycleSync LifecycleSync LifecycleSync)).
    + vm_compute. tauto.
    + discriminate.
    + reflexivity.
    + discriminate.
  - apply (proj1 (proj2 (proj2 (state_store_written_only_before_real_runs
                    (Samples.apply TargetDirect PhaseEmpty)
                    (Samples.world Samples.noFailure))))
             WriteClusterCompleted).
    vm_compute. tauto.
Defined.

(** C10.  DNS pre-creation is attempted at most once, only on the direct
    target, only when the cluster name is no gossip name and the cluster
    lifecycle is not [Ignore], and only after [RunTasks]; when it fails,
    the error is logged as a warning, [Target.Finish] is still called, and
    the run succeeds whenever [Finish] does. *)
Theorem precreateDNS_failure_is_only_a_warning c w :
  let r := Cloudup.Run c w in
  let tr := trace r in
  Trace.count Trace.isPrecreateDNS tr <= 1 /\
  (In EvPrecreateDNS tr ->
     Cloudup.TargetName_ c = TargetDirect /\
     Cloudup.IsGossipHostname w (Cloudup.Name (Cloudup.fullCluster w)) = false /\
     (exists lc,
         Cloudup.builderLifecycles (Cloudup.Phase_ c) (Cloudup.TargetName_ c)
                                   (Cloudup.GetAssets c) = inr lc /\
         Cloudup.clusterLifecycle lc <> LifecycleIgnore) /\
     existsb Trace.isRunTasks (Trace.before Trace.isPrecreateDNS tr) = true) /\
  (forall e,
     In EvPrecreateDNS tr ->
     Cloudup.fails w EvPrecreateDNS = Some e ->
     In (EvWarning
           (errorf "unable to pre-create DNS records - cluster startup may be slower: " e))
        (Trace.after Trace.isPrecreateDNS tr) /\
     exists t m,
       In (EvFinish t m) (Trace.after Trace.isPrecreateDNS tr) /\
       (Cloudup.fails w (EvFinish t m) = None ->
        r = (tr, Returned (Cloudup.mkOutputs m t)))).
Proof.
  intros r tr; subst tr r.
  apply_paths c w.
  all: repeat match goal with |- _ /\ _ => split end; intros.
  all: unfold dnsEvents in *.
  all: try match goal with
           | |- context [precreates ?w ?sel ?lc] =>
               destruct (precreates w sel lc) eqn:EP
           | H : context [precreates ?w ?sel ?lc] |- _ =>
               destruct (precreates w sel lc) eqn:EP
           end.
  all: try match goal with
           | H : precreates _ _ _ = true |- _ =>
               destruct (precreates_true _ _ _ _ Hsel H) as (P1 & P2 & P3)
           end.
  all: split_events.
  all: repeat match goal with
              | H : In EvPrecreateDNS _ |- _ => in_segments H
              end.
  all: try discriminate.
  all: try congruence.
  all: segments.
  all: try lia.
  all: try reflexivity.
  all: try assumption.
  all: try (eexists; split; eassumption).
  all: try find_in.
  all: try (repeat split; eauto; fail).
  all: match goal with
       | H : Some _ = Some _ |- _ => inversion H; subst
       end.
  all: split; [simpl; auto |].
  all: do 2 eexists; split; [simpl; right; left; reflexivity |].
  all: intros F; try congruence; reflexivity.
Qed.

(** A direct run in which DNS pre-creation fails. *)
Lemma precreateDNS_failure_is_only_a_warning_witness :
  Cloudup.TargetName_ (Samples.apply TargetDirect PhaseEmpty) = TargetDirect /\
  In (EvWarning "unable to pre-create DNS records - cluster startup may be slower: no zone")
     (Trace.after Trace.isPrecreateDNS
        (trace (Cloudup.Run (Samples.apply TargetDirect PhaseEmpty)
                            (Samples.world Samples.precreateDNSFails)))).
Proof.
  split.
  - apply (proj1 (proj2 (precreateDNS_failure_is_only_a_warning
                           (Samples.apply TargetDirect PhaseEmpty)
                           (Samples.world Samples.precreateDNSFails)))).
    vm_compute. tauto.
  - apply (proj2 (proj2 (precreateDNS_failure_is_only_a_warning
                           (Samples.apply TargetDirect PhaseEmpty)
                           (Samples.world Samples.precreateDNSFails)))
             "no zone").
    + vm_compute. tauto.
    + reflexivity.
Defined.

(** C1 (as amended).  [FindDeletions] is called, with the lifecycle
    overrides of the command, exactly in the runs that get through the
    target switch with [checkExisting] still true, and then its task map
    is the one the context, [RunTasks], [Finish] and the command's output
    get; otherwise they get the task map [BuildTasks] built.
    [checkExisting] is switched off by the Terraform and the
    CloudFormation targets only: the direct and the dry-run targets keep
    it, so a dry-run does plan deletions. *)
Theorem deletions_planned_iff_checkExisting c w :
  let r := Cloudup.Run c w in
  let tr := trace r in
  let tn := Cloudup.TargetName_ c in
  (checksExisting tn = false <-> tn = TargetTerraform \/ tn = TargetCloudformation) /\
  (forall ov, In (EvFindDeletions ov) tr ->
     ov = Cloudup.LifecycleOverrides c /\ checksExisting tn = true /\
     Trace.none Trace.isRunTasks (Trace.before Trace.isFindDeletions tr) = true) /\
  (forall t, In (EvNewTarget t) tr -> checksExisting tn = true ->
     In (EvFindDeletions (Cloudup.LifecycleOverrides c)) tr) /\
  (checksExisting tn = false -> Trace.none Trace.isFindDeletions tr = true) /\
  (forall ctx, In (EvNewContext ctx) tr ->
     ctxCheckExisting ctx = checksExisting tn /\
     ctxTasks ctx = if checksExisting tn then Cloudup.deletionTasks w
                    else Cloudup.builtTasks w) /\
  (forall ev m, In ev tr -> Trace.tasksOf ev = Some m ->
     m = if checksExisting tn then Cloudup.deletionTasks w
         else Cloudup.builtTasks w) /\
  (forall out, outcome r = Returned out ->
     Cloudup.outTaskMap out = if checksExisting tn then Cloudup.deletionTasks w
                              else Cloudup.builtTasks w).
Proof.
  intros r tr tn; subst tr r tn.
  split.
  { destruct (Cloudup.TargetName_ c); simpl; split; intros H;
      try discriminate; auto; destruct H; discriminate. }
  apply_paths c w.
  all: repeat match goal with |- _ /\ _ => split end; intros.
  all: try match goal with
           | Hs : selectedBy _ ?sel |- _ =>
               let CE := fresh "CE" in
               destruct Hs as (_ & CE & _);
               unfold contextFor, tasksFor, deletions in *;
               rewrite CE in *
           end.
  all: try match goal with
           | HN : Cloudup.TargetName_ _ = TargetTerraform |- _ =>
               rewrite HN in *; simpl in *
           end.
  all: split_events.
  all: repeat match goal with
              | H : In (EvFindDeletions _) _ |- _ => in_segments H; try same_event H
              | H : In (EvNewTarget _) _ |- _ => in_segments H; try same_event H
              | H : In (EvNewContext _) _ |- _ => in_segments H; try same_event H
              | H : In ?ev _, Ht : Trace.tasksOf ?ev = Some _ |- _ =>
                  target_cases H Ht
              end.
  all: try discriminate.
  all: segments.
  all: try reflexivity.
  all: try find_in.
  all: try (repeat split; try reflexivity; try assumption; fail).
  all: try (exfalso;
            match goal with
            | A : ?x = true, B : ?x = false |- _ => rewrite A in B; discriminate B
            end).
  all: match goal with
       | H : Returned _ = Returned _ |- _ => inversion H; reflexivity
       end.
Qed.

(** A Terraform run plans no deletions and hands on the built task map. *)
Lemma deletions_planned_iff_checkExisting_witness :
  Trace.none Trace.isFindDeletions
    (trace (Cloudup.Run (Samples.apply TargetTerraform PhaseEmpty)
                        (Samples.world Samples.noFailure))) = true /\
  In (EvFindDeletions [])
     (trace (Cloudup.Run (Samples.apply TargetDirect PhaseEmpty)
                         (Samples.world Samples.noFailure))).
Proof.
  split.
  - apply (proj1 (proj2 (proj2 (proj2 (deletions_planned_iff_checkExisting
                    (Samples.apply TargetTerraform PhaseEmpty)
                    (Samples.world Samples.noFailure)))))).
    reflexivity.
  - apply (proj1 (proj2 (proj2 (deletions_planned_iff_checkExisting
                    (Samples.apply TargetDirect PhaseEmpty)
                    (Samples.world Samples.noFailure))))
             AWSAPITarget).
    + vm_compute. tauto.
    + reflexivity.
Defined.

(** C1, the claim as stated, fails: on the dry-run target [checkExisting]
    stays true, [FindDeletions] is called and its task map is the one the
    run works on. *)
Lemma dry_run_plans_deletions :
  Cloudup.TargetName_ (Samples.apply TargetDryRun PhaseEmpty) = TargetDryRun /\
  In (EvFindDeletions [])
     (trace (Cloudup.Run (Samples.apply TargetDryRun PhaseEmpty)
                         (Samples.world Samples.noFailure))) /\
  In (EvNewContext (mkContext (DryRunTarget false) true Samples.withDeletions))
     (trace (Cloudup.Run (Samples.apply TargetDryRun PhaseEmpty)
                         (Samples.world Samples.noFailure))) /\
  outcome (Cloudup.Run (Samples.apply TargetDryRun PhaseEmpty)
                       (Samples.world Samples.noFailure))
  = Returned (Cloudup.mkOutputs Samples.withDeletions (DryRunTarget false)) /\
  ~ Trace.none Trace.isFindDeletions
      (trace (Cloudup.Run (Samples.apply TargetDryRun PhaseEmpty)
                          (Samples.world Samples.noFailure))) = true.
Proof.
  repeat split; try (vm_compute; tauto).
  vm_compute. discriminate.
Qed.

(** One run of each driver that goes through, checked against the
    protocol, and what it went through when it called [RunTasks]. *)
Lemma RunTasks_called_once_in_order_witness :
  (RunProtocol Samples.noFailure Trace.isBuildTasks
     (Cloudup.Run (Samples.apply TargetDirect PhaseEmpty)
                  (Samples.world Samples.noFailure)) /\
   applyReady (Samples.apply TargetDirect PhaseEmpty)
              (Samples.world Samples.noFailure)
              (mkContext AWSAPITarget true Samples.withDeletions)) /\
  (RunProtocol Samples.noFailure Trace.isLoaderBuild
     (Nodeup.Run (Samples.nodeup "cloudinit")
                 (Samples.nodeWorld Samples.noFailure)) /\
   nodeupReady (Samples.nodeup "cloudinit")
               (Samples.nodeWorld Samples.noFailure)
               (mkContext CloudInitTarget false
                          [("Package/ntp", "Package");
                           ("LoadImage.0", "nodetasks.LoadImageTask pause")])).
Proof.
  split; split.
  - apply (proj1 (proj1 RunTasks_called_once_in_order
             (Samples.apply TargetDirect PhaseEmpty)
             (Samples.world Samples.noFailure))).
  - apply (proj2 (proj2 (proj1 RunTasks_called_once_in_order
             (Samples.apply TargetDirect PhaseEmpty)
             (Samples.world Samples.noFailure)))
             (mkContext AWSAPITarget true Samples.withDeletions)
             OptionsInitDefaults).
    vm_compute. tauto.
  - apply (proj1 (proj2 RunTasks_called_once_in_order
             (Samples.nodeup "cloudinit")
             (Samples.nodeWorld Samples.noFailure))).
  - apply (proj2 (proj2 (proj2 RunTasks_called_once_in_order
             (Samples.nodeup "cloudinit")
             (Samples.nodeWorld Samples.noFailure)))
             (mkContext CloudInitTarget false
                        [("Package/ntp", "Package");
                         ("LoadImage.0", "nodetasks.LoadImageTask pause")])
             OptionsInitDefaults).
    vm_compute. tauto.
Defined.



(** *** The retry loop and the options of a run *)








Lemma no_BuildTasks S :
  (forall bs ov, ~ In (EvBuildTasks bs ov) S) -> Trace.none Trace.isBuildTasks S = true.
Proof.
  induction S as [| ev S IH]; intros H; simpl; [reflexivity |].
  rewrite IH by (intros bs ov I; apply (H bs ov); now right).
  destruct ev; simpl; try reflexivity.
  exfalso. apply (H builders overrides). now left.
Qed.

Lemma builders_carry_the_lifecycles w cl lc pb name l :
  Cloudup.providerBuilders w cl lc = inr pb ->
  In (name, l) (Cloudup.commonBuilders lc ++ pb) ->
  l = Cloudup.clusterLifecycle lc \/
  l = Cloudup.securityLifecycle lc \/
  l = Cloudup.networkLifecycle lc \/
  (name = "gcemodel.StorageAclBuilder" /\
   l = LifecycleWarnIfInsufficientAccess /\
   Cloudup.securityLifecycle lc <> LifecycleIgnore).
Proof.
  unfold Cloudup.providerBuilders, Cloudup.commonBuilders, Cloudup.builder.
  intros H I.
  destruct (Cloudup.CloudProvider cl); try discriminate H;
    inversion H; subst; clear H.
  all: repeat match goal with
              | H : context [if ?b then _ else _] |- _ =>
                  lazymatch type of b with
                  | bool => let E := fresh "E" in destruct b eqn:E
                  end
              end.
  all: simpl in I.
  all: repeat match type of I with
              | _ \/ _ => destruct I as [I | I]
              end.
  all: try contradiction.
  all: inversion I; subst; auto.
  all: right; right; right; repeat split.
  all: intros K; rewrite K in *; discriminate.
Qed.

(** C8.  The three builder lifecycles are the function [builderLifecycles]
    of the phase, the target name and [GetAssets], with the table of the
    claim; an unknown phase makes the run return an error before any task
    is built; and the builders handed to [BuildTasks] carry these
    lifecycles (the storage ACL builder of GCE apart, whose lifecycle is
    derived from the security lifecycle). *)
Theorem builder_lifecycles_follow_the_phase :
  (forall t,
      Cloudup.builderLifecycles PhaseEmpty t false
      = inr (Cloudup.mkLifecycles LifecycleSync LifecycleSync LifecycleSync)) /\
  (forall t,
      Cloudup.builderLifecycles PhaseNetwork t false
      = inr (Cloudup.mkLifecycles LifecycleIgnore LifecycleSync LifecycleIgnore)) /\
  (forall t,
      Cloudup.builderLifecycles PhaseSecurity t false
      = inr (Cloudup.mkLifecycles LifecycleSync LifecycleExistsAndWarnIfChanges
                                  LifecycleIgnore)) /\
  Cloudup.builderLifecycles PhaseCluster TargetDryRun false
  = inr (Cloudup.mkLifecycles LifecycleExistsAndWarnIfChanges
                              LifecycleExistsAndWarnIfChanges LifecycleSync) /\
  (forall t, t <> TargetDryRun ->
      Cloudup.builderLifecycles PhaseCluster t false
      = inr (Cloudup.mkLifecycles LifecycleExistsAndValidates
                                  LifecycleExistsAndValidates LifecycleSync)) /\
  (forall s t g,
      Cloudup.builderLifecycles (PhaseOther s) t g
      = inl (errorf "unknown phase " (quoted s))) /\
  (forall p t, (forall s, p <> PhaseOther s) ->
      Cloudup.builderLifecycles p t true
      = inr (Cloudup.mkLifecycles LifecycleIgnore LifecycleIgnore LifecycleIgnore)) /\
  (forall c w s, Cloudup.Phase_ c = PhaseOther s ->
      (exists e, outcome (Cloudup.Run c w) = Failed e) /\
      Trace.none Trace.isBuildTasks (trace (Cloudup.Run c w)) = true /\
      Trace.none Trace.isRunTasks (trace (Cloudup.Run c w)) = true) /\
  (forall c w bs ov, In (EvBuildTasks bs ov) (trace (Cloudup.Run c w)) ->
      exists lc,
        Cloudup.builderLifecycles (Cloudup.Phase_ c) (Cloudup.TargetName_ c)
                                  (Cloudup.GetAssets c) = inr lc /\
        forall name l, In (name, l) bs ->
          l = Cloudup.clusterLifecycle lc \/
          l = Cloudup.securityLifecycle lc \/
          l = Cloudup.networkLifecycle lc \/
          (name = "gcemodel.StorageAclBuilder" /\
           l = LifecycleWarnIfInsufficientAccess /\
           Cloudup.securityLifecycle lc <> LifecycleIgnore)).
Proof.
  repeat match goal with |- _ /\ _ => split end.
  - reflexivity.
  - reflexivity.
  - reflexivity.
  - reflexivity.
  - intros t H. destruct t; try reflexivity. now destruct H.
  - reflexivity.
  - intros p t H. destruct p; try reflexivity; try (destruct t; reflexivity).
    now destruct (H s).
  - intros c w s HP.
    apply_paths c w.
    all: try match goal with
             | HL : Cloudup.builderLifecycles _ _ _ = inr _ |- _ =>
                 rewrite HP in HL; discriminate HL
             end.
    split; [eauto |]. split.
    + apply no_BuildTasks. intros bs ov I.
      match goal with
      | B : builtWith _ _ _ |- _ => destruct (B bs ov I) as (lc & pb & HL & _)
      end.
      rewrite HP in HL. discriminate HL.
    + assumption.
  - intros c w bs ov.
    apply_paths c w; intros I.
    all: split_events.
    all: repeat (rewrite in_app_iff in I || simpl in I).
    all: assert (In (EvBuildTasks bs ov) S) as IS
        by (repeat match type of I with
                   | _ \/ _ => destruct I as [I | I]
                   end; try assumption; try discriminate I; try contradiction;
            match type of I with
            | In _ ?l =>
                match goal with
                | K : ofKind ?q l |- _ =>
                    apply (In_kind q l _ K) in I; discriminate I
                end
            end).
    all: match goal with
         | B : builtWith _ _ _ |- _ =>
             destruct (B bs ov IS) as (lc' & pb & HL' & HPB & -> & _)
         end.
    all: exists lc'; split; [assumption |].
    all: intros name l Hin.
    all: exact (builders_carry_the_lifecycles _ _ _ _ _ _ HPB Hin).
Qed.

(** A run with an unknown phase. *)
Lemma builder_lifecycles_follow_the_phase_witness :
  Cloudup.builderLifecycles PhaseCluster TargetDirect false
  = inr (Cloudup.mkLifecycles LifecycleExistsAndValidates
                              LifecycleExistsAndValidates LifecycleSync) /\
  Trace.none Trace.isBuildTasks
    (trace (Cloudup.Run (Samples.apply TargetDirect (PhaseOther "bogus"))
                        (Samples.world Samples.noFailure))) = true.
Proof.
  split.
  - apply (proj1 (proj2 (proj2 (proj2 (proj2 builder_lifecycles_follow_the_phase))))).
    discriminate.
  - apply (proj1 (proj2 (proj2 (proj2 (proj2 (proj2 (proj2 (proj2
             builder_lifecycles_follow_the_phase)))))))
             (Samples.apply TargetDirect (PhaseOther "bogus"))
             (Samples.world Samples.noFailure) "bogus").
    reflexivity.
Defined.

(* ===================================================================== *)
(** ** The resolver                                                        *)
(* ===================================================================== *)

(** *** Keys, membership, positions *)

Lemma mem_In k l : Engine.mem k l = true <-> In k l.
Proof.
  unfold Engine.mem. rewrite existsb_exists. split.
  - intros (x & I & E). apply String.eqb_eq in E. now subst.
  - intros I. exists k. split; [exact I | apply String.eqb_refl].
Qed.

Lemma mem_false k l : Engine.mem k l = false <-> ~ In k l.
Proof.
  rewrite <- mem_In. destruct (Engine.mem k l); split; congruence.
Qed.

Lemma firstDuplicate_None ks : Engine.firstDuplicate ks = None <-> NoDup ks.
Proof.
  induction ks as [| k ks IH]; simpl.
  - split; [constructor | reflexivity].
  - destruct (Engine.mem k ks) eqn:E.
    + split; [discriminate |]. intros N. inversion N; subst.
      apply mem_In in E. contradiction.
    + rewrite IH. apply mem_false in E. split.
      * now constructor.
      * intros N. now inversion N.
Qed.

Lemma firstMissing_None known ds :
  Engine.firstMissing known ds = None <-> forall d, In d ds -> In d known.
Proof.
  induction ds as [| d ds IH]; simpl.
  - split; [contradiction | reflexivity].
  - destruct (Engine.mem d known) eqn:E.
    + rewrite IH. apply mem_In in E. split.
      * intros H x [<- | I]; auto.
      * intros H x I. apply H. now right.
    + split; [discriminate |]. intros H. apply mem_false in E.
      exfalso. apply E, H. now left.
Qed.

Lemma firstUnresolved_None known ts :
  Engine.firstUnresolved known ts = None <->
  forall t d, In t ts -> In d (Engine.dependencies t) -> In d known.
Proof.
  induction ts as [| t ts IH]; simpl.
  - split; [contradiction | reflexivity].
  - destruct (Engine.firstMissing known (Engine.dependencies t)) eqn:E.
    + split; [discriminate |]. intros H.
      assert (Engine.firstMissing known (Engine.dependencies t) = None) as N
          by (apply firstMissing_None; intros d I; apply (H t d); auto).
      congruence.
    + rewrite IH. rewrite firstMissing_None in E. split.
      * intros H x d [<- | I] D; eauto.
      * intros H x d I D. apply (H x d); auto.
Qed.

Lemma valid_checked ts :
  Engine.valid ts <->
  Engine.firstDuplicate (Engine.keys ts) = None /\
  Engine.firstUnresolved (Engine.keys ts) ts = None.
Proof.
  unfold Engine.valid. now rewrite firstDuplicate_None, firstUnresolved_None.
Qed.

Lemma ready_true placed t :
  Engine.ready placed t = true <->
  forall d, In d (Engine.dependencies t) -> In d placed.
Proof.
  unfold Engine.ready. rewrite forallb_forall. split.
  - intros H d I. apply mem_In. now apply H.
  - intros H d I. apply mem_In. now apply H.
Qed.

Lemma ready_false placed t :
  Engine.ready placed t = false ->
  exists d, In d (Engine.dependencies t) /\ ~ In d placed.
Proof.
  unfold Engine.ready. induction (Engine.dependencies t) as [| d ds IH]; simpl.
  - discriminate.
  - destruct (Engine.mem d placed) eqn:E; simpl.
    + intros H. destruct (IH H) as (x & I & N). exists x. auto.
    + intros _. exists d. split; [now left | now apply mem_false].
Qed.

Lemma key_in_keys t ts : In t ts -> In (Engine.key t) (Engine.keys ts).
Proof. apply in_map. Qed.

Lemma same_key_same_task ts t t' :
  NoDup (Engine.keys ts) -> In t ts -> In t' ts ->
  Engine.key t = Engine.key t' -> t = t'.
Proof.
  unfold Engine.keys. induction ts as [| x ts IH]; simpl; [contradiction |].
  intros N I I' E. inversion N as [| ? ? Nx Nts]; subst.
  destruct I as [<- | I], I' as [<- | I']; auto.
  - exfalso. apply Nx. rewrite E. now apply in_map.
  - exfalso. apply Nx. rewrite <- E. now apply in_map.
Qed.

Lemma indexOf_lt k l : In k l -> Engine.indexOf k l < length l.
Proof.
  induction l as [| x l IH]; simpl; [contradiction |].
  destruct (String.eqb k x) eqn:E; [lia |].
  intros [-> | I]; [rewrite String.eqb_refl in E; discriminate |].
  specialize (IH I). lia.
Qed.

Lemma indexOf_app_l k l1 l2 :
  In k l1 -> Engine.indexOf k (l1 ++ l2) = Engine.indexOf k l1.
Proof.
  induction l1 as [| x l1 IH]; simpl; [contradiction |].
  destruct (String.eqb k x) eqn:E; [reflexivity |].
  intros [-> | I]; [rewrite String.eqb_refl in E; discriminate |].
  now rewrite IH.
Qed.

Lemma indexOf_app_r k l1 l2 :
  ~ In k l1 -> Engine.indexOf k (l1 ++ l2) = length l1 + Engine.indexOf k l2.
Proof.
  induction l1 as [| x l1 IH]; simpl; [reflexivity |].
  intros N. destruct (String.eqb k x) eqn:E.
  - apply String.eqb_eq in E. subst. exfalso. apply N. now left.
  - rewrite IH; [reflexivity |]. intros I. apply N. now right.
Qed.

(** *** The ordering loop *)

Lemma partition_filter (f : Engine.Task -> bool) l now later :
  partition f l = (now, later) ->
  now = filter f l /\ later = filter (fun x => negb (f x)) l.
Proof. rewrite partition_as_filter. intros H. now inversion H. Qed.

Lemma filter_split (f : Engine.Task -> bool) l :
  Permutation l (filter f l ++ filter (fun x => negb (f x)) l).
Proof.
  induction l as [| x l IH]; simpl; [constructor |].
  destruct (f x); simpl.
  - now constructor.
  - now apply Permutation_cons_app.
Qed.

Lemma filter_shorter (f : Engine.Task -> bool) l :
  filter f l <> [] -> length (filter (fun x => negb (f x)) l) < length l.
Proof.
  intros H. pose proof (Permutation_length (filter_split f l)) as P.
  rewrite length_app in P. destruct (filter f l); [congruence |]. simpl in P. lia.
Qed.

Lemma placing_step ts pending placed now later :
  NoDup (Engine.keys ts) ->
  Graph.placing ts pending placed ->
  partition (Engine.ready placed) pending = (now, later) ->
  Graph.placing ts later (placed ++ Engine.keys now).
Proof.
  intros N (I1 & I2 & I3) P. apply partition_filter in P. destruct P as [-> ->].
  set (now := filter (Engine.ready placed) pending) in *.
  set (later := filter (fun x => negb (Engine.ready placed x)) pending) in *.
  assert (Permutation (Engine.keys pending) (Engine.keys now ++ Engine.keys later)) as PK.
  { unfold Engine.keys. rewrite <- map_app. apply Permutation_map, filter_split. }
  assert (NoDup (Engine.keys pending ++ placed)) as ND
      by (eapply Permutation_NoDup; [symmetry; exact I2 | exact N]).
  repeat split.
  - intros t I. apply I1. unfold later in I. apply filter_In in I. tauto.
  - rewrite <- I2. rewrite PK.
    rewrite <- !app_assoc.
    rewrite (Permutation_app_comm (Engine.keys now) (Engine.keys later ++ placed)).
    rewrite <- app_assoc. reflexivity.
  - apply in_app_or in H0. destruct H0 as [Hp | Hn].
    + destruct (I3 t d H Hp H1) as [Id Lt]. apply in_or_app. now left.
    + unfold Engine.keys in Hn. apply in_map_iff in Hn.
      destruct Hn as (t' & E & It'). unfold now in It'. apply filter_In in It'.
      destruct It' as [Ip R].
      assert (t' = t) as -> by (apply (same_key_same_task ts); auto).
      rewrite ready_true in R. apply in_or_app. left. now apply R.
  - apply in_app_or in H0. destruct H0 as [Hp | Hn].
    + destruct (I3 t d H Hp H1) as [Id Lt].
      now rewrite !indexOf_app_l.
    + unfold Engine.keys in Hn. apply in_map_iff in Hn.
      destruct Hn as (t' & E & It'). unfold now in It'. apply filter_In in It'.
      destruct It' as [Ip R].
      assert (t' = t) as -> by (apply (same_key_same_task ts); auto).
      rewrite ready_true in R. specialize (R d H1).
      assert (~ In (Engine.key t) placed) as NP.
      { intros Q. apply NoDup_app_remove_l in ND as ND'.
        pose proof (key_in_keys t pending Ip) as K.
        revert ND K Q. clear. intros ND K Q.
        induction (Engine.keys pending) as [| x l IH]; simpl in *; [contradiction |].
        inversion ND; subst. destruct K as [-> | K].
        - apply H1. apply in_or_app. now right.
        - now apply IH. }
      rewrite indexOf_app_l by exact R. rewrite indexOf_app_r by exact NP.
      pose proof (indexOf_lt d placed R). lia.
Qed.

Lemma place_placing ts n pending placed placed' stuck :
  NoDup (Engine.keys ts) ->
  Graph.placing ts pending placed ->
  Engine.place n pending placed = (placed', stuck) ->
  Graph.placing ts stuck placed'.
Proof.
  intros N. revert pending placed.
  induction n as [| n IH]; intros pending placed I E; simpl in E.
  - inversion E; now subst.
  - destruct (partition (Engine.ready placed) pending) as [now later] eqn:P.
    destruct now as [| t0 now].
    + inversion E; now subst.
    + apply (IH later (placed ++ Engine.keys (t0 :: now))); [| exact E].
      now apply (placing_step ts pending).
Qed.

Lemma place_stuck n pending placed placed' stuck :
  length pending <= n ->
  Engine.place n pending placed = (placed', stuck) ->
  forall t, In t stuck -> Engine.ready placed' t = false.
Proof.
  revert pending placed.
  induction n as [| n IH]; intros pending placed L E; simpl in E.
  - inversion E; subst. destruct stuck; [contradiction | simpl in L; lia].
  - destruct (partition (Engine.ready placed) pending) as [now later] eqn:P.
    pose proof (partition_filter _ _ _ _ P) as [Hn Hl].
    destruct now as [| t0 now].
    + inversion E; subst placed' stuck. intros t I.
      assert (In t later) as Il.
      { pose proof (filter_split (Engine.ready placed) pending) as Q.
        rewrite <- Hn, <- Hl in Q. simpl in Q.
        eapply Permutation_in; [exact Q | exact I]. }
      rewrite Hl in Il. apply filter_In in Il. destruct Il as [_ R].
      now destruct (Engine.ready placed t).
    + apply (IH later (placed ++ Engine.keys (t0 :: now))); [| exact E].
      assert (filter (Engine.ready placed) pending <> []) as NE
          by (rewrite <- Hn; discriminate).
      pose proof (filter_shorter _ _ NE) as S. rewrite <- Hl in S. lia.
Qed.

Lemma placing_start ts : Graph.placing ts ts [].
Proof.
  repeat split.
  - apply incl_refl.
  - now rewrite app_nil_r.
  - contradiction.
  - contradiction.
Qed.

(** *** Walks and cycles *)

Section Walks.

Variable A : Type.
Variable R : A -> A -> Prop.
Hypothesis eq_dec : forall x y : A, {x = y} + {x <> y}.

Lemma linked_app_r (l1 l2 : list A) :
  Graph.linked R (l1 ++ l2) -> Graph.linked R l2.
Proof.
  induction l1 as [| a l1 IH]; simpl; [trivial |].
  destruct (l1 ++ l2) eqn:E.
  - intros _. destruct l2; [constructor |]. destruct l1; discriminate.
  - intros [_ H]. now apply IH.
Qed.

Lemma linked_app_l (l1 l2 : list A) :
  Graph.linked R (l1 ++ l2) -> Graph.linked R l1.
Proof.
  induction l1 as [| a l1 IH]; simpl; [trivial |].
  destruct l1 as [| b l1]; simpl in *; [trivial |].
  intros [H1 H2]. split; [exact H1 | now apply IH].
Qed.

Lemma linked_reaches x l y :
  Graph.linked R (x :: l ++ [y]) -> clos_trans A R x y.
Proof.
  revert x. induction l as [| b l IH]; intros x; simpl.
  - intros [H _]. now apply t_step.
  - intros [H1 H2]. apply t_trans with b; [now apply t_step | now apply IH].
Qed.

Lemma repeated (l : list A) :
  ~ NoDup l -> exists x l1 l2 l3, l = l1 ++ x :: l2 ++ x :: l3.
Proof.
  induction l as [| a l IH]; intros N.
  - exfalso. apply N. constructor.
  - destruct (in_dec eq_dec a l) as [I | NI].
    + apply in_split in I. destruct I as (l2 & l3 & ->).
      exists a, [], l2, l3. reflexivity.
    + destruct IH as (x & l1 & l2 & l3 & ->).
      * intros ND. apply N. now constructor.
      * exists x, (a :: l1), l2, l3. reflexivity.
Qed.

(** From every element of a finite set an edge leads into the set again:
    then some element reaches itself. *)
Lemma walk_of_length (K : list A) :
  (forall a, In a K -> exists b, In b K /\ R a b) ->
  forall n a, In a K ->
    exists p, length p = n /\ Graph.linked R (a :: p) /\ incl p K.
Proof.
  intros step n. induction n as [| n IH]; intros a Ia.
  - exists []. repeat split. intros x [].
  - destruct (step a Ia) as (b & Ib & Rab).
    destruct (IH b Ib) as (p & L & W & I).
    exists (b :: p). simpl. repeat split; auto.
    intros x [<- | Ix]; auto.
Qed.

Lemma endless_walk_cycles (K : list A) :
  K <> [] ->
  (forall a, In a K -> exists b, In b K /\ R a b) ->
  exists a, In a K /\ clos_trans A R a a.
Proof.
  intros NE step. destruct K as [| a0 K0] eqn:EK; [congruence |].
  rewrite <- EK in *. assert (In a0 K) as I0 by (rewrite EK; now left).
  destruct (walk_of_length K step (length K) a0 I0) as (p & L & W & I).
  assert (~ NoDup (a0 :: p)) as ND.
  { intros ND. assert (incl (a0 :: p) K) as IC
        by (intros x [<- | Ix]; auto).
    pose proof (NoDup_incl_length ND IC) as Q. simpl in Q. lia. }
  destruct (repeated (a0 :: p) ND) as (x & l1 & l2 & l3 & E).
  exists x. split.
  - assert (In x (a0 :: p)) as Ix by (rewrite E; apply in_or_app; right; now left).
    destruct Ix as [<- | Ix]; auto.
  - rewrite E in W. apply linked_app_r in W.
    change (x :: l2 ++ x :: l3) with ((x :: l2) ++ [x] ++ l3) in W.
    rewrite app_assoc in W. apply linked_app_l in W.
    now apply linked_reaches with l2.
Qed.

End Walks.

(** *** Order and cycles *)

Lemma placed_reach ts placed a b :
  Graph.placedInOrder ts placed ->
  clos_trans string (Engine.dependsOn ts) a b ->
  In a placed ->
  In b placed /\ Engine.indexOf b placed < Engine.indexOf a placed.
Proof.
  intros O C. induction C as [a b (t & It & <- & Id) | a b c _ IH1 _ IH2]; intros Ia.
  - now apply (O t b).
  - destruct (IH1 Ia) as [Ib L1]. destruct (IH2 Ib) as [Ic L2]. split; [exact Ic | lia].
Qed.

Lemma placed_not_on_cycle ts placed a :
  Graph.placedInOrder ts placed ->
  clos_trans string (Engine.dependsOn ts) a a -> ~ In a placed.
Proof.
  intros O C I. destruct (placed_reach ts placed a a O C I). lia.
Qed.

(** A stuck loop has a cycle among the tasks it could not place. *)
Lemma stuck_has_cycle ts placed stuck :
  Engine.valid ts ->
  Graph.placing ts stuck placed ->
  (forall t, In t stuck -> Engine.ready placed t = false) ->
  stuck <> [] ->
  Engine.hasCycle ts.
Proof.
  intros [N V] (I1 & I2 & I3) S NE.
  destruct (endless_walk_cycles string (Engine.dependsOn ts) string_dec
                                (Engine.keys stuck)) as (a & _ & C).
  - destruct stuck; [congruence | discriminate].
  - intros a Ia. unfold Engine.keys in Ia. apply in_map_iff in Ia.
    destruct Ia as (t & <- & It).
    destruct (ready_false placed t (S t It)) as (d & Id & Nd).
    exists d. split.
    + assert (In d (Engine.keys stuck ++ placed)) as Q.
      { eapply Permutation_in; [symmetry; exact I2 |]. apply (V t d); auto. }
      apply in_app_or in Q. destruct Q; [assumption | contradiction].
    + exists t. auto.
  - now exists a.
Qed.

Lemma Resolver_cases ts :
  Engine.valid ts ->
  exists placed stuck,
    Engine.place (length ts) ts [] = (placed, stuck) /\
    Graph.placing ts stuck placed /\
    (forall t, In t stuck -> Engine.ready placed t = false) /\
    Engine.Resolver ts = match stuck with
                         | [] => inr placed
                         | _ => inl (Engine.DependencyCycle (Engine.keys stuck))
                         end.
Proof.
  intros V. destruct (Engine.place (length ts) ts []) as [placed stuck] eqn:E.
  exists placed, stuck. split; [reflexivity |].
  split; [| split].
  - apply (place_placing ts (length ts) ts [] placed stuck); [apply V | | exact E].
    apply placing_start.
  - apply (place_stuck (length ts) ts [] placed stuck); [lia | exact E].
  - unfold Engine.Resolver. apply valid_checked in V. destruct V as [-> ->].
    rewrite E. reflexivity.
Qed.

Lemma reaching_task_is_in_set ts a b :
  clos_trans string (Engine.dependsOn ts) a b -> In a (Engine.keys ts).
Proof.
  intros C. induction C as [a b (t & It & <- & _) | a b c _ IH _ _].
  - now apply key_in_keys.
  - exact IH.
Qed.

(** An order the resolver returns rules out a cycle. *)
Lemma ordered_is_acyclic ts order :
  Engine.Resolver ts = inr order -> ~ Engine.hasCycle ts.
Proof.
  intros H [a C].
  assert (Engine.valid ts) as V.
  { apply valid_checked. unfold Engine.Resolver in H.
    destruct (Engine.firstDuplicate (Engine.keys ts)); [discriminate |].
    destruct (Engine.firstUnresolved (Engine.keys ts) ts) as [[x y] |];
      [discriminate | auto]. }
  destruct (Resolver_cases ts V) as (placed & stuck & _ & (_ & P & O) & _ & R).
  rewrite R in H. destruct stuck; [| discriminate]. inversion H; subst.
  apply (placed_not_on_cycle ts order a O C).
  eapply Permutation_in; [symmetry; exact P |].
  exact (reaching_task_is_in_set ts a a C).
Qed.

(** C5.  For a valid task set without a cycle the resolver returns an
    order: a permutation of the tasks in which every task comes after
    each task it depends on. *)
Theorem Resolver_orders_acyclic_task_sets ts :
  Engine.valid ts -> ~ Engine.hasCycle ts ->
  exists order,
    Engine.Resolver ts = inr order /\
    Permutation order (Engine.keys ts) /\
    Engine.topological ts order.
Proof.
  intros V A.
  destruct (Resolver_cases ts V) as (placed & stuck & _ & I & S & R).
  destruct stuck as [| t0 stuck].
  - exists placed. split; [exact R |]. destruct I as (_ & P & O).
    split; [exact P |].
    intros t d It Id.
    assert (In (Engine.key t) placed) as Ik
        by (eapply Permutation_in; [symmetry; exact P | now apply key_in_keys]).
    destruct (O t d It Ik Id). auto.
  - exfalso. apply A. apply (stuck_has_cycle ts placed (t0 :: stuck)); auto.
    discriminate.
Qed.

(** VPC, Subnet, Instance are ordered VPC, Subnet, Instance. *)
Lemma Resolver_orders_acyclic_task_sets_witness :
  exists order,
    Engine.Resolver Samples.threeTasks = inr order /\
    Permutation order (Engine.keys Samples.threeTasks) /\
    Engine.topological Samples.threeTasks order.
Proof.
  apply (Resolver_orders_acyclic_task_sets Samples.threeTasks).
  - apply valid_checked. split; reflexivity.
  - apply (ordered_is_acyclic Samples.threeTasks ["VPC"; "Subnet"; "Instance"]).
    reflexivity.
Defined.

(** C6.  For a task set with a reference cycle the resolver returns a
    build-time error, which is never retried, and the run ends with that
    error before any task is attempted; when the set is otherwise valid
    the error is the cycle error and names every task on a cycle. *)
Theorem cyclic_task_set_fails_construction ts :
  Engine.hasCycle ts ->
  exists e,
    Engine.Resolver ts = inl e /\
    Engine.retried (Engine.classOfBuildError e) = false /\
    (forall attempt budget,
        Engine.RunTasks attempt budget ts
        = (Engine.mkReport [] [], Some (Engine.BuildFailed e))) /\
    (Engine.valid ts ->
     exists members,
       e = Engine.DependencyCycle members /\
       forall a, clos_trans string (Engine.dependsOn ts) a a -> In a members).
Proof.
  intros C. destruct (Engine.Resolver ts) as [e | order] eqn:R.
  - exists e. split; [reflexivity |]. split; [reflexivity |]. split.
    + intros attempt budget. unfold Engine.RunTasks. now rewrite R.
    + intros V.
      destruct (Resolver_cases ts V) as (placed & stuck & _ & (_ & P & O) & _ & R').
      rewrite R in R'. destruct stuck as [| t0 stuck]; [discriminate |].
      inversion R'; subst. eexists. split; [reflexivity |].
      intros a Ca.
      assert (In a (Engine.keys ts)) as Ia
          by exact (reaching_task_is_in_set ts a a Ca).
      assert (In a (Engine.keys (t0 :: stuck) ++ placed)) as Q
          by (eapply Permutation_in; [symmetry; exact P | exact Ia]).
      apply in_app_or in Q. destruct Q as [Q | Q]; [exact Q |].
      exfalso. exact (placed_not_on_cycle ts placed a O Ca Q).
  - exfalso. exact (ordered_is_acyclic ts order R C).
Qed.

(** Two tasks that need each other. *)
Lemma cyclic_task_set_fails_construction_witness :
  exists e,
    Engine.Resolver Samples.cyclicTasks = inl e /\
    Engine.retried (Engine.classOfBuildError e) = false /\
    (forall attempt budget,
        Engine.RunTasks attempt budget Samples.cyclicTasks
        = (Engine.mkReport [] [], Some (Engine.BuildFailed e))) /\
    (Engine.valid Samples.cyclicTasks ->
     exists members,
       e = Engine.DependencyCycle members /\
       forall a, clos_trans string (Engine.dependsOn Samples.cyclicTasks) a a ->
                 In a members).
Proof.
  apply (cyclic_task_set_fails_construction Samples.cyclicTasks).
  exists "A". apply t_trans with "B"; apply t_step.
  - exists (Engine.mkTask "A" ["B"] []). simpl. tauto.
  - exists (Engine.mkTask "B" [] ["A"]). simpl. tauto.
Defined.
(* ===================================================================== *)
(** ** [NewConfig] and the role filters (pkg/apis/nodeup/config.go)        *)
(* ===================================================================== *)

Lemma containsRole_In v roles :
  ApiNodeup.containsRole v roles = true <-> In v roles.
Proof.
  induction roles as [|x rest IH]; simpl.
  - split; [discriminate | tauto].
  - destruct (String.eqb v x) eqn:E.
    + apply String.eqb_eq in E. subst. split; auto.
    + apply String.eqb_neq in E. rewrite IH. split; auto.
      intros [H|H]; [congruence | exact H].
Qed.

Lemma admits_spec role roles :
  HelperProps.admits role roles = true <-> roles = [] \/ In role roles.
Proof.
  unfold HelperProps.admits. destruct roles as [|r rs].
  - simpl. split; auto.
  - change (0 <? length (r :: rs))%nat with true.
    rewrite andb_true_l, negb_involutive, containsRole_In.
    split; [auto | intros [H|H]; [discriminate | exact H]].
Qed.

Lemma filterFileAssets_from_filter acc f role :
  ApiNodeup.filterFileAssets_from acc f role =
  acc ++ map HelperProps.withoutRoles (filter (fun a => HelperProps.admits role (Kops.fa_Roles a)) f).
Proof.
  revert acc. induction f as [|a f IH]; intros acc; simpl.
  - now rewrite app_nil_r.
  - unfold HelperProps.admits at 1.
    destruct ((0 <? length (Kops.fa_Roles a))%nat &&
              negb (ApiNodeup.containsRole role (Kops.fa_Roles a))); simpl.
    + apply IH.
    + rewrite IH, <- app_assoc. reflexivity.
Qed.

Lemma filterFileAssets_filter f role :
  ApiNodeup.filterFileAssets f role =
  map HelperProps.withoutRoles (filter (fun a => HelperProps.admits role (Kops.fa_Roles a)) f).
Proof. apply filterFileAssets_from_filter. Qed.

Lemma filterHooks_from_filter acc h role :
  ApiNodeup.filterHooks_from acc h role =
  acc ++ map HelperProps.hookWithoutRoles
             (filter (fun a => HelperProps.admits role (Kops.hook_Roles a)) h).
Proof.
  revert acc. induction h as [|a h IH]; intros acc; simpl.
  - now rewrite app_nil_r.
  - unfold HelperProps.admits at 1.
    destruct ((0 <? length (Kops.hook_Roles a))%nat &&
              negb (ApiNodeup.containsRole role (Kops.hook_Roles a))); simpl.
    + apply IH.
    + rewrite IH, <- app_assoc. reflexivity.
Qed.

Lemma filterHooks_filter h role :
  ApiNodeup.filterHooks h role =
  map HelperProps.hookWithoutRoles (filter (fun a => HelperProps.admits role (Kops.hook_Roles a)) h).
Proof. apply filterHooks_from_filter. Qed.

Lemma filterFileAssets_In f role a :
  In a (ApiNodeup.filterFileAssets f role) <->
  exists a0, In a0 f /\
             (Kops.fa_Roles a0 = [] \/ In role (Kops.fa_Roles a0)) /\
             a = Kops.mkFileAssetSpec (Kops.fa_Name a0) (Kops.fa_Content a0) [].
Proof.
  rewrite filterFileAssets_filter, in_map_iff. split.
  - intros (a0 & <- & H). apply filter_In in H. destruct H as [H1 H2].
    apply admits_spec in H2. exists a0. auto.
  - intros (a0 & H1 & H2 & ->). exists a0. split; [reflexivity|].
    apply filter_In. split; [exact H1|]. now apply admits_spec.
Qed.

(** X1 -- [filterFileAssets] keeps exactly the assets that name no role or
    name the given role, and hands each of them out with its [Roles]
    cleared. *)
Theorem filterFileAssets_keeps_the_assets_of_the_role f role a :
  In a (ApiNodeup.filterFileAssets f role) <->
  exists a0, In a0 f /\
             (Kops.fa_Roles a0 = [] \/ In role (Kops.fa_Roles a0)) /\
             a = Kops.mkFileAssetSpec (Kops.fa_Name a0) (Kops.fa_Content a0) [].
Proof. apply filterFileAssets_In. Qed.

(** X2 -- Filtering is final: a list that went through [filterFileAssets]
    passes a second filtering unchanged, for whatever role, because the
    first pass cleared every [Roles]. *)
Theorem filterFileAssets_is_final f role role' :
  ApiNodeup.filterFileAssets (ApiNodeup.filterFileAssets f role) role' =
  ApiNodeup.filterFileAssets f role.
Proof.
  rewrite (filterFileAssets_filter _ role').
  rewrite (filterFileAssets_filter f role).
  induction (filter (fun a => HelperProps.admits role (Kops.fa_Roles a)) f) as [|a l IH].
  - reflexivity.
  - simpl. rewrite IH. reflexivity.
Qed.

(** X3 -- A kubelet that was configured without anonymous access stays
    that way: on a master, [AnonymousAuth: false] in the cluster's
    [Kubelet] settings ends up in the node configuration whatever the
    merges of [MasterKubelet] and of the instance group's own settings
    do; on any other role the same holds once the merge of the cluster's
    [Kubelet] settings gave [false]. *)
Theorem NewConfig_keeps_the_kubelet_secure x cluster ig
  (H : (String.eqb (Kops.ig_Role ig) (Kops.InstanceGroupRoleMaster x) = true /\
        exists k, Kops.cl_Kubelet cluster = Some k /\
                  Kops.AnonymousAuth k = Some false) \/
       (String.eqb (Kops.ig_Role ig) (Kops.InstanceGroupRoleMaster x) = false /\
        Kops.AnonymousAuth
          (Kops.JSONMergeStruct x (Kops.mkKubeletConfigSpec None [] [])
                                (Kops.cl_Kubelet cluster)) = Some false)) :
  Kops.AnonymousAuth
    (ApiNodeup.KubeletConfig (fst (ApiNodeup.NewConfig x cluster ig))) =
  Some false.
Proof.
  unfold ApiNodeup.NewConfig. simpl.
  unfold ApiNodeup.kubeletConfig. simpl.
  destruct H as [(M & k & Hk & Ha) | (M & Ha)]; rewrite M.
  - rewrite Hk, Ha. simpl.
    destruct (Kops.ig_Kubelet ig); reflexivity.
  - destruct (Kops.ig_Kubelet ig); [|exact Ha].
    rewrite Ha. reflexivity.
Qed.

Lemma NewConfig_keeps_the_kubelet_secure_witness :
  Kops.AnonymousAuth
    (ApiNodeup.KubeletConfig
       (fst (ApiNodeup.NewConfig HelperSamples.sampleExternals HelperSamples.sampleCluster HelperSamples.sampleMasters))) =
  Some false.
Proof.
  apply (NewConfig_keeps_the_kubelet_secure
           HelperSamples.sampleExternals HelperSamples.sampleCluster HelperSamples.sampleMasters).
  left. split; [reflexivity|].
  exists (Kops.mkKubeletConfigSpec (Some false) [] []). split; reflexivity.
Defined.

(** X4 -- Nothing in the auxiliary configuration names a role any more:
    every file asset in it is a file asset of the instance group or of
    the cluster that was open to the instance group's role, with its
    [Roles] cleared, and it holds exactly two hook lists whose hooks have
    no [Roles] either. *)
Theorem NewConfig_aux_config_is_filtered_for_the_role x cluster ig :
  let aux := snd (ApiNodeup.NewConfig x cluster ig) in
  (forall a, In a (ApiNodeup.FileAssets aux) ->
     Kops.fa_Roles a = [] /\
     exists a0, (In a0 (Kops.ig_FileAssets ig) \/
                 In a0 (Kops.cl_FileAssets cluster)) /\
                (Kops.fa_Roles a0 = [] \/
                 In (Kops.ig_Role ig) (Kops.fa_Roles a0)) /\
                a = Kops.mkFileAssetSpec (Kops.fa_Name a0)
                                         (Kops.fa_Content a0) []) /\
  length (ApiNodeup.Hooks aux) = 2 /\
  (forall hooks hook, In hooks (ApiNodeup.Hooks aux) -> In hook hooks ->
                      Kops.hook_Roles hook = []).
Proof.
  simpl. repeat split.
  - apply in_app_or in H.
    destruct H as [H|H]; rewrite filterFileAssets_filter in H;
      apply in_map_iff in H; destruct H as (a0 & <- & _); reflexivity.
  - apply in_app_or in H.
    destruct H as [H|H];
      apply filterFileAssets_In in H;
      destruct H as (a0 & H1 & H2 & H3); exists a0; auto.
  - intros hooks hook [<-|[<-|[]]] H; rewrite filterHooks_filter in H;
      apply in_map_iff in H; destruct H as (a0 & <- & _); reflexivity.
Qed.

(* ===================================================================== *)
(** ** Key sets (upup/pkg/fi/vfs_castore.go)                               *)
(* ===================================================================== *)

Lemma FindPrimary_from_found x pid keys :
  forall primary pv,
    (forall p, primary = Some p -> Fi.SetString x (Kops.Id p) <> None) ->
    (primary = None <-> pv = None) ->
    match Fi.FindPrimary_from x primary pv pid keys with
    | Some r => (primary = Some r \/ In r keys) /\
                Fi.SetString x (Kops.Id r) <> None
    | None => primary = None /\
              forall item, In item keys -> Fi.SetString x (Kops.Id item) = None
    end.
Proof.
  induction keys as [|item rest IH]; intros primary pv Hp Hn; simpl.
  - destruct primary as [p|].
    + split; [now left | now apply Hp].
    + split; [reflexivity | intros ? []].
  - destruct (Fi.SetString x (Kops.Id item)) as [version|] eqn:E.
    + assert (Hitem : forall p, Some item = Some p ->
                                Fi.SetString x (Kops.Id p) <> None)
        by (intros p [= <-]; congruence).
      assert (Hs : Some item = None <-> Some version = None)
        by (split; discriminate).
      destruct (String.eqb (Kops.Id item) pid).
      * split; [right; now left | congruence].
      * destruct pv as [pv|].
        -- destruct (version >? pv)%Z.
           ++ specialize (IH (Some item) (Some version) Hitem Hs).
              destruct (Fi.FindPrimary_from x (Some item) (Some version) pid rest)
                as [r|]; [|destruct IH; discriminate].
              destruct IH as [[[= <-]|H] H']; split; auto.
           ++ specialize (IH primary (Some pv) Hp Hn).
              destruct (Fi.FindPrimary_from x primary (Some pv) pid rest)
                as [r|].
              ** destruct IH as [[H|H] H']; split; auto.
              ** destruct IH as [H _]. apply Hn in H. discriminate.
        -- specialize (IH (Some item) (Some version) Hitem Hs).
           destruct (Fi.FindPrimary_from x (Some item) (Some version) pid rest)
             as [r|]; [|destruct IH; discriminate].
           destruct IH as [[[= <-]|H] H']; split; auto.
    + specialize (IH primary pv Hp Hn).
      destruct (Fi.FindPrimary_from x primary pv pid rest) as [r|].
      * destruct IH as [[H|H] H']; split; auto.
      * destruct IH as [H H']. split; [exact H|].
        intros i [<-|Hi]; auto.
Qed.

Lemma FindPrimary_found x keyset :
  match Fi.FindPrimary x keyset with
  | Some item => In item (Kops.Keys keyset) /\
                 Fi.SetString x (Kops.Id item) <> None
  | None => forall item, In item (Kops.Keys keyset) ->
                         Fi.SetString x (Kops.Id item) = None
  end.
Proof.
  unfold Fi.FindPrimary.
  pose proof (FindPrimary_from_found x (Kops.PrimaryId keyset)
                (Kops.Keys keyset) None None) as H.
  assert (H1 : forall p, @None Kops.KeysetItem = Some p ->
                         Fi.SetString x (Kops.Id p) <> None)
    by discriminate.
  specialize (H H1 (conj (fun _ => eq_refl) (fun _ => eq_refl))).
  destruct (Fi.FindPrimary_from x None None (Kops.PrimaryId keyset)
              (Kops.Keys keyset)) as [r|].
  - destruct H as [[H|H] H']; [discriminate | auto].
  - apply H.
Qed.

(** X5 -- [FindPrimary] returns one of the key set's keys, one whose id
    is an integer, and returns nil only when no key of the key set has
    an integer id (so also on an empty key set). *)
Theorem FindPrimary_returns_a_key_with_an_integer_id x keyset :
  match Fi.FindPrimary x keyset with
  | Some item => In item (Kops.Keys keyset) /\
                 Fi.SetString x (Kops.Id item) <> None
  | None => forall item, In item (Kops.Keys keyset) ->
                         Fi.SetString x (Kops.Id item) = None
  end.
Proof. apply FindPrimary_found. Qed.

Lemma FindPrimary_from_named x pid keys :
  forall primary pv item,
    In item keys -> Kops.Id item = pid ->
    Fi.SetString x (Kops.Id item) <> None ->
    exists p, Fi.FindPrimary_from x primary pv pid keys = Some p /\
              Kops.Id p = pid.
Proof.
  induction keys as [|k rest IH]; intros primary pv item Hin Hid Hint;
    [destruct Hin|].
  simpl. destruct Hin as [<-|Hin].
  - destruct (Fi.SetString x (Kops.Id k)); [|congruence].
    rewrite Hid, String.eqb_refl. exists k. auto.
  - destruct (Fi.SetString x (Kops.Id k)) as [version|].
    + destruct (String.eqb (Kops.Id k) pid) eqn:E.
      * apply String.eqb_eq in E. exists k. auto.
      * destruct pv as [pv|]; [destruct (version >? pv)%Z|]; eauto.
    + eauto.
Qed.

Lemma FindPrimary_from_highest x pid keys :
  forall primary pv r,
    (forall item, In item keys -> Fi.SetString x (Kops.Id item) <> None ->
                  Kops.Id item <> pid) ->
    match primary, pv with
    | Some p, Some v => Fi.SetString x (Kops.Id p) = Some v
    | None, None => True
    | _, _ => False
    end ->
    Fi.FindPrimary_from x primary pv pid keys = Some r ->
    exists v, Fi.SetString x (Kops.Id r) = Some v /\
              (forall v0, pv = Some v0 -> (v0 <= v)%Z) /\
              (forall item v', In item keys ->
                               Fi.SetString x (Kops.Id item) = Some v' ->
                               (v' <= v)%Z).
Proof.
  induction keys as [|k rest IH]; intros primary pv r Hno Hinv Hr; simpl in Hr.
  - subst primary. destruct pv as [v|]; [|destruct Hinv].
    exists v. split; [exact Hinv|]. split.
    + intros v0 [= <-]. lia.
    + intros ? ? [].
  - assert (Hno' : forall item, In item rest ->
                     Fi.SetString x (Kops.Id item) <> None ->
                     Kops.Id item <> pid)
      by (intros; apply Hno; [now right | assumption]).
    destruct (Fi.SetString x (Kops.Id k)) as [version|] eqn:E.
    + assert (Hk : Kops.Id k <> pid)
        by (apply Hno; [now left | congruence]).
      apply String.eqb_neq in Hk. rewrite Hk in Hr.
      destruct pv as [pv|].
      * destruct (version >? pv)%Z eqn:G.
        -- destruct (IH (Some k) (Some version) r Hno' E Hr)
             as (v & Hv & Hge & Hall).
           specialize (Hge version eq_refl).
           exists v. split; [exact Hv|]. split.
           ++ intros v0 [= <-]. lia.
           ++ intros item v' [<-|Hin] Hi; [|eauto].
              rewrite E in Hi. injection Hi as <-. exact Hge.
        -- destruct (IH primary (Some pv) r Hno' Hinv Hr)
             as (v & Hv & Hge & Hall).
           specialize (Hge pv eq_refl).
           exists v. split; [exact Hv|]. split.
           ++ intros v0 [= <-]. exact Hge.
           ++ intros item v' [<-|Hin] Hi; [|eauto].
              rewrite E in Hi. injection Hi as <-. lia.
      * destruct (IH (Some k) (Some version) r Hno' E Hr)
          as (v & Hv & Hge & Hall).
        specialize (Hge version eq_refl).
        exists v. split; [exact Hv|]. split.
        -- discriminate.
        -- intros item v' [<-|Hin] Hi; [|eauto].
           rewrite E in Hi. injection Hi as <-. exact Hge.
    + destruct (IH primary pv r Hno' Hinv Hr) as (v & Hv & Hge & Hall).
      exists v. split; [exact Hv|]. split; [exact Hge|].
      intros item v' [<-|Hin] Hi; [congruence | eauto].
Qed.

(** X6 -- How [FindPrimary] chooses.  When the key set's [PrimaryId]
    names a key with an integer id, the key returned has that id, whatever
    the versions of the other keys.  When it names no such key, the key
    returned is one with the highest version: no key of the key set has
    an integer id above its id. *)
Theorem FindPrimary_follows_PrimaryId_then_the_highest_version x keyset r
  (Hr : Fi.FindPrimary x keyset = Some r) :
  ((exists item, In item (Kops.Keys keyset) /\
                 Kops.Id item = Kops.PrimaryId keyset /\
                 Fi.SetString x (Kops.Id item) <> None) ->
   Kops.Id r = Kops.PrimaryId keyset) /\
  ((forall item, In item (Kops.Keys keyset) ->
                 Fi.SetString x (Kops.Id item) <> None ->
                 Kops.Id item <> Kops.PrimaryId keyset) ->
   exists v, Fi.SetString x (Kops.Id r) = Some v /\
             forall item v', In item (Kops.Keys keyset) ->
                             Fi.SetString x (Kops.Id item) = Some v' ->
                             (v' <= v)%Z).
Proof.
  split.
  - intros (item & Hin & Hid & Hint).
    destruct (FindPrimary_from_named x (Kops.PrimaryId keyset)
                (Kops.Keys keyset) None None item Hin Hid Hint)
      as (p & Hp & Hpid).
    unfold Fi.FindPrimary in Hr. congruence.
  - intros Hno.
    destruct (FindPrimary_from_highest x (Kops.PrimaryId keyset)
                (Kops.Keys keyset) None None r Hno I Hr)
      as (v & Hv & _ & Hall).
    exists v. auto.
Qed.

Lemma FindPrimary_from_without_private x pid keys :
  forall primary pv,
    Fi.FindPrimary_from x (option_map HelperProps.withoutPrivate primary) pv pid
                        (map HelperProps.withoutPrivate keys) =
    option_map HelperProps.withoutPrivate
               (Fi.FindPrimary_from x primary pv pid keys).
Proof.
  induction keys as [|k rest IH]; intros primary pv; simpl; [reflexivity|].
  destruct (Fi.SetString x (Kops.Id k)) as [version|]; [|apply IH].
  destruct (String.eqb (Kops.Id k) pid); [reflexivity|].
  destruct pv as [pv|]; [destruct (version >? pv)%Z|];
    first [apply IH | apply (IH (Some k))].
Qed.

(** X7 -- Removing the private key material changes nothing else: the
    copy has the same name, type, primary id and number of keys and, key
    by key, the same ids and public material, no private material, and
    [FindPrimary] picks the same key in it as in the original. *)
Theorem removePrivateKeyMaterial_keeps_the_primary x o :
  Kops.ks_Name (Fi.removePrivateKeyMaterial o) = Kops.ks_Name o /\
  Kops.ks_Type (Fi.removePrivateKeyMaterial o) = Kops.ks_Type o /\
  Kops.PrimaryId (Fi.removePrivateKeyMaterial o) = Kops.PrimaryId o /\
  length (Kops.Keys (Fi.removePrivateKeyMaterial o)) = length (Kops.Keys o) /\
  Fi.FindPrimary x (Fi.removePrivateKeyMaterial o) =
    option_map HelperProps.withoutPrivate (Fi.FindPrimary x o) /\
  map Kops.Id (Kops.Keys (Fi.removePrivateKeyMaterial o)) =
    map Kops.Id (Kops.Keys o) /\
  map Kops.PublicMaterial (Kops.Keys (Fi.removePrivateKeyMaterial o)) =
    map Kops.PublicMaterial (Kops.Keys o) /\
  (forall key, In key (Kops.Keys (Fi.removePrivateKeyMaterial o)) ->
               Kops.PrivateMaterial key = EmptyString).
Proof.
  repeat split.
  - simpl. apply length_map.
  - apply (FindPrimary_from_without_private x (Kops.PrimaryId o)
             (Kops.Keys o) None None).
  - simpl. rewrite map_map. reflexivity.
  - simpl. rewrite map_map. reflexivity.
  - simpl. intros key H. apply in_map_iff in H.
    destruct H as (k & <- & _). reflexivity.
Qed.

Lemma lookup_set_same V (m : GoMap.t V) k v :
  GoMap.lookup (GoMap.set m k v) k = Some v.
Proof.
  induction m as [|[k' v'] m IH]; simpl.
  - now rewrite String.eqb_refl.
  - destruct (String.eqb k k') eqn:E; simpl.
    + now rewrite String.eqb_refl.
    + rewrite E. exact IH.
Qed.

Lemma lookup_set_other V (m : GoMap.t V) k k' v :
  k' <> k -> GoMap.lookup (GoMap.set m k v) k' = GoMap.lookup m k'.
Proof.
  intros Hk. induction m as [|[k0 v0] m IH]; simpl.
  - apply String.eqb_neq in Hk. now rewrite Hk.
  - destruct (String.eqb k k0) eqn:E; simpl.
    + apply String.eqb_eq in E. subst k0.
      apply String.eqb_neq in Hk. now rewrite Hk.
    + destruct (String.eqb k' k0); [reflexivity | exact IH].
Qed.

Lemma parseKeys_items x name keys :
  forall items items',
    Fi.parseKeys x name items keys = inr items' ->
    (forall id ki, GoMap.lookup items id = Some ki -> Fi.item_Id ki = id) ->
    (forall id ki, GoMap.lookup items' id = Some ki -> Fi.item_Id ki = id) /\
    (forall key, In key keys -> GoMap.lookup items' (Kops.Id key) <> None) /\
    (forall id, GoMap.lookup items id <> None ->
                GoMap.lookup items' id <> None).
Proof.
  induction keys as [|key rest IH]; intros items items' H Hinv; simpl in H.
  - injection H as <-. repeat split; auto.
  - destruct (if negb (String.length (Kops.PublicMaterial key) =? 0)%nat
              then _ else _) as [e|certificate]; [discriminate|].
    destruct (if negb (String.length (Kops.PrivateMaterial key) =? 0)%nat
              then _ else _) as [e|privateKey]; [discriminate|].
    apply IH in H.
    + destruct H as (H1 & H2 & H3). repeat split; auto.
      * intros k [<-|Hin]; auto.
        apply H3. rewrite lookup_set_same. discriminate.
      * intros id Hid. apply H3.
        destruct (String.eqb id (Kops.Id key)) eqn:E.
        -- apply String.eqb_eq in E. subst id.
           rewrite lookup_set_same. discriminate.
        -- apply String.eqb_neq in E.
           rewrite lookup_set_other by exact E. exact Hid.
    + intros id ki.
      destruct (String.eqb id (Kops.Id key)) eqn:E.
      * apply String.eqb_eq in E. subst id.
        rewrite lookup_set_same. intros [= <-]. reflexivity.
      * apply String.eqb_neq in E.
        rewrite lookup_set_other by exact E. apply Hinv.
Qed.

(** X8 -- How [parseKeyset] ends.  A key set that it returns always has
    a primary item: it is the item stored under the id of the key
    [FindPrimary] picks, and every key of the input has an item under its
    id, stored with that id.  The function reads [FindPrimary(o).Id]
    without a nil check: when the material of every key parses, it panics
    exactly when no key of the key set has an integer id, an empty key
    set included. *)
Theorem parseKeyset_sets_the_primary_or_panics x o :
  (forall keyset,
     Fi.parseKeyset x o = Go.Ok keyset ->
     (exists p ki, Fi.FindPrimary x o = Some p /\
                   Fi.Primary keyset = Some ki /\
                   Fi.item_Id ki = Kops.Id p) /\
     (forall key, In key (Kops.Keys o) ->
                  exists ki, GoMap.lookup (Fi.Items keyset) (Kops.Id key)
                             = Some ki /\
                             Fi.item_Id ki = Kops.Id key)) /\
  ((exists msg, Fi.parseKeyset x o = Go.Panic msg) <->
   (exists items,
      Fi.parseKeys x (Kops.ks_Name o) [] (Kops.Keys o) = inr items) /\
   (forall key, In key (Kops.Keys o) ->
                Fi.SetString x (Kops.Id key) = None)).
Proof.
  unfold Fi.parseKeyset.
  pose proof (FindPrimary_found x o) as Hp.
  destruct (Fi.parseKeys x (Kops.ks_Name o) [] (Kops.Keys o))
    as [e|items] eqn:E.
  - split; [intros keyset H; discriminate H|].
    split; [intros [msg H]; discriminate | intros [[items H] _]; discriminate].
  - apply parseKeys_items in E; [|intros ? ? [=]].
    destruct E as (H1 & H2 & _).
    destruct (Fi.FindPrimary x o) as [p|].
    + destruct Hp as [Hin Hint]. split.
      * intros keyset H. injection H as <-. simpl. split.
        -- specialize (H2 p Hin).
           destruct (GoMap.lookup items (Kops.Id p)) as [ki|] eqn:L;
             [|congruence].
           exists p, ki. repeat split. now apply H1.
        -- intros key Hk. specialize (H2 key Hk).
           destruct (GoMap.lookup items (Kops.Id key)) as [ki|] eqn:L;
             [|congruence].
           exists ki. split; [reflexivity | now apply H1].
      * split; [intros [msg H]; discriminate|].
        intros [_ H]. now apply H in Hin.
    + split; [intros keyset H; discriminate H|].
      split; [|intros _; eexists; reflexivity].
      intros _. split; [eexists; reflexivity | exact Hp].
Qed.

Lemma FindPrimary_follows_PrimaryId_then_the_highest_version_witness :
  ((exists item, In item HelperSamples.sampleKeys /\
                 Kops.Id item = "2" /\
                 Fi.SetString HelperSamples.sampleFi (Kops.Id item) <> None) ->
   Kops.Id (Kops.mkKeysetItem "2" "cert-2" "key-2") = "2") /\
  ((forall item, In item HelperSamples.sampleKeys ->
                 Fi.SetString HelperSamples.sampleFi (Kops.Id item) <> None ->
                 Kops.Id item <> "2") ->
   exists v, Fi.SetString HelperSamples.sampleFi "2" = Some v /\
             forall item v', In item HelperSamples.sampleKeys ->
                             Fi.SetString HelperSamples.sampleFi (Kops.Id item)
                             = Some v' ->
                             (v' <= v)%Z).
Proof.
  apply (FindPrimary_follows_PrimaryId_then_the_highest_version
           HelperSamples.sampleFi (HelperSamples.sampleKeyset "2")
           (Kops.mkKeysetItem "2" "cert-2" "key-2")).
  vm_compute. reflexivity.
Defined.

(* ===================================================================== *)
(** ** The helpers of [NodeUpCommand.Run]                                  *)
(* ===================================================================== *)

Lemma Go_calls_bind E A B (m : Go.Eff E A) (f : A -> Go.Eff E B) :
  Go.calls (Go.bind m f) =
  Go.calls m ++ match Go.result m with
                | Go.Ok a => Go.calls (f a)
                | _ => []
                end.
Proof.
  destruct m as [t [a|e|p]]; unfold Go.bind; simpl;
    try now rewrite app_nil_r.
  destruct (f a). reflexivity.
Qed.

Lemma Go_result_bind E A B (m : Go.Eff E A) (f : A -> Go.Eff E B) :
  Go.result (Go.bind m f) =
  match Go.result m with
  | Go.Ok a => Go.result (f a)
  | Go.Err e => Go.Err e
  | Go.Panic p => Go.Panic p
  end.
Proof.
  destruct m as [t [a|e|p]]; unfold Go.bind; simpl; try reflexivity.
  destruct (f a). reflexivity.
Qed.

Lemma Go_calls_call E A (ev : E) (ans : error + A) wrap :
  Go.calls (Go.call ev ans wrap) = [ev].
Proof. reflexivity. Qed.

Lemma Go_result_call E A (ev : E) (ans : error + A) wrap :
  Go.result (Go.call ev ans wrap) =
  match ans with inl e => Go.Err (wrap e) | inr a => Go.Ok a end.
Proof. reflexivity. Qed.

Ltac go_simpl :=
  repeat first
    [ rewrite Go_calls_bind | rewrite Go_result_bind
    | rewrite Go_calls_call | rewrite Go_result_call ];
  cbn [Go.calls Go.result Go.ret Go.raise Go.panic Go.log fst snd app].

Ltac go_simpl_in H :=
  repeat first
    [ rewrite Go_calls_bind in H | rewrite Go_result_bind in H
    | rewrite Go_calls_call in H | rewrite Go_result_call in H ];
  cbn [Go.calls Go.result Go.ret Go.raise Go.panic Go.log fst snd app] in H.

(** X9 -- [completeWarmingLifecycleAction] completes a lifecycle action
    only after it found the [kops-warmpool] hook of the instance group's
    auto-scaling group, and then with the result [CONTINUE], for that
    group, hook and instance; when no hook is found it returns nil
    without completing anything. *)
Theorem completeWarmingLifecycleAction_needs_the_hook w ig cl iid :
  let asg := String.append ig (String.append "." cl) in
  (forall a i h r,
     In (NodeupHost.CompleteLifecycleAction a i h r)
        (Go.calls (NodeupHost.completeWarmingLifecycleAction w ig cl iid)) <->
     (exists n, NodeupHost.describeLifecycleHooks w asg "kops-warmpool" = inr n /\
                (0 < n)%nat) /\
     a = asg /\ i = iid /\ h = "kops-warmpool" /\ r = "CONTINUE") /\
  (NodeupHost.describeLifecycleHooks w asg "kops-warmpool" = inr 0%nat ->
   NodeupHost.completeWarmingLifecycleAction w ig cl iid =
   ([NodeupHost.DescribeLifecycleHooks asg "kops-warmpool"], Go.Ok tt)).
Proof.
  intros asg. unfold NodeupHost.completeWarmingLifecycleAction. fold asg.
  split.
  - intros a i h r. go_simpl.
    destruct (NodeupHost.describeLifecycleHooks w asg "kops-warmpool")
      as [e|n] eqn:D; simpl.
    + split.
      * intros [H|[]]; discriminate.
      * intros [(n & Hn & _) _]. discriminate.
    + destruct (0 <? n)%nat eqn:L; simpl.
      * split.
        -- intros [H|[H|[]]]; [discriminate|]. injection H as <- <- <- <-.
           apply Nat.ltb_lt in L. repeat split; eauto.
        -- intros (_ & -> & -> & -> & ->). right. left. reflexivity.
      * split.
        -- intros [H|[]]; discriminate.
        -- intros [(n' & Hn & Hlt) _]. injection Hn as <-.
           apply Nat.ltb_lt in Hlt. congruence.
  - intros ->. reflexivity.
Qed.

(** X10 -- [evaluateHostnameOverride] contacts a metadata service exactly
    when the override, trimmed and lower-cased, is one of the provider
    tags [@aws], [@gce], [@digitalocean], [@alicloud] (and is not the
    empty string or [@hostname]).  Without a call it cannot fail: the
    empty string and [@hostname] give the empty override, and anything
    else is returned as it was given, not in its trimmed, lower-cased
    form. *)
Theorem evaluateHostnameOverride_reads_metadata_only_for_a_tag w h :
  let k := NodeupHost.ToLower w (NodeupHost.TrimSpace w h) in
  let tag := k = "@aws" \/ k = "@gce" \/ k = "@digitalocean" \/ k = "@alicloud" in
  (Go.calls (NodeupHost.evaluateHostnameOverride w h) = [] <->
   h = "" \/ h = "@hostname" \/ ~ tag) /\
  (h = "" \/ h = "@hostname" ->
   NodeupHost.evaluateHostnameOverride w h = ([], Go.Ok "")) /\
  (h <> "" -> h <> "@hostname" -> ~ tag ->
   NodeupHost.evaluateHostnameOverride w h = ([], Go.Ok h)).
Proof.
  intros k tag. unfold NodeupHost.evaluateHostnameOverride. fold k.
  assert (Hno : ~ tag ->
                String.eqb k "@aws" = false /\ String.eqb k "@gce" = false /\
                String.eqb k "@digitalocean" = false /\
                String.eqb k "@alicloud" = false).
  { intros Ht. repeat split; apply String.eqb_neq; intros E; apply Ht;
      unfold tag; auto. }
  repeat split.
  - destruct (String.eqb h "") eqn:E1; [apply String.eqb_eq in E1; auto|].
    destruct (String.eqb h "@hostname") eqn:E2;
      [apply String.eqb_eq in E2; auto|].
    simpl. intros Hc. right. right. intros [T|[T|[T|T]]]; revert Hc.
    + rewrite T. simpl. go_simpl. discriminate.
    + destruct (String.eqb k "@aws"); [go_simpl; discriminate|].
      rewrite T. simpl. go_simpl. discriminate.
    + destruct (String.eqb k "@aws"); [go_simpl; discriminate|].
      destruct (String.eqb k "@gce"); [go_simpl; discriminate|].
      rewrite T. simpl. go_simpl. discriminate.
    + destruct (String.eqb k "@aws"); [go_simpl; discriminate|].
      destruct (String.eqb k "@gce"); [go_simpl; discriminate|].
      destruct (String.eqb k "@digitalocean"); [go_simpl; discriminate|].
      rewrite T. simpl. go_simpl. discriminate.
  - intros [->|[->|Ht]]; [reflexivity | reflexivity |].
    destruct (String.eqb h "" || String.eqb h "@hostname"); [reflexivity|].
    destruct (Hno Ht) as (-> & -> & -> & ->). reflexivity.
  - intros [->| ->]; reflexivity.
  - intros H1 H2 Ht.
    apply String.eqb_neq in H1, H2. rewrite H1, H2. simpl.
    destruct (Hno Ht) as (-> & -> & -> & ->). reflexivity.
Qed.

Lemma Split_first s c :
  exists x, Strings.first (Strings.Split s c) = Some x /\
            String.prefix x s = true /\ Strings.Contains x c = false.
Proof.
  induction s as [|a s IH]; simpl.
  - exists EmptyString. auto.
  - destruct (Ascii.eqb a c) eqn:E.
    + exists EmptyString. auto.
    + destruct IH as (x & Hx & Hp & Hc).
      destruct (Strings.Split s c) as [|y ys]; [discriminate|].
      injection Hx as ->. exists (String a x). simpl.
      rewrite E, Hc. repeat split.
      destruct (Ascii.ascii_dec a a); [exact Hp | congruence].
Qed.

(** The first piece of a split is the part up to the first separator. *)
Lemma Split_first_part s c :
  exists x, Strings.first (Strings.Split s c) = Some x /\
            Strings.Contains x c = false /\
            (s = x \/ exists rest, s = String.append x (String c rest)).
Proof.
  induction s as [|a s IH]; simpl.
  - exists EmptyString. auto.
  - destruct (Ascii.eqb a c) eqn:E.
    + apply Ascii.eqb_eq in E. subst a.
      exists EmptyString. repeat split. right. exists s. reflexivity.
    + destruct IH as (x & Hx & Hc & Hs).
      destruct (Strings.Split s c) as [|y ys]; [discriminate|].
      injection Hx as ->. exists (String a x). simpl.
      rewrite E, Hc. repeat split.
      destruct Hs as [-> | (rest & ->)]; [now left |].
      right. exists rest. reflexivity.
Qed.

Lemma Split_not_nil s c : Strings.Split s c <> [].
Proof.
  destruct (Split_first s c) as (x & H & _).
  destruct (Strings.Split s c); [discriminate | discriminate].
Qed.

(** X11 -- What the [@gce] and [@digitalocean] tags give: for [@gce] the
    part of the host name from the GCE metadata up to its first dot (it
    holds no dot, and the host name is this part alone or this part, a
    dot and a rest); for [@digitalocean] the private address from the
    metadata, never an empty one. *)
Theorem evaluateHostnameOverride_gce_and_digitalocean w h name
  (H1 : h <> "") (H2 : h <> "@hostname")
  (Hr : Go.result (NodeupHost.evaluateHostnameOverride w h) = Go.Ok name) :
  let k := NodeupHost.ToLower w (NodeupHost.TrimSpace w h) in
  (k = "@gce" ->
   exists fullyQualified,
     NodeupHost.readFile w "metadata://gce/instance/hostname"
     = inr fullyQualified /\
     Strings.Contains name Strings.dot = false /\
     (fullyQualified = name \/
      exists rest,
        fullyQualified = String.append name (String Strings.dot rest))) /\
  (k = "@digitalocean" ->
   NodeupHost.readFile w
     "metadata://digitalocean/interfaces/private/0/ipv4/address" = inr name /\
   name <> "").
Proof.
  intros k. unfold NodeupHost.evaluateHostnameOverride in Hr. fold k in Hr.
  apply String.eqb_neq in H1, H2. rewrite H1, H2 in Hr. simpl in Hr.
  split; intros T; rewrite T in Hr; simpl in Hr; go_simpl_in Hr.
  - destruct (NodeupHost.readFile w "metadata://gce/instance/hostname")
      as [e|fq]; [discriminate|].
    destruct (Split_first_part fq Strings.dot) as (x & Hx & Hc & Hs).
    rewrite Hx in Hr. simpl in Hr. injection Hr as <-.
    exists fq. auto.
  - destruct (NodeupHost.readFile w
                "metadata://digitalocean/interfaces/private/0/ipv4/address")
      as [e|v]; [discriminate|].
    destruct (String.eqb v "") eqn:E; simpl in Hr; [discriminate|].
    injection Hr as <-. split; [reflexivity|]. now apply String.eqb_neq.
Qed.

(** X12 -- The [@aws] tag gives a name only when [DescribeInstances],
    asked in the region that is the availability zone without its last
    character for the instance id of the metadata, answered with exactly
    one reservation holding exactly one instance: the name is that
    instance's private DNS name. *)
Theorem evaluateHostnameOverride_aws w h name
  (H1 : h <> "") (H2 : h <> "@hostname")
  (Hk : NodeupHost.ToLower w (NodeupHost.TrimSpace w h) = "@aws")
  (Hr : Go.result (NodeupHost.evaluateHostnameOverride w h) = Go.Ok name) :
  exists az instanceID region,
    NodeupHost.readFile w
      "metadata://aws/meta-data/placement/availability-zone" = inr az /\
    NodeupHost.readFile w "metadata://aws/meta-data/instance-id"
    = inr instanceID /\
    NodeupHost.dropLast az = Some region /\
    NodeupHost.describeInstances w region instanceID = inr [[Some name]] /\
    In (NodeupHost.DescribeInstances region instanceID)
       (Go.calls (NodeupHost.evaluateHostnameOverride w h)).
Proof.
  unfold NodeupHost.evaluateHostnameOverride in *.
  apply String.eqb_neq in H1, H2. rewrite H1, H2, Hk in *. simpl in *.
  go_simpl_in Hr. go_simpl.
  destruct (NodeupHost.readFile w
              "metadata://aws/meta-data/placement/availability-zone")
    as [e|az]; [discriminate|].
  destruct (NodeupHost.readFile w "metadata://aws/meta-data/instance-id")
    as [e|iid]; [discriminate|].
  destruct (NodeupHost.newSession w) as [e|]; [discriminate|].
  simpl in *.
  destruct (NodeupHost.dropLast az) as [region|] eqn:DL; [|discriminate].
  simpl in *. go_simpl_in Hr. go_simpl.
  destruct (NodeupHost.describeInstances w region iid) as [e|res] eqn:D;
    [discriminate|].
  destruct res as [|instances [|? ?]]; try discriminate. simpl in Hr.
  destruct instances as [|[n|] [|? ?]]; try discriminate. simpl in Hr.
  injection Hr as <-.
  exists az, iid, region. repeat split; auto.
  go_simpl. simpl. auto.
Qed.

(** X13 -- [evaluateBindAddress] reads the metadata only for [@aws].  Any
    other bind address is answered without a call: it comes back
    unchanged, and it comes back only when it is empty or [net.ParseIP]
    accepts it; otherwise the function fails. *)
Theorem evaluateBindAddress_checks_the_address w bindAddress
  (H : bindAddress <> "@aws") :
  Go.calls (NodeupHost.evaluateBindAddress w bindAddress) = [] /\
  (forall r, Go.result (NodeupHost.evaluateBindAddress w bindAddress) = Go.Ok r <->
             r = bindAddress /\
             (bindAddress = "" \/ NodeupHost.ParseIP w bindAddress = true)) /\
  (bindAddress <> "" -> NodeupHost.ParseIP w bindAddress = false ->
   Go.result (NodeupHost.evaluateBindAddress w bindAddress) =
   Go.Err "bindAddress is not valid IP address").
Proof.
  unfold NodeupHost.evaluateBindAddress.
  apply String.eqb_neq in H. rewrite H.
  destruct (String.eqb bindAddress "") eqn:E.
  - apply String.eqb_eq in E. subst. simpl.
    split; [reflexivity|]. split.
    + intros r. split.
      * intros [= <-]. auto.
      * intros [-> _]. reflexivity.
    + congruence.
  - apply String.eqb_neq in E.
    destruct (NodeupHost.ParseIP w bindAddress) eqn:P; simpl.
    + split; [reflexivity|]. split.
      * intros r. split.
        -- intros [= <-]. auto.
        -- intros [-> _]. reflexivity.
      * discriminate.
    + split; [reflexivity|]. split.
      * intros r. split.
        -- discriminate.
        -- intros [_ [?|?]]; congruence.
      * reflexivity.
Qed.

Lemma warnOnError_result A (m : Go.Eff NodeupHost.Call A) prefix :
  Go.result (NodeupHost.warnOnError m prefix) =
  match Go.result m with
  | Go.Ok a => Go.Ok (Some a)
  | Go.Err _ => Go.Ok None
  | Go.Panic p => Go.Panic p
  end.
Proof. destruct m as [t [a|e|p]]; reflexivity. Qed.

Lemma kernelHasFilesystem_result w K (kernel : NodeupHost.Kernel K) k fs :
  (exists b, Go.result (NodeupHost.kernelHasFilesystem w kernel k fs) = Go.Ok b) \/
  (exists e, Go.result (NodeupHost.kernelHasFilesystem w kernel k fs) = Go.Err e).
Proof.
  unfold NodeupHost.kernelHasFilesystem. go_simpl.
  destruct (NodeupHost.procFilesystems kernel k); simpl; eauto.
Qed.

Lemma modprobe_result K (kernel : NodeupHost.Kernel K) k module :
  snd (NodeupHost.modprobe kernel k module) =
    fst (NodeupHost.execModprobe kernel module k) /\
  ((Go.result (fst (NodeupHost.modprobe kernel k module)) = Go.Ok tt) \/
   (exists e, Go.result (fst (NodeupHost.modprobe kernel k module)) = Go.Err e)).
Proof.
  unfold NodeupHost.modprobe.
  destruct (NodeupHost.execModprobe kernel module k) as [k' [out [e|]]];
    simpl; eauto.
Qed.

Lemma firstSupported_chooses w K (kernel : NodeupHost.Kernel K) precedence :
  forall k,
    exists chosen k',
      Go.result (NodeupHost.firstSupported w kernel k precedence) =
      Go.Ok (chosen, k') /\
      forall opt, chosen = Some opt ->
                  In opt precedence /\
                  HelperProps.lists w kernel k' (HelperProps.probed opt).
Proof.
  induction precedence as [|opt rest IH]; intros k.
  - exists None, k. split; [reflexivity | discriminate].
  - assert (Hrest : forall k1,
              exists chosen k',
                Go.result (NodeupHost.firstSupported w kernel k1 rest) =
                Go.Ok (chosen, k') /\
                forall o, chosen = Some o ->
                          In o (opt :: rest) /\
                          HelperProps.lists w kernel k' (HelperProps.probed o)).
    { intros k1. destruct (IH k1) as (c & k' & Hc & Ho).
      exists c, k'. split; [exact Hc|]. intros o E.
      destruct (Ho o E). split; [now right | assumption]. }
    cbn [NodeupHost.firstSupported].
    change (if String.eqb opt "overlay2" then "overlay" else opt)
      with (HelperProps.probed opt).
    set (fs := HelperProps.probed opt).
    rewrite Go_result_bind, warnOnError_result.
    destruct (kernelHasFilesystem_result w K kernel k fs) as [[b Hb]|[e He]].
    2: { rewrite He. apply Hrest. }
    rewrite Hb. rewrite Go_result_bind.
    match goal with
    | |- context [Go.result (if negb b then ?X else ?Y)] =>
        assert (Hk1 : exists k1,
                  Go.result (if negb b then X else Y) = Go.Ok k1)
    end.
    { destruct b; simpl; [eauto|].
      destruct (modprobe_result K kernel k fs) as [_ Hm].
      destruct (NodeupHost.modprobe kernel k fs) as [m k1]. simpl in Hm.
      rewrite Go_result_bind, warnOnError_result.
      destruct Hm as [Hm|[e Hm]]; rewrite Hm; simpl; eauto. }
    destruct Hk1 as [k1 Hk1]. rewrite Hk1.
    rewrite Go_result_bind, warnOnError_result.
    destruct (kernelHasFilesystem_result w K kernel k1 fs) as [[b1 Hb1]|[e He]].
    2: { rewrite He. apply Hrest. }
    rewrite Hb1. destruct b1.
    + exists (Some opt), k1. split; [reflexivity|].
      intros o [= <-]. split; [now left | exact Hb1].
    + rewrite Go_result_bind. simpl. apply Hrest.
Qed.

(** X14 -- [evaluateDockerSpecStorage] never fails.  A storage setting
    without a comma is left as it is and the kernel is not touched.  For
    a comma-separated list the setting becomes one of the listed
    options: one whose file system ([overlay] for [overlay2]) the kernel
    lists afterwards, or else the first option, with a warning that no
    storage module was supported. *)
Theorem evaluateDockerSpecStorage_picks_a_listed_option
        w K (kernel : NodeupHost.Kernel K) k specStorage :
  let storage := match specStorage with Some s => s | None => "" end in
  let run := NodeupHost.evaluateDockerSpecStorage w kernel k specStorage in
  (Strings.Contains storage Strings.comma = false ->
   run = ([], Go.Ok (specStorage, k))) /\
  (Strings.Contains storage Strings.comma = true ->
   exists opt k',
     Go.result run = Go.Ok (Some opt, k') /\
     In opt (Strings.Split storage Strings.comma) /\
     (HelperProps.lists w kernel k' (HelperProps.probed opt) \/
      (Strings.first (Strings.Split storage Strings.comma) = Some opt /\
       In (HelperProps.noStorageSupported storage opt) (Go.calls run)))).
Proof.
  intros storage run. subst run.
  unfold NodeupHost.evaluateDockerSpecStorage. fold storage.
  split; intros C; rewrite C; [reflexivity|].
  destruct (firstSupported_chooses w K kernel
              (Strings.Split storage Strings.comma) k)
    as (chosen & k' & Hr & Hc).
  rewrite Go_result_bind, Go_calls_bind, Hr.
  destruct chosen as [opt|].
  - exists opt, k'. destruct (Hc opt eq_refl). simpl. auto.
  - destruct (Strings.Split storage Strings.comma) as [|p0 ps] eqn:S.
    + now apply Split_not_nil in S.
    + exists p0, k'. go_simpl. simpl. repeat split; auto.
      right. split; [reflexivity|]. apply in_or_app. right. now left.
Qed.

(** X15 -- [loadKernelModules] never fails: it runs [modprobe] once, for
    [br_netfilter], and an error of the command only becomes a warning
    that carries the module, the error and the command's output. *)
Theorem loadKernelModules_only_warns K (kernel : NodeupHost.Kernel K) k :
  let run := NodeupHost.loadKernelModules kernel k in
  let after := NodeupHost.execModprobe kernel "br_netfilter" k in
  Go.result run = Go.Ok (fst after) /\
  (forall module, In (NodeupHost.ExecModprobe module) (Go.calls run) ->
                  module = "br_netfilter") /\
  (forall e, snd (snd after) = Some e ->
     In (NodeupHost.Warning
           (String.append "error loading br_netfilter module: "
              (String.append "modprobe for module "
                 (String.append (quoted "br_netfilter")
                    (String.append " failed ("
                       (String.append e
                          (String.append "): " (fst (snd after)))))))))
        (Go.calls run)).
Proof.
  unfold NodeupHost.loadKernelModules, NodeupHost.modprobe.
  destruct (NodeupHost.execModprobe kernel "br_netfilter" k)
    as [k' [out [e|]]]; simpl.
  - repeat split.
    + intros module [[= <-]|[H|[]]]; [reflexivity | discriminate].
    + intros e' [= <-]. right. left. reflexivity.
  - repeat split.
    + intros module [[= <-]|[]]. reflexivity.
    + discriminate.
Qed.

(** X16 -- [getAWSConfigurationMode] asks the auto-scaling API only for
    the roles [Node] and [APIServer]; every other role gets the empty
    mode without a call.  The warming mode is returned only to those two
    roles, when the lifecycle state of the first instance described
    starts with [Warmed:]; when no instance is described the function
    panics on [AutoScalingInstances[0]]. *)
Theorem getAWSConfigurationMode_asks_only_for_nodes w role instanceID :
  let run := NodeupHost.getAWSConfigurationMode w role instanceID in
  let scales := role = NodeupHost.InstanceGroupRoleNode w \/
                role = NodeupHost.InstanceGroupRoleAPIServer w in
  (~ scales -> run = ([], Go.Ok "")) /\
  (scales -> Go.calls run = [NodeupHost.DescribeAutoScalingInstances instanceID]) /\
  (forall mode, Go.result run = Go.Ok mode -> mode <> "" ->
     mode = NodeupHost.ConfigurationModeWarming w /\ scales /\
     exists state rest,
       NodeupHost.describeAutoScalingInstances w instanceID
       = inr (Some state :: rest) /\
       Strings.HasPrefix state "Warmed:" = true) /\
  (scales -> NodeupHost.describeAutoScalingInstances w instanceID = inr [] ->
   Go.result run = Go.Panic Go.indexOutOfRange).
Proof.
  intros run scales. subst run. unfold NodeupHost.getAWSConfigurationMode.
  assert (Hs : scales <->
               negb (String.eqb role (NodeupHost.InstanceGroupRoleNode w)) &&
               negb (String.eqb role (NodeupHost.InstanceGroupRoleAPIServer w))
               = false).
  { unfold scales. rewrite andb_false_iff, !negb_false_iff, !String.eqb_eq.
    tauto. }
  destruct (negb (String.eqb role (NodeupHost.InstanceGroupRoleNode w)) &&
            negb (String.eqb role (NodeupHost.InstanceGroupRoleAPIServer w)))
    eqn:R.
  - assert (Hn : ~ scales) by (rewrite Hs; discriminate).
    split; [reflexivity|]. split; [tauto|]. split; [|tauto].
    intros mode [= <-] H. congruence.
  - assert (Hy : scales) by (now apply Hs).
    split; [tauto|]. split.
    { intros _. go_simpl.
      destruct (NodeupHost.describeAutoScalingInstances w instanceID)
        as [e|[|[s|] rest]]; simpl; try reflexivity;
        match goal with
        | |- context [if ?b then _ else _] => destruct b; reflexivity
        end. }
    split.
    + intros mode Hr Hm. go_simpl_in Hr.
      destruct (NodeupHost.describeAutoScalingInstances w instanceID)
        as [e|[|[s|] rest]]; simpl in Hr; try discriminate.
      * destruct (Strings.HasPrefix s "Warmed:") eqn:P; simpl in Hr;
          injection Hr as <-; [|congruence].
        repeat split; auto. exists s, rest. auto.
      * injection Hr as <-. congruence.
    + intros _ D. go_simpl. rewrite D. reflexivity.
Qed.

(** X17 -- [getNodeConfigFromServer] supports only the AWS cloud provider:
    for any other it fails with "unsupported cloud provider" before any
    call.  kops-controller is queried only after the region, the
    authenticator and the server URL were obtained, at the parsed URL,
    with the CA exactly when one is configured, and always asking for
    the node configuration. *)
Theorem getNodeConfigFromServer_queries_only_on_AWS w config :
  let run := NodeupHost.getNodeConfigFromServer w config in
  (ApiNodeup.CloudProvider config <> NodeupHost.CloudProviderAWS w ->
   run = ([], Go.Err (String.append "unsupported cloud provider "
                                    (ApiNodeup.CloudProvider config)))) /\
  (forall u ca v inc,
     In (NodeupHost.QueryBootstrap u ca v inc) (Go.calls run) ->
     ApiNodeup.CloudProvider config = NodeupHost.CloudProviderAWS w /\
     (exists region, NodeupHost.regionFromMetadata w = inr region /\
                     NodeupHost.newAWSAuthenticator w region = None) /\
     NodeupHost.urlParse w (ApiNodeup.Server config) = inr u /\
     (ca = None <-> ApiNodeup.CA config = "") /\
     (forall c, ca = Some c -> c = ApiNodeup.CA config) /\
     v = NodeupHost.BootstrapAPIVersion w /\ inc = true /\
     Go.result run = match NodeupHost.queryBootstrap w u ca with
                     | inl e => Go.Err e
                     | inr r => Go.Ok r
                     end).
Proof.
  intros run. subst run. unfold NodeupHost.getNodeConfigFromServer. split.
  - intros H. apply String.eqb_neq in H. rewrite H. reflexivity.
  - intros u ca v inc.
    destruct (String.eqb (ApiNodeup.CloudProvider config)
                         (NodeupHost.CloudProviderAWS w)) eqn:P.
    2: { go_simpl. intros []. }
    apply String.eqb_eq in P. go_simpl.
    destruct (NodeupHost.regionFromMetadata w) as [e|region] eqn:R; simpl.
    { intros [H|[]]; discriminate. }
    destruct (NodeupHost.newAWSAuthenticator w region) as [e|] eqn:A; simpl.
    { intros [H|[H|[]]]; discriminate. }
    destruct (NodeupHost.urlParse w (ApiNodeup.Server config)) as [e|u0] eqn:U;
      simpl.
    { intros [H|[H|[H|[]]]]; discriminate. }
    intros [H|[H|[H|[H|[]]]]]; try discriminate.
    injection H as <- <- <- <-.
    repeat split; eauto.
    + destruct (String.eqb (ApiNodeup.CA config) "") eqn:C; simpl.
      * intros _. now apply String.eqb_eq.
      * discriminate.
    + intros C. rewrite C. reflexivity.
    + destruct (String.eqb (ApiNodeup.CA config) ""); simpl; congruence.
Qed.

Lemma evaluateHostnameOverride_gce_and_digitalocean_witness :
  (exists fullyQualified,
     NodeupHost.readFile HelperSamples.sampleHost
                         "metadata://gce/instance/hostname"
     = inr fullyQualified /\
     Strings.Contains "nodes-x7" Strings.dot = false /\
     (fullyQualified = "nodes-x7" \/
      exists rest,
        fullyQualified = String.append "nodes-x7" (String Strings.dot rest))) /\
  (NodeupHost.readFile HelperSamples.sampleHost
     "metadata://digitalocean/interfaces/private/0/ipv4/address"
   = inr "10.0.0.4" /\
   "10.0.0.4" <> "").
Proof.
  split.
  - apply (proj1 (evaluateHostnameOverride_gce_and_digitalocean
                    HelperSamples.sampleHost "@gce" "nodes-x7"
                    ltac:(discriminate) ltac:(discriminate)
                    ltac:(vm_compute; reflexivity))).
    reflexivity.
  - apply (proj2 (evaluateHostnameOverride_gce_and_digitalocean
                    HelperSamples.sampleHost "@digitalocean" "10.0.0.4"
                    ltac:(discriminate) ltac:(discriminate)
                    ltac:(vm_compute; reflexivity))).
    reflexivity.
Defined.

Lemma evaluateHostnameOverride_aws_witness :
  exists az instanceID region,
    NodeupHost.readFile HelperSamples.sampleHost
      "metadata://aws/meta-data/placement/availability-zone" = inr az /\
    NodeupHost.readFile HelperSamples.sampleHost
      "metadata://aws/meta-data/instance-id" = inr instanceID /\
    NodeupHost.dropLast az = Some region /\
    NodeupHost.describeInstances HelperSamples.sampleHost region instanceID
    = inr [[Some "ip-10-0-0-4.ec2.internal"]] /\
    In (NodeupHost.DescribeInstances region instanceID)
       (Go.calls (NodeupHost.evaluateHostnameOverride
                    HelperSamples.sampleHost "@aws")).
Proof.
  apply (evaluateHostnameOverride_aws HelperSamples.sampleHost "@aws"
           "ip-10-0-0-4.ec2.internal").
  - discriminate.
  - discriminate.
  - reflexivity.
  - vm_compute. reflexivity.
Defined.

Lemma evaluateBindAddress_checks_the_address_witness :
  Go.calls (NodeupHost.evaluateBindAddress HelperSamples.sampleHost "10.0.0.4")
  = [] /\
  (forall r, Go.result (NodeupHost.evaluateBindAddress
                          HelperSamples.sampleHost "10.0.0.4") = Go.Ok r <->
             r = "10.0.0.4" /\
             ("10.0.0.4" = "" \/
              NodeupHost.ParseIP HelperSamples.sampleHost "10.0.0.4" = true)) /\
  ("10.0.0.4" <> "" ->
   NodeupHost.ParseIP HelperSamples.sampleHost "10.0.0.4" = false ->
   Go.result (NodeupHost.evaluateBindAddress HelperSamples.sampleHost "10.0.0.4")
   = Go.Err "bindAddress is not valid IP address").
Proof.
  apply (evaluateBindAddress_checks_the_address
           HelperSamples.sampleHost "10.0.0.4").
  discriminate.
Defined.

Lemma deref_result A (p : option A) :
  Go.result (NodeupHost.deref p) =
  match p with Some a => Go.Ok a | None => Go.Panic Go.nilDereference end.
Proof. destruct p; reflexivity. Qed.

(** X18 -- [evaluateSpec] dereferences the cluster's [Kubelet] and
    [MasterKubelet] without a nil check: with [Kubelet] nil it panics
    before any call, and it returns nil only when both are set.  It
    leaves [KubeProxy] and [Docker] nil when they are nil, and without a
    [Docker] section the kernel is left alone. *)
Theorem evaluateSpec_needs_both_kubelet_specs
        w K (kernel : NodeupHost.Kernel K) k c :
  let run := NodeupHost.evaluateSpec w kernel k c in
  (NodeupHost.Kubelet_HostnameOverride c = None ->
   run = ([], Go.Panic Go.nilDereference)) /\
  (forall c' k', Go.result run = Go.Ok (c', k') ->
     NodeupHost.Kubelet_HostnameOverride c <> None /\
     NodeupHost.MasterKubelet_HostnameOverride c <> None /\
     NodeupHost.Kubelet_HostnameOverride c' <> None /\
     NodeupHost.MasterKubelet_HostnameOverride c' <> None /\
     (NodeupHost.KubeProxy c = None <-> NodeupHost.KubeProxy c' = None) /\
     (NodeupHost.Docker_Storage c = None <->
      NodeupHost.Docker_Storage c' = None) /\
     (NodeupHost.Docker_Storage c = None -> k' = k)).
Proof.
  intros run. subst run. unfold NodeupHost.evaluateSpec. split.
  - intros ->. reflexivity.
  - intros c' k'.
    rewrite Go_result_bind, deref_result.
    destruct (NodeupHost.Kubelet_HostnameOverride c) as [h1|];
      [|intros H; discriminate H].
    cbv iota beta. rewrite Go_result_bind.
    destruct (Go.result (NodeupHost.evaluateHostnameOverride w h1))
      as [n1|?|?]; [|intros H; discriminate H ..].
    rewrite Go_result_bind, deref_result.
    destruct (NodeupHost.MasterKubelet_HostnameOverride c) as [h2|];
      [|intros H; discriminate H].
    cbv iota beta. rewrite Go_result_bind.
    destruct (Go.result (NodeupHost.evaluateHostnameOverride w h2))
      as [n2|?|?]; [|intros H; discriminate H ..].
    rewrite Go_result_bind.
    destruct (Go.result (NodeupHost.evaluateHostnameOverride w _))
      as [n3|?|?]; [|intros H; discriminate H ..].
    rewrite Go_result_bind.
    destruct (NodeupHost.KubeProxy c) as [p|].
    + rewrite Go_result_bind.
      destruct (Go.result (NodeupHost.evaluateHostnameOverride w _))
        as [n4|?|?]; [|intros H; discriminate H ..].
      rewrite Go_result_bind.
      destruct (Go.result (NodeupHost.evaluateBindAddress w _))
        as [b|?|?]; [|intros H; discriminate H ..].
      cbn [Go.result Go.ret snd]. rewrite Go_result_bind.
      destruct (NodeupHost.Docker_Storage c) as [s|].
      * rewrite Go_result_bind.
        destruct (Go.result (NodeupHost.evaluateDockerSpecStorage w kernel k s))
          as [[s' k1]|?|?]; [|intros H; discriminate H ..].
        cbn. intros [= <- <-]. cbn.
        repeat split; try discriminate.
      * cbn. intros [= <- <-]. cbn.
        repeat split; try discriminate; auto.
    + cbn [Go.result Go.ret snd]. rewrite Go_result_bind.
      destruct (NodeupHost.Docker_Storage c) as [s|].
      * rewrite Go_result_bind.
        destruct (Go.result (NodeupHost.evaluateDockerSpecStorage w kernel k s))
          as [[s' k1]|?|?]; [|intros H; discriminate H ..].
        cbn. intros [= <- <-]. cbn.
        repeat split; try discriminate; auto.
      * cbn. intros [= <- <-]. cbn.
        repeat split; try discriminate; auto.
Qed.

(* ===================================================================== *)
(** ** [nodeUpConfigBuilder.BuildConfig]                                   *)
(* ===================================================================== *)

(** X19 -- [BuildConfig] fails in exactly three cases: no instance group
    is given, the instance group has no role, or the node is to use the
    configuration server (the feature flag is on and the role is not
    [Master]) and the CA certificate cannot be read.  A master's
    configuration is therefore built whatever the CA resource gives. *)
Theorem BuildConfig_fails_only_without_role_or_CA env x n ig ips ca :
  (exists e, CloudupConfig.BuildConfig env x n ig ips ca = inl e) <->
  ig = None \/
  (exists g, ig = Some g /\
             (Kops.ig_Role g = "" \/
              (HelperProps.useConfigServer env x g = true /\
               exists err, ca = inl err))).
Proof.
  destruct ig as [g|].
  2: { split; [auto | intros _; eexists; reflexivity]. }
  cbv beta iota zeta delta [CloudupConfig.BuildConfig].
  destruct (String.eqb (Kops.ig_Role g) "") eqn:R.
  { apply String.eqb_eq in R. split; [|intros _; eexists; reflexivity].
    intros _. right. exists g. auto. }
  apply String.eqb_neq in R.
  destruct (ApiNodeup.NewConfig x (CloudupConfig.cluster n) g) as [c0 aux].
  change (CloudupConfig.KopsControllerStateStore env &&
          negb (String.eqb (Kops.ig_Role g) (Kops.InstanceGroupRoleMaster x)))
    with (HelperProps.useConfigServer env x g).
  destruct (HelperProps.useConfigServer env x g) eqn:U.
  - destruct ca as [err|c].
    + split; [|intros _; eexists; reflexivity].
      intros _. right. exists g. split; [reflexivity|]. right. eauto.
    + split; [intros [e H]; discriminate|].
      intros [H|(g' & E & [H|[_ [err H]]])]; try discriminate.
      injection E as <-. contradiction.
  - split; [intros [e H]; discriminate|].
    intros [H|(g' & E & [H|[H _]])]; try discriminate;
      injection E as <-; [contradiction | congruence].
Qed.

(** X20 -- A configuration [BuildConfig] returns names exactly one source
    for the rest of the node's configuration: the configuration server
    (with the CA that was read and the cluster's cloud provider) when
    the feature flag is on and the role is not [Master], and the
    configuration base otherwise; a master always gets the
    configuration base. *)
Theorem BuildConfig_names_one_configuration_source
        env x n g ips ca config aux
  (H : CloudupConfig.BuildConfig env x n (Some g) ips ca = inr (config, aux)) :
  (if HelperProps.useConfigServer env x g
   then ApiNodeup.ConfigBase config = None /\
        exists c, ca = inr c /\
                  ApiNodeup.ConfigServer config =
                  Some (ApiNodeup.mkConfigServerOptions
                          (CloudupConfig.controllerURL env
                             (String.append "kops-controller.internal."
                                (Kops.cl_Name (CloudupConfig.cluster n))))
                          c
                          (Kops.cl_CloudProvider (CloudupConfig.cluster n)))
   else ApiNodeup.ConfigServer config = None /\
        ApiNodeup.ConfigBase config = Some (CloudupConfig.configBase n)) /\
  (HelperProps.isMaster x g = true ->
   ApiNodeup.ConfigServer config = None /\
   ApiNodeup.ConfigBase config = Some (CloudupConfig.configBase n)).
Proof.
  assert (Hm : HelperProps.isMaster x g = true ->
               HelperProps.useConfigServer env x g = false).
  { unfold HelperProps.useConfigServer. intros ->. apply andb_false_r. }
  revert H Hm.
  cbv beta iota zeta delta [CloudupConfig.BuildConfig HelperProps.useConfigServer
                         HelperProps.isMaster].
  destruct (String.eqb (Kops.ig_Role g) ""); [discriminate|].
  unfold ApiNodeup.NewConfig.
  destruct (CloudupConfig.KopsControllerStateStore env &&
            negb (String.eqb (Kops.ig_Role g) (Kops.InstanceGroupRoleMaster x))).
  - destruct ca as [err|c]; [discriminate|].
    intros [= <- <-] Hm. simpl. split; [eauto|].
    intros M. specialize (Hm M). discriminate.
  - intros [= <- <-] Hm. simpl. auto.
Qed.

Lemma BuildConfig_names_one_configuration_source_witness :
  exists config aux,
    CloudupConfig.BuildConfig HelperSamples.sampleEnv
      HelperSamples.sampleExternals HelperSamples.sampleBuilder
      (Some HelperSamples.sampleNodes) [] (inr "-----BEGIN CERTIFICATE-----")
    = inr (config, aux) /\
    ApiNodeup.ConfigBase config = None /\
    ApiNodeup.ConfigServer config =
    Some (ApiNodeup.mkConfigServerOptions
            "https://kops-controller.internal.minimal.example.com:3988/"
            "-----BEGIN CERTIFICATE-----" "aws").
Proof.
  destruct (CloudupConfig.BuildConfig HelperSamples.sampleEnv
              HelperSamples.sampleExternals HelperSamples.sampleBuilder
              (Some HelperSamples.sampleNodes) []
              (inr "-----BEGIN CERTIFICATE-----")) as [e|[config aux]] eqn:B;
    [vm_compute in B; discriminate B|].
  exists config, aux. split; [reflexivity|].
  destruct (BuildConfig_names_one_configuration_source
              HelperSamples.sampleEnv HelperSamples.sampleExternals
              HelperSamples.sampleBuilder HelperSamples.sampleNodes []
              (inr "-----BEGIN CERTIFICATE-----") config aux B)
    as [[Hb (c & [= <-] & Hs)] _].
  split; [exact Hb | exact Hs].
Defined.

Lemma matchesRole_from role roles :
  forall matched,
    fold_left (fun matched r => if String.eqb r role then true else matched)
              roles matched =
    matched || existsb (fun r => String.eqb r role) roles.
Proof.
  induction roles as [|r rs IH]; intros matched; simpl.
  - now rewrite orb_false_r.
  - rewrite IH. destruct (String.eqb r role); simpl.
    + now rewrite orb_true_r.
    + reflexivity.
Qed.

Lemma matchesRole_In role roles :
  CloudupConfig.matchesRole role roles = true <-> In role roles.
Proof.
  unfold CloudupConfig.matchesRole. rewrite matchesRole_from. simpl.
  rewrite existsb_exists. split.
  - intros (r & Hin & E). apply String.eqb_eq in E. now subst.
  - intros H. exists role. split; [exact H | apply String.eqb_refl].
Qed.

Lemma manifests_from role l :
  forall acc,
    fold_left
      (fun acc manifest =>
         if negb (CloudupConfig.matchesRole role (CloudupConfig.sm_Roles manifest))
         then acc
         else acc ++ [ApiNodeup.mkStaticManifest (CloudupConfig.sm_Key manifest)
                                                 (CloudupConfig.sm_Path manifest)])
      l acc =
    acc ++ map (fun m => ApiNodeup.mkStaticManifest (CloudupConfig.sm_Key m)
                                                    (CloudupConfig.sm_Path m))
               (filter (fun m => CloudupConfig.matchesRole
                                   role (CloudupConfig.sm_Roles m)) l).
Proof.
  induction l as [|m l IH]; intros acc; simpl.
  - now rewrite app_nil_r.
  - rewrite IH.
    destruct (CloudupConfig.matchesRole role (CloudupConfig.sm_Roles m)); simpl.
    + now rewrite <- app_assoc.
    + reflexivity.
Qed.

(** X21 -- The static manifests of the node configuration are those of
    the asset builder whose [Roles] name the instance group's role, in
    the asset builder's order, as key and path; the additional API
    server addresses are passed on to masters only. *)
Theorem BuildConfig_gives_the_manifests_of_the_role
        env x n g ips ca config aux
  (H : CloudupConfig.BuildConfig env x n (Some g) ips ca = inr (config, aux)) :
  ApiNodeup.StaticManifests config =
    map (fun m => ApiNodeup.mkStaticManifest (CloudupConfig.sm_Key m)
                                             (CloudupConfig.sm_Path m))
        (filter (fun m => CloudupConfig.matchesRole
                            (Kops.ig_Role g) (CloudupConfig.sm_Roles m))
                (CloudupConfig.staticManifests n)) /\
  (forall m, In m (ApiNodeup.StaticManifests config) <->
             exists sm, In sm (CloudupConfig.staticManifests n) /\
                        In (Kops.ig_Role g) (CloudupConfig.sm_Roles sm) /\
                        m = ApiNodeup.mkStaticManifest (CloudupConfig.sm_Key sm)
                                                       (CloudupConfig.sm_Path sm)) /\
  ApiNodeup.ApiserverAdditionalIPs config =
    (if HelperProps.isMaster x g then ips else []).
Proof.
  revert H.
  cbv beta iota zeta delta [CloudupConfig.BuildConfig HelperProps.isMaster].
  destruct (String.eqb (Kops.ig_Role g) ""); [discriminate|].
  unfold ApiNodeup.NewConfig.
  assert (Hin : forall l m,
            In m (map (fun m => ApiNodeup.mkStaticManifest
                                  (CloudupConfig.sm_Key m) (CloudupConfig.sm_Path m))
                      (filter (fun m => CloudupConfig.matchesRole
                                          (Kops.ig_Role g)
                                          (CloudupConfig.sm_Roles m)) l)) <->
            exists sm, In sm l /\
                       In (Kops.ig_Role g) (CloudupConfig.sm_Roles sm) /\
                       m = ApiNodeup.mkStaticManifest (CloudupConfig.sm_Key sm)
                                                      (CloudupConfig.sm_Path sm)).
  { intros l m. rewrite in_map_iff. split.
    - intros (sm & <- & Hf). apply filter_In in Hf. destruct Hf as [Hl Hm].
      apply matchesRole_In in Hm. eauto.
    - intros (sm & Hl & Hm & ->). exists sm. split; [reflexivity|].
      apply filter_In. split; [exact Hl | now apply matchesRole_In]. }
  destruct (CloudupConfig.KopsControllerStateStore env &&
            negb (String.eqb (Kops.ig_Role g) (Kops.InstanceGroupRoleMaster x)));
    [destruct ca as [err|c]; [discriminate|]|];
    intros [= <- <-]; cbn [ApiNodeup.StaticManifests
                            ApiNodeup.ApiserverAdditionalIPs];
    rewrite manifests_from; cbn [app]; repeat split; try apply Hin.
Qed.

Lemma BuildConfig_gives_the_manifests_of_the_role_witness :
  exists config aux,
    CloudupConfig.BuildConfig HelperSamples.sampleEnv
      HelperSamples.sampleExternals HelperSamples.sampleBuilder
      (Some HelperSamples.sampleMasters) ["10.0.0.1"] (inl "no CA yet")
    = inr (config, aux) /\
    ApiNodeup.StaticManifests config =
    [ApiNodeup.mkStaticManifest "kube-apiserver-healthcheck"
                                "manifests/static/healthcheck.yaml"] /\
    ApiNodeup.ApiserverAdditionalIPs config = ["10.0.0.1"].
Proof.
  destruct (CloudupConfig.BuildConfig HelperSamples.sampleEnv
              HelperSamples.sampleExternals HelperSamples.sampleBuilder
              (Some HelperSamples.sampleMasters) ["10.0.0.1"]
              (inl "no CA yet")) as [e|[config aux]] eqn:B;
    [vm_compute in B; discriminate B|].
  exists config, aux. split; [reflexivity|].
  destruct (BuildConfig_gives_the_manifests_of_the_role
              HelperSamples.sampleEnv HelperSamples.sampleExternals
              HelperSamples.sampleBuilder HelperSamples.sampleMasters
              ["10.0.0.1"] (inl "no CA yet") config aux B)
    as (Hs & _ & Hi).
  split; [exact Hs | exact Hi].
Defined.

Lemma GoMap_get_set_same A (m : GoMap.t (list A)) k v :
  GoMap.get (GoMap.set m k v) k = v.
Proof. unfold GoMap.get. now rewrite lookup_set_same. Qed.

Lemma GoMap_get_set_other A (m : GoMap.t (list A)) k k' v :
  k' <> k -> GoMap.get (GoMap.set m k v) k' = GoMap.get m k'.
Proof. intros H. unfold GoMap.get. now rewrite lookup_set_other. Qed.

Lemma appendAssets_same env arch l :
  forall m,
    GoMap.get (CloudupConfig.appendAssets env arch l m) arch =
    GoMap.get m arch ++ map (CloudupConfig.CompactString env) l.
Proof.
  unfold CloudupConfig.appendAssets.
  induction l as [|a l IH]; intros m; simpl.
  - now rewrite app_nil_r.
  - rewrite IH, GoMap_get_set_same, <- app_assoc. reflexivity.
Qed.

Lemma appendAssets_other env arch arch' l :
  arch' <> arch ->
  forall m,
    GoMap.get (CloudupConfig.appendAssets env arch l m) arch' =
    GoMap.get m arch'.
Proof.
  intros Hne. unfold CloudupConfig.appendAssets.
  induction l as [|a l IH]; intros m; simpl; [reflexivity|].
  rewrite IH, GoMap_get_set_other by exact Hne. reflexivity.
Qed.

Lemma reset_loop env (src : GoMap.t (list CloudupConfig.MirroredAsset)) arch l :
  forall m,
    GoMap.get
      (fold_left (fun m a =>
                    CloudupConfig.appendAssets env a (GoMap.get src a)
                                               (GoMap.set m a []))
                 l m) arch =
    if existsb (String.eqb arch) l
    then HelperProps.compact env src arch
    else GoMap.get m arch.
Proof.
  induction l as [|a l IH]; intros m; simpl; [reflexivity|].
  rewrite IH. destruct (existsb (String.eqb arch) l).
  - now rewrite orb_true_r.
  - rewrite orb_false_r. destruct (String.eqb arch a) eqn:E.
    + apply String.eqb_eq in E. subst a.
      rewrite appendAssets_same, GoMap_get_set_same. reflexivity.
    + apply String.eqb_neq in E.
      rewrite appendAssets_other, GoMap_get_set_other by exact E. reflexivity.
Qed.

Lemma append_loop env (src : GoMap.t (list CloudupConfig.MirroredAsset)) arch l :
  NoDup l ->
  forall m,
    GoMap.get
      (fold_left (fun m a =>
                    CloudupConfig.appendAssets env a (GoMap.get src a) m)
                 l m) arch =
    GoMap.get m arch ++
    (if existsb (String.eqb arch) l
     then HelperProps.compact env src arch
     else []).
Proof.
  induction 1 as [|a l Hnin Hnd IH]; intros m; simpl.
  - now rewrite app_nil_r.
  - rewrite IH. destruct (String.eqb arch a) eqn:E; simpl.
    + apply String.eqb_eq in E. subst a.
      assert (Hl : existsb (String.eqb arch) l = false).
      { destruct (existsb (String.eqb arch) l) eqn:X; [|reflexivity].
        apply existsb_exists in X. destruct X as (y & Hy & Ey).
        apply String.eqb_eq in Ey. subst y. contradiction. }
      rewrite Hl, app_nil_r, appendAssets_same. reflexivity.
    + apply String.eqb_neq in E.
      rewrite appendAssets_other by exact E. reflexivity.
Qed.

(** X22 -- When no architecture is listed twice as supported, the node
    configuration holds assets for the supported architectures only,
    and for each of them the compact strings of the builder's assets in
    their order, followed, on a master or in a gossip cluster only, by
    those of the protokube asset and then of the channels asset. *)
Theorem BuildConfig_lists_the_assets_per_architecture
        env x n g ips ca config aux
  (Hnd : NoDup (CloudupConfig.GetSupported env))
  (H : CloudupConfig.BuildConfig env x n (Some g) ips ca = inr (config, aux)) :
  forall arch,
    GoMap.get (ApiNodeup.Assets config) arch =
    if existsb (String.eqb arch) (CloudupConfig.GetSupported env)
    then HelperProps.compact env (CloudupConfig.assets n) arch ++
         (if HelperProps.needsProtokube env x n g
          then HelperProps.compact env (CloudupConfig.protokubeAsset n) arch ++
               HelperProps.compact env (CloudupConfig.channelsAsset n) arch
          else [])
    else [].
Proof.
  intros arch. revert H.
  cbv beta iota zeta delta [CloudupConfig.BuildConfig HelperProps.needsProtokube
                             HelperProps.isMaster].
  destruct (String.eqb (Kops.ig_Role g) ""); [discriminate|].
  unfold ApiNodeup.NewConfig.
  assert (Hg : GoMap.get (ApiNodeup.Assets config) arch =
               GoMap.get (ApiNodeup.Assets config) arch) by reflexivity.
  destruct (CloudupConfig.KopsControllerStateStore env &&
            negb (String.eqb (Kops.ig_Role g) (Kops.InstanceGroupRoleMaster x)));
    [destruct ca as [err|c]; [discriminate|]|];
    intros [= <- <-]; cbn [ApiNodeup.Assets];
    (destruct (String.eqb (Kops.ig_Role g) (Kops.InstanceGroupRoleMaster x) ||
               CloudupConfig.IsGossipHostname env
                 (Kops.cl_MasterInternalName (CloudupConfig.cluster n)));
     [ rewrite !append_loop by exact Hnd; rewrite reset_loop;
       destruct (existsb (String.eqb arch) (CloudupConfig.GetSupported env));
       [ now rewrite app_assoc | reflexivity ]
     | rewrite reset_loop;
       destruct (existsb (String.eqb arch) (CloudupConfig.GetSupported env));
       [ now rewrite app_nil_r | reflexivity ] ]).
Qed.

Lemma BuildConfig_lists_the_assets_per_architecture_witness :
  exists config aux,
    CloudupConfig.BuildConfig HelperSamples.sampleEnv
      HelperSamples.sampleExternals HelperSamples.sampleBuilder
      (Some HelperSamples.sampleMasters) [] (inl "no CA yet")
    = inr (config, aux) /\
    GoMap.get (ApiNodeup.Assets config) "amd64" =
    ["kubelet-amd64"; "kubectl-amd64"; "protokube-amd64"; "channels-amd64"] /\
    GoMap.get (ApiNodeup.Assets config) "arm64" = ["kubelet-arm64"] /\
    GoMap.get (ApiNodeup.Assets config) "riscv64" = [].
Proof.
  destruct (CloudupConfig.BuildConfig HelperSamples.sampleEnv
              HelperSamples.sampleExternals HelperSamples.sampleBuilder
              (Some HelperSamples.sampleMasters) []
              (inl "no CA yet")) as [e|[config aux]] eqn:B;
    [vm_compute in B; discriminate B|].
  exists config, aux. split; [reflexivity|].
  assert (Hnd : NoDup (CloudupConfig.GetSupported HelperSamples.sampleEnv)).
  { simpl. repeat constructor; simpl; intuition discriminate. }
  pose proof (BuildConfig_lists_the_assets_per_architecture
                HelperSamples.sampleEnv HelperSamples.sampleExternals
                HelperSamples.sampleBuilder HelperSamples.sampleMasters
                [] (inl "no CA yet") config aux Hnd B) as A.
  split; [exact (A "amd64")|]. split; [exact (A "arm64") | exact (A "riscv64")].
Defined.

(* ===================================================================== *)
(** ** More on the two drivers                                             *)
(* ===================================================================== *)

Lemma upgradeSpecs_groups w igs :
  (forall g, In g igs -> Cloudup.fails w (HelperProps.populate g) = None) ->
  forEach igs (fun g => call (Cloudup.fails w) (HelperProps.populate g)) =
  (map HelperProps.populate igs, Returned tt).
Proof.
  induction igs as [|g igs IH]; intros H; [reflexivity|].
  cbn [forEach]. unfold call at 1.
  rewrite (H g (or_introl eq_refl)).
  rewrite IH by (intros; apply H; now right). reflexivity.
Qed.

Lemma upgradeSpecs_first_failure w pre g post e :
  (forall g', In g' pre -> Cloudup.fails w (HelperProps.populate g') = None) ->
  Cloudup.fails w (HelperProps.populate g) = Some e ->
  forEach (pre ++ g :: post)
          (fun g => call (Cloudup.fails w) (HelperProps.populate g)) =
  (map HelperProps.populate (pre ++ [g]), Failed e).
Proof.
  induction pre as [|p pre IH]; intros H Hg.
  - cbn [app forEach]. unfold call at 1. rewrite Hg. reflexivity.
  - cbn [app forEach]. unfold call at 1.
    rewrite (H p (or_introl eq_refl)).
    rewrite IH by (auto; intros; apply H; now right). reflexivity.
Qed.

(** X23 -- [upgradeSpecs] populates the cluster and then the instance
    groups in their order, and stops at the first failure, whose error
    it returns as it is: when the cluster cannot be populated no group
    is, and the groups after a group that fails are not populated. *)
Theorem upgradeSpecs_stops_at_the_first_failure w :
  (forall e igs,
     Cloudup.fails w (EvCall "PopulateClusterSpec") = Some e ->
     Cloudup.upgradeSpecs w igs = ([EvCall "PopulateClusterSpec"], Failed e)) /\
  (forall igs,
     Cloudup.fails w (EvCall "PopulateClusterSpec") = None ->
     (forall g, In g igs -> Cloudup.fails w (HelperProps.populate g) = None) ->
     Cloudup.upgradeSpecs w igs =
     (EvCall "PopulateClusterSpec" :: map HelperProps.populate igs,
      Returned tt)) /\
  (forall pre g post e,
     Cloudup.fails w (EvCall "PopulateClusterSpec") = None ->
     (forall g', In g' pre -> Cloudup.fails w (HelperProps.populate g') = None) ->
     Cloudup.fails w (HelperProps.populate g) = Some e ->
     Cloudup.upgradeSpecs w (pre ++ g :: post) =
     (EvCall "PopulateClusterSpec" :: map HelperProps.populate (pre ++ [g]),
      Failed e)).
Proof.
  unfold Cloudup.upgradeSpecs. repeat split.
  - intros e igs H. unfold call at 1. rewrite H. reflexivity.
  - intros igs H Hg. unfold call at 1. rewrite H.
    change (fun g => call (Cloudup.fails w)
                          (EvCall (String.append "PopulateInstanceGroupSpec " g)))
      with (fun g => call (Cloudup.fails w) (HelperProps.populate g)).
    unfold bind. rewrite (upgradeSpecs_groups w igs Hg). reflexivity.
  - intros pre g post e H Hpre Hg. unfold call at 1. rewrite H.
    change (fun g => call (Cloudup.fails w)
                          (EvCall (String.append "PopulateInstanceGroupSpec " g)))
      with (fun g => call (Cloudup.fails w) (HelperProps.populate g)).
    unfold bind. rewrite (upgradeSpecs_first_failure w pre g post e Hpre Hg).
    reflexivity.
Qed.

Lemma checkCloudProvider_admits w cluster :
  returns (Cloudup.checkCloudProvider w cluster)
          (fun _ => HelperProps.providerAdmits w cluster).
Proof.
  intros project. unfold Cloudup.checkCloudProvider, HelperProps.providerAdmits.
  destruct (Cloudup.CloudProvider cluster).
  - destruct (Cloudup.AlphaAllowGCE w); simpl; [auto | discriminate].
  - destruct (Cloudup.sshPublicKeys w) as [|n]; simpl; [|auto].
    destruct (Cloudup.SSHKeyName cluster) as [k|]; [|discriminate].
    destruct (String.eqb k "") eqn:E; [discriminate|].
    intros _. right. exists k. split; [reflexivity | now apply String.eqb_neq].
  - rewrite outcome_bind. unfold call. simpl.
    destruct (Cloudup.fails w (EvCall "awsCloud.AccountInfo")); [discriminate|].
    destruct (Cloudup.sshPublicKeys w) as [|[|n]]; simpl.
    + destruct (Cloudup.SSHKeyName cluster); [|discriminate].
      intros _. split; [lia | discriminate].
    + intros _. split; [lia | discriminate].
    + discriminate.
  - destruct (Cloudup.AlphaAllowALI w); simpl; [|discriminate].
    destruct (Cloudup.sshPublicKeys w) as [|[|n]]; simpl;
      try discriminate; auto.
  - destruct (Cloudup.featureAzure w); simpl; [|discriminate].
    destruct (Cloudup.sshPublicKeys w) as [|[|n]]; simpl;
      try discriminate; auto.
  - destruct (Cloudup.sshPublicKeys w) as [|[|n]]; simpl;
      try discriminate; auto.
  - discriminate.
Qed.

(** X24 -- An apply run that returns without an error passed the checks
    for its cloud provider: on AWS at most one SSH public key, and a key
    or an [SSHKeyName]; on ALICloud, Azure and OpenStack exactly one
    key (and for ALICloud and Azure the feature flag); on DigitalOcean a
    key or a non-empty [SSHKeyName]; on GCE the feature flag; and the
    provider is one of these six. *)
Theorem successful_apply_passed_the_provider_checks c w :
  returns (Cloudup.Run c w)
          (fun _ => HelperProps.providerAdmits w (Cloudup.fullCluster w)).
Proof.
  unfold Cloudup.Run. apply returns_bind_l. unfold Cloudup.prepare.
  in_block ltac:(apply checkCloudProvider_admits).
Qed.

Lemma successful_apply_passed_the_provider_checks_witness :
  HelperProps.providerAdmits (Samples.world Samples.noFailure)
                             Samples.awsCluster.
Proof.
  apply (successful_apply_passed_the_provider_checks
           (Samples.apply TargetDirect PhaseEmpty)
           (Samples.world Samples.noFailure)
           (Cloudup.mkOutputs Samples.withDeletions AWSAPITarget)).
  vm_compute. reflexivity.
Defined.

Lemma returns_guard (b : bool) e (Q : Prop) :
  (b = false -> Q) ->
  returns (if b then @fail unit e else ret tt) (fun _ => Q).
Proof. intros H a. destruct b; [discriminate | intros _; now apply H]. Qed.

Lemma checkKopsDowngrade_checked c w :
  returns (Cloudup.checkKopsDowngrade c w)
    (fun _ => Cloudup.AllowKopsDowngrade c = false ->
              Cloudup.kopsVersionUpdated w = Cloudup.VersionFileNotExist \/
              Cloudup.kopsVersionUpdated w = Cloudup.VersionFileContent true false).
Proof.
  intros a. unfold Cloudup.checkKopsDowngrade.
  destruct (Cloudup.AllowKopsDowngrade c); [discriminate|].
  cbn [negb when]. rewrite outcome_bind. cbn [emit outcome snd].
  destruct (Cloudup.kopsVersionUpdated w) as [|e|[|] [|]]; simpl;
    try discriminate; auto.
Qed.

Lemma checkSecrets_checked w cluster :
  returns (Cloudup.checkSecrets w cluster)
    (fun _ => (Cloudup.BoolValue (Cloudup.EncryptionConfig cluster) = true ->
               Cloudup.encryptionconfigSecret w = true) /\
              (Cloudup.CiliumEnableEncryption cluster = Some true ->
               Cloudup.ciliumpasswordSecret w = true)).
Proof.
  intros a. unfold Cloudup.checkSecrets, when, callWrap.
  destruct (Cloudup.BoolValue (Cloudup.EncryptionConfig cluster));
    destruct (Cloudup.fails w (EvCall "FindSecret encryptionconfig"));
    destruct (Cloudup.encryptionconfigSecret w);
    destruct (Cloudup.CiliumEnableEncryption cluster) as [[|]|];
    destruct (Cloudup.fails w (EvCall "FindSecret ciliumpassword"));
    destruct (Cloudup.ciliumpasswordSecret w);
    simpl; intros H; try discriminate H;
    split; intros; try discriminate; auto.
Qed.

(** X25 -- An apply run that returns without an error found the settings
    it checks before building tasks in order: a Kubernetes version; a
    DNS zone, unless the cluster uses gossip; the encryption
    configuration secret and the Cilium password secret whenever the
    cluster asks for them; and, unless downgrades are allowed, no record
    in the state store of an update by a newer kops (the record is
    absent, or parses and is not newer). *)
Theorem successful_apply_passed_the_settings_checks c w :
  returns (Cloudup.Run c w) (fun _ => HelperProps.settingsChecked c w).
Proof.
  intros out Hout. unfold HelperProps.settingsChecked. lazy zeta.
  assert (H1 : returns (Cloudup.Run c w)
                 (fun _ => Cloudup.KubernetesVersion (Cloudup.fullCluster w)
                           <> "")).
  { unfold Cloudup.Run. apply returns_bind_l. unfold Cloudup.prepare.
    in_block ltac:(apply returns_guard; apply String.eqb_neq). }
  assert (H2 : returns (Cloudup.Run c w)
                 (fun _ => Cloudup.DNSZone (Cloudup.fullCluster w) <> "" \/
                           Cloudup.IsGossipHostname w
                             (Cloudup.Name (Cloudup.fullCluster w)) = true)).
  { unfold Cloudup.Run. apply returns_bind_l. unfold Cloudup.prepare.
    in_block ltac:(apply returns_guard; intros E;
                   apply andb_false_iff in E; destruct E as [E|E];
                   [left; now apply String.eqb_neq
                   |right; now apply negb_false_iff in E]). }
  assert (H3 : returns (Cloudup.Run c w)
                 (fun _ =>
                    (Cloudup.BoolValue
                       (Cloudup.EncryptionConfig (Cloudup.fullCluster w)) = true ->
                     Cloudup.encryptionconfigSecret w = true) /\
                    (Cloudup.CiliumEnableEncryption (Cloudup.fullCluster w)
                     = Some true ->
                     Cloudup.ciliumpasswordSecret w = true))).
  { unfold Cloudup.Run. apply returns_bind_l. unfold Cloudup.prepare.
    in_block ltac:(apply checkSecrets_checked). }
  assert (H4 : returns (Cloudup.Run c w)
                 (fun _ => Cloudup.AllowKopsDowngrade c = false ->
                           Cloudup.kopsVersionUpdated w
                           = Cloudup.VersionFileNotExist \/
                           Cloudup.kopsVersionUpdated w
                           = Cloudup.VersionFileContent true false)).
  { unfold Cloudup.Run. apply returns_bind_l. unfold Cloudup.prepare.
    in_block ltac:(apply checkKopsDowngrade_checked). }
  destruct (H3 out Hout) as [H3a H3b].
  repeat split; [exact (H1 out Hout) | exact (H2 out Hout) | exact H3a
                | exact H3b | exact (H4 out Hout)].
Qed.

Lemma successful_apply_passed_the_settings_checks_witness :
  HelperProps.settingsChecked (Samples.apply TargetDirect PhaseEmpty)
                              (Samples.world Samples.noFailure).
Proof.
  apply (successful_apply_passed_the_settings_checks
           (Samples.apply TargetDirect PhaseEmpty)
           (Samples.world Samples.noFailure)
           (Cloudup.mkOutputs Samples.withDeletions AWSAPITarget)).
  vm_compute. reflexivity.
Defined.

Lemma returns_require A (b : bool) (m : M A) e (Q : Prop) :
  (b = true -> Q) ->
  returns (if b then m else fail e) (fun _ => Q).
Proof. intros H a. destruct b; [intros _; now apply H | discriminate]. Qed.

Lemma returns_chain A (b : bool) (m m' : M A) (Q : Prop) :
  (b = true -> Q) -> returns m' (fun _ => Q) ->
  returns (if b then m else m') (fun _ => Q).
Proof. intros H H' a. destruct b; [intros _; now apply H | apply H']. Qed.

Lemma loadConfig_configured c w :
  returns (Nodeup.loadConfig c w)
    (fun _ =>
       let cfg := Nodeup.config w in
       Nodeup.ConfigLocation c <> "" /\
       Nodeup.CacheDir c <> "" /\
       (Nodeup.ConfigServer cfg = true \/ Nodeup.ConfigBase cfg <> "" \/
        Nodeup.ClusterLocation cfg <> "") /\
       Nodeup.auxConfigHashMatches w = true /\
       (Nodeup.ConfigServer cfg = false -> Nodeup.InstanceGroupName cfg <> "")).
Proof.
  intros a Ha. lazy zeta.
  assert (H1 : returns (Nodeup.loadConfig c w)
                       (fun _ => Nodeup.ConfigLocation c <> "")).
  { unfold Nodeup.loadConfig.
    in_block ltac:(apply returns_require; intros E;
                   apply negb_true_iff in E; now apply String.eqb_neq). }
  assert (H2 : returns (Nodeup.loadConfig c w)
                       (fun _ => Nodeup.CacheDir c <> "")).
  { unfold Nodeup.loadConfig.
    in_block ltac:(apply returns_guard; apply String.eqb_neq). }
  assert (H3 : returns (Nodeup.loadConfig c w)
                 (fun _ => Nodeup.ConfigServer (Nodeup.config w) = true \/
                           Nodeup.ConfigBase (Nodeup.config w) <> "" \/
                           Nodeup.ClusterLocation (Nodeup.config w) <> "")).
  { unfold Nodeup.loadConfig.
    in_block ltac:(apply returns_chain; [auto|];
                   apply returns_chain;
                   [intros E; apply negb_true_iff in E;
                    right; left; now apply String.eqb_neq|];
                   apply returns_require; intros E;
                   apply negb_true_iff in E;
                   right; right; now apply String.eqb_neq). }
  assert (H4 : returns (Nodeup.loadConfig c w)
                       (fun _ => Nodeup.auxConfigHashMatches w = true)).
  { unfold Nodeup.loadConfig.
    in_block ltac:(apply returns_guard; apply negb_false_iff). }
  assert (H5 : returns (Nodeup.loadConfig c w)
                 (fun _ => Nodeup.ConfigServer (Nodeup.config w) = false ->
                           Nodeup.InstanceGroupName (Nodeup.config w) <> "")).
  { unfold Nodeup.loadConfig.
    in_block ltac:(apply returns_chain; [congruence|];
                   apply returns_require; intros E _;
                   apply negb_true_iff in E; now apply String.eqb_neq). }
  repeat split; [exact (H1 a Ha) | exact (H2 a Ha) | exact (H3 a Ha)
                | exact (H4 a Ha) | exact (H5 a Ha)].
Qed.

Lemma buildModelContext_configured w :
  returns (Nodeup.buildModelContext w)
    (fun _ => Nodeup.ConfigServer (Nodeup.config w) = false ->
              Nodeup.SecretStore (Nodeup.cluster w) <> "" /\
              Nodeup.KeyStore (Nodeup.cluster w) <> "").
Proof.
  intros a Ha.
  assert (H1 : returns (Nodeup.buildModelContext w)
                 (fun _ => Nodeup.ConfigServer (Nodeup.config w) = false ->
                           Nodeup.SecretStore (Nodeup.cluster w) <> "")).
  { unfold Nodeup.buildModelContext. lazy zeta.
    in_block ltac:(apply returns_chain; [congruence|];
                   apply returns_require; intros E _;
                   apply negb_true_iff in E; now apply String.eqb_neq). }
  assert (H2 : returns (Nodeup.buildModelContext w)
                 (fun _ => Nodeup.ConfigServer (Nodeup.config w) = false ->
                           Nodeup.KeyStore (Nodeup.cluster w) <> "")).
  { unfold Nodeup.buildModelContext. lazy zeta.
    in_block ltac:(apply returns_chain; [congruence|];
                   apply returns_require; intros E _;
                   apply negb_true_iff in E; now apply String.eqb_neq). }
  intros S. split; [exact (H1 a Ha S) | exact (H2 a Ha S)].
Qed.

(** X26 -- A nodeup run that returns without an error had what it
    requires: a configuration location and a cache directory; a
    configuration server, a configuration base or a cluster location in
    the loaded configuration; an auxiliary configuration whose hash
    matches; and, when no configuration server is used, an instance
    group name, a secret store and a key store. *)
Theorem successful_nodeup_had_its_configuration c w :
  returns (Nodeup.Run c w) (fun _ => HelperProps.nodeupConfigured c w).
Proof.
  intros a Ha. unfold HelperProps.nodeupConfigured. lazy zeta.
  assert (H1 : returns (Nodeup.Run c w)
                 (fun _ =>
                    let cfg := Nodeup.config w in
                    Nodeup.ConfigLocation c <> "" /\
                    Nodeup.CacheDir c <> "" /\
                    (Nodeup.ConfigServer cfg = true \/
                     Nodeup.ConfigBase cfg <> "" \/
                     Nodeup.ClusterLocation cfg <> "") /\
                    Nodeup.auxConfigHashMatches w = true /\
                    (Nodeup.ConfigServer cfg = false ->
                     Nodeup.InstanceGroupName cfg <> ""))).
  { unfold Nodeup.Run. apply returns_bind_l. unfold Nodeup.prepare.
    apply returns_bind_l. apply loadConfig_configured. }
  assert (H2 : returns (Nodeup.Run c w)
                 (fun _ => Nodeup.ConfigServer (Nodeup.config w) = false ->
                           Nodeup.SecretStore (Nodeup.cluster w) <> "" /\
                           Nodeup.KeyStore (Nodeup.cluster w) <> "")).
  { unfold Nodeup.Run. apply returns_bind_l. unfold Nodeup.prepare.
    apply returns_bind; intros ? _. apply returns_bind_l.
    apply buildModelContext_configured. }
  destruct (H1 a Ha) as (A1 & A2 & A3 & A4 & A5).
  split; [exact A1|]. split; [exact A2|]. split; [exact A3|].
  split; [exact A4|]. intros S. destruct (H2 a Ha S) as [B1 B2].
  split; [now apply A5|]. split; assumption.
Qed.

Lemma successful_nodeup_had_its_configuration_witness :
  HelperProps.nodeupConfigured (Samples.nodeup "direct")
                               (Samples.nodeWorld Samples.noFailure).
Proof.
  apply (successful_nodeup_had_its_configuration
           (Samples.nodeup "direct") (Samples.nodeWorld Samples.noFailure) tt).
  vm_compute. reflexivity.
Defined.

Lemma Itoa_inj i j : Nodeup.Itoa i = Nodeup.Itoa j -> i = j.
Proof.
  unfold Nodeup.Itoa. intros H.
  apply DecimalNat.Unsigned.to_uint_inj.
  apply (f_equal NilEmpty.uint_of_string) in H.
  rewrite !NilEmpty.usu in H. now injection H.
Qed.

Lemma loadImageKey_inj i j :
  HelperProps.loadImageKey i = HelperProps.loadImageKey j -> i = j.
Proof.
  unfold HelperProps.loadImageKey. cbn [String.append]. intros H.
  injection H as H. now apply Itoa_inj.
Qed.

Lemma lookup_mapSet_same (m : TaskMap) k v :
  GoMap.lookup (Nodeup.mapSet m k v) k = Some v.
Proof.
  induction m as [|[k' v'] m IH]; simpl.
  - now rewrite String.eqb_refl.
  - destruct (String.eqb k k') eqn:E; simpl.
    + now rewrite String.eqb_refl.
    + rewrite E. exact IH.
Qed.

Lemma lookup_mapSet_other (m : TaskMap) k k' v :
  k' <> k -> GoMap.lookup (Nodeup.mapSet m k v) k' = GoMap.lookup m k'.
Proof.
  intros Hk. induction m as [|[k0 v0] m IH]; simpl.
  - apply String.eqb_neq in Hk. now rewrite Hk.
  - destruct (String.eqb k k0) eqn:E; simpl.
    + apply String.eqb_eq in E. subst k0.
      apply String.eqb_neq in Hk. now rewrite Hk.
    + destruct (String.eqb k' k0); [reflexivity | exact IH].
Qed.

Lemma addLoadImageTasks_other images :
  forall s taskMap k,
    (forall j, j < length images -> k <> HelperProps.loadImageKey (s + j)) ->
    GoMap.lookup (Nodeup.addLoadImageTasks s images taskMap) k =
    GoMap.lookup taskMap k.
Proof.
  induction images as [|image rest IH]; intros s taskMap k H; [reflexivity|].
  cbn [Nodeup.addLoadImageTasks]. rewrite IH.
  - apply lookup_mapSet_other. specialize (H 0 (Nat.lt_0_succ _)).
    now rewrite Nat.add_0_r in H.
  - intros j Hj. specialize (H (S j)). simpl in H.
    rewrite Nat.add_succ_r in H. apply H. lia.
Qed.

Lemma addLoadImageTasks_at images :
  forall s taskMap j image,
    nth_error images j = Some image ->
    GoMap.lookup (Nodeup.addLoadImageTasks s images taskMap)
                 (HelperProps.loadImageKey (s + j)) =
    Some (HelperProps.loadImageTask image).
Proof.
  induction images as [|img rest IH]; intros s taskMap j image H.
  - destruct j; discriminate.
  - cbn [Nodeup.addLoadImageTasks]. destruct j as [|j].
    + injection H as <-. rewrite Nat.add_0_r.
      rewrite addLoadImageTasks_other.
      * apply lookup_mapSet_same.
      * intros j _ E. apply loadImageKey_inj in E. lia.
    + simpl in H. rewrite Nat.add_succ_r.
      apply (IH (S s) _ j image H).
Qed.

(** X27 -- The image tasks nodeup adds to the task map: the image at
    index [i] of the configuration is filed under the key [LoadImage.i]
    (replacing a task the loader may have built under that key), and
    every task under another key is kept. *)
Theorem addLoadImageTasks_files_each_image_under_its_index images taskMap :
  (forall i image,
     nth_error images i = Some image ->
     GoMap.lookup (Nodeup.addLoadImageTasks 0 images taskMap)
                  (HelperProps.loadImageKey i) =
     Some (HelperProps.loadImageTask image)) /\
  (forall k,
     (forall i, i < length images -> k <> HelperProps.loadImageKey i) ->
     GoMap.lookup (Nodeup.addLoadImageTasks 0 images taskMap) k =
     GoMap.lookup taskMap k).
Proof.
  split.
  - intros i image H. apply (addLoadImageTasks_at images 0 taskMap i image H).
  - intros k H. apply addLoadImageTasks_other. exact H.
Qed.

(* ===================================================================== *)
(** ** Mirroring and deleting key sets                                     *)
(* ===================================================================== *)

Lemma writeBundle_calls w o p :
  forall c, In c (Go.calls (FiStore.writeBundle w o p)) ->
            c = FiStore.Serialize o \/ c = FiStore.GetACL p \/
            exists data, c = FiStore.WriteFile p data /\
                         FiStore.serialize w o = inr data.
Proof.
  intros c. unfold FiStore.writeBundle. go_simpl.
  destruct (FiStore.serialize w o) as [e|data]; simpl.
  - intros [<-|[]]. auto.
  - destruct (FiStore.getACL w p) as [e|]; simpl.
    + intros [<-|[<-|[]]]; auto.
    + intros [<-|[<-|[<-|[]]]]; eauto.
Qed.

Lemma writeBundle_wrote w o p :
  Go.result (FiStore.writeBundle w o p) = Go.Ok tt ->
  exists data, FiStore.serialize w o = inr data /\
               FiStore.writeFile w p data = None /\
               In (FiStore.WriteFile p data)
                  (Go.calls (FiStore.writeBundle w o p)).
Proof.
  unfold FiStore.writeBundle. go_simpl.
  destruct (FiStore.serialize w o) as [e|data]; simpl; [discriminate|].
  destruct (FiStore.getACL w p) as [e|]; simpl; [discriminate|].
  destruct (FiStore.writeFile w p data) as [e|] eqn:W; simpl; [discriminate|].
  intros _. exists data. repeat split; auto.
Qed.

(** X28 -- [mirrorKeyset] refuses a key set in which [FindPrimary] finds
    no key, and a key set that is not a key pair, before it makes any
    call.  What it writes under [issued/] is the serialization of the
    key set without its private key material; the full key set is
    written only under [private/], and only after the bundle under
    [issued/] was written. *)
Theorem mirrorKeyset_keeps_private_material_out_of_issued
        x w basedir keyset :
  let run := FiStore.mirrorKeyset x w basedir keyset in
  let issued := HelperProps.issuedBundle basedir keyset in
  let private := HelperProps.privateBundle basedir keyset in
  (Fi.FindPrimary x keyset = None \/
   Kops.ks_Type keyset <> Kops.SecretTypeKeypair ->
   Go.calls run = [] /\ exists e, Go.result run = Go.Err e) /\
  (forall p data,
     In (FiStore.WriteFile p data) (Go.calls run) ->
     (p = issued /\
      FiStore.serialize w (Fi.removePrivateKeyMaterial keyset) = inr data) \/
     (p = private /\ FiStore.serialize w keyset = inr data /\
      exists bundle,
        FiStore.serialize w (Fi.removePrivateKeyMaterial keyset) = inr bundle /\
        FiStore.writeFile w issued bundle = None /\
        In (FiStore.WriteFile issued bundle) (Go.calls run))).
Proof.
  intros run issued private. subst run. unfold FiStore.mirrorKeyset.
  fold (HelperProps.issuedBundle basedir keyset).
  fold (HelperProps.privateBundle basedir keyset).
  fold issued. fold private.
  destruct (Fi.FindPrimary x keyset) as [primary|].
  2: { split; [intros _; split; [reflexivity | eexists; reflexivity]|].
       intros p data []. }
  destruct (Kops.ks_Type keyset) eqn:T.
  - split; [intros [H|H]; [discriminate | congruence]|].
    intros p data. rewrite Go_calls_bind. intros H. apply in_app_or in H.
    destruct H as [H|H].
    + apply writeBundle_calls in H.
      destruct H as [H|[H|(d & H & S)]]; try discriminate.
      injection H as -> ->. left. auto.
    + destruct (Go.result (FiStore.writeBundle w
                             (Fi.removePrivateKeyMaterial keyset) issued))
        as [[]|e|m] eqn:R; try (destruct H).
      apply writeBundle_calls in H.
      destruct H as [H|[H|(d & H & S)]]; try discriminate.
      injection H as -> ->. right. repeat split; auto.
      destruct (writeBundle_wrote w _ _ R) as (bundle & S1 & W1 & I1).
      exists bundle. repeat split; auto.
      apply in_or_app. now left.
  - split; [intros _; split; [reflexivity | eexists; reflexivity]|].
    intros p data [].
  - split; [intros _; split; [reflexivity | eexists; reflexivity]|].
    intros p data [].
Qed.

Lemma withoutId_filter id keys :
  forall newKeys found,
    FiStore.withoutId id keys newKeys found =
    (newKeys ++ HelperProps.keysWithout id keys,
     found || HelperProps.hasId id keys).
Proof.
  unfold HelperProps.keysWithout, HelperProps.hasId.
  induction keys as [|ki rest IH]; intros newKeys found; simpl.
  - now rewrite app_nil_r, orb_false_r.
  - destruct (String.eqb (Kops.Id ki) id); rewrite IH; simpl.
    + now rewrite orb_true_r.
    + now rewrite <- app_assoc.
Qed.

(** X29 -- [deleteKeysetItem] makes at most one change.  A key set that is
    not found is no error and nothing is changed.  For a key set of the
    expected type that holds the id, every key with that id is removed
    and the other keys are kept in their order: the key set is updated
    with them, or deleted when none is left.  A key set of another type,
    or one that does not hold the id, is an error and nothing is
    changed. *)
Theorem deleteKeysetItem_removes_the_keys_with_the_id w name t id :
  let run := FiStore.deleteKeysetItem w name t id in
  (FiStore.get w name = FiStore.NotFound ->
   run = ([FiStore.Get name], Go.Ok tt)) /\
  (forall keyset,
     FiStore.get w name = FiStore.Found keyset ->
     let kept := HelperProps.keysWithout id (Kops.Keys keyset) in
     if FiStore.KeysetType_eqb (Kops.ks_Type keyset) t &&
        HelperProps.hasId id (Kops.Keys keyset)
     then Go.calls run =
          [FiStore.Get name;
           match kept with
           | [] => FiStore.Delete name
           | _ => FiStore.Update
                    (Kops.mkKeyset (Kops.ks_Name keyset) (Kops.ks_Type keyset)
                                   (Kops.PrimaryId keyset) kept)
           end]
     else Go.calls run = [FiStore.Get name] /\
          exists e, Go.result run = Go.Err e).
Proof.
  intros run. subst run. unfold FiStore.deleteKeysetItem. split.
  - intros ->. reflexivity.
  - intros keyset ->. lazy zeta.
    rewrite Go_calls_bind, Go_result_bind. cbn [Go.calls Go.result fst snd].
    destruct (FiStore.KeysetType_eqb (Kops.ks_Type keyset) t); simpl.
    2: { split; [reflexivity | eexists; reflexivity]. }
    rewrite withoutId_filter. cbn [app orb].
    destruct (HelperProps.hasId id (Kops.Keys keyset)); simpl.
    2: { split; [reflexivity | eexists; reflexivity]. }
    destruct (HelperProps.keysWithout id (Kops.Keys keyset)); reflexivity.
Qed.

(* ===================================================================== *)
(** ** Validation of the etcd clusters                                     *)
(* ===================================================================== *)

Lemma validateEtcdBackupStore_from_nil specs path :
  forall allErrs seen,
    Validation.validateEtcdBackupStore_from allErrs seen specs path = [] <->
    allErrs = [] /\
    NoDup (map Kops.etcd_Name specs) /\
    (forall x, In x specs -> ~ In (Kops.etcd_Name x) seen).
Proof.
  induction specs as [|x rest IH]; intros allErrs seen; simpl.
  - split; [intros ->; repeat split; [constructor | intros ? []] | tauto].
  - rewrite IH.
    destruct (existsb (String.eqb (Kops.etcd_Name x)) seen) eqn:E.
    + split.
      * intros [H _]. now apply app_eq_nil in H as [_ H].
      * intros (_ & _ & H). exfalso. apply (H x (or_introl eq_refl)).
        apply existsb_exists in E. destruct E as (y & Hy & Ey).
        apply String.eqb_eq in Ey. now subst.
    + assert (Hx : ~ In (Kops.etcd_Name x) seen).
      { intros Hin. assert (T : existsb (String.eqb (Kops.etcd_Name x)) seen = true).
        { apply existsb_exists. exists (Kops.etcd_Name x).
          split; [exact Hin | apply String.eqb_refl]. }
        congruence. }
      split.
      * intros (-> & Hnd & Hseen). split; [reflexivity|]. split.
        -- constructor; [|exact Hnd]. intros Hin.
           apply in_map_iff in Hin. destruct Hin as (y & Ey & Hy).
           apply (Hseen y Hy). left. now symmetry.
        -- intros y [<-|Hy]; [exact Hx|].
           intros Hin. apply (Hseen y Hy). now right.
      * intros (-> & Hnd & Hseen). inversion Hnd as [|? ? Hnin Hnd']; subst.
        split; [reflexivity|]. split; [exact Hnd'|].
        intros y Hy [Hin|Hin].
        -- apply Hnin. apply in_map_iff. exists y. split; [now symmetry | exact Hy].
        -- apply (Hseen y (or_intror Hy) Hin).
Qed.

Lemma count_TLS specs :
  forall n,
    fold_left (fun usingTLS x =>
                 if Kops.etcd_EnableEtcdTLS x then S usingTLS else usingTLS)
              specs n =
    n + length (filter Kops.etcd_EnableEtcdTLS specs).
Proof.
  induction specs as [|x rest IH]; intros n; simpl; [lia|].
  rewrite IH. destruct (Kops.etcd_EnableEtcdTLS x); simpl; lia.
Qed.

Lemma filter_all A (f : A -> bool) l :
  length (filter f l) = length l <-> forall x, In x l -> f x = true.
Proof.
  induction l as [|a l IH]; simpl.
  - split; [intros _ ? [] | reflexivity].
  - pose proof (filter_length_le f l) as Hle.
    destruct (f a) eqn:E; simpl.
    + split.
      * intros H x [<-|Hx]; [exact E|]. apply IH; [lia | exact Hx].
      * intros H. f_equal. apply IH. intros; apply H; now right.
    + split; [lia|]. intros H. specialize (H a (or_introl eq_refl)). congruence.
Qed.

Lemma filter_none A (f : A -> bool) l :
  length (filter f l) = 0 <-> forall x, In x l -> f x = false.
Proof.
  induction l as [|a l IH]; simpl.
  - split; [intros _ ? [] | reflexivity].
  - destruct (f a) eqn:E; simpl.
    + split; [discriminate|]. intros H.
      specialize (H a (or_introl eq_refl)). congruence.
    + rewrite IH. split.
      * intros H x [<-|Hx]; auto.
      * intros H x Hx. apply H. now right.
Qed.

(** X30 -- What the two list checks of the etcd clusters accept:
    [validateEtcdBackupStore] reports nothing exactly when no two
    clusters have the same name, and [validateEtcdTLS] reports nothing
    exactly when TLS is enabled for all clusters or for none. *)
Theorem etcd_cluster_lists_are_checked specs path :
  (Validation.validateEtcdBackupStore specs path = [] <->
   NoDup (map Kops.etcd_Name specs)) /\
  (Validation.validateEtcdTLS specs path = [] <->
   (forall x, In x specs -> Kops.etcd_EnableEtcdTLS x = true) \/
   (forall x, In x specs -> Kops.etcd_EnableEtcdTLS x = false)).
Proof.
  split.
  - unfold Validation.validateEtcdBackupStore.
    rewrite validateEtcdBackupStore_from_nil. split.
    + tauto.
    + intros H. repeat split; auto.
  - unfold Validation.validateEtcdTLS. rewrite count_TLS.
    rewrite <- filter_all, <- filter_none. cbn [Nat.add app].
    set (usingTLS := length (filter Kops.etcd_EnableEtcdTLS specs)).
    destruct (0 <? usingTLS)%nat eqn:P;
      destruct (usingTLS =? length specs)%nat eqn:E; cbn [andb negb].
    + apply Nat.eqb_eq in E. split; auto.
    + apply Nat.eqb_neq in E. apply Nat.ltb_lt in P.
      split; [discriminate|]. intros [H|H]; [congruence | lia].
    + apply Nat.ltb_ge in P. split; [|reflexivity]. intros _. right. lia.
    + apply Nat.ltb_ge in P. split; [|reflexivity]. intros _. right. lia.
Qed.
